(** * Pragyan front end: camera scanner, manual form, page component, audio helper

    A shallow embedding of the client-side workflow code:
    - [Scanner]  static/js/ar-camera.js        (class ARCameraScanner)
    - [Manual]   the manual text-form handler  (class ManualInputHandler)
    - [Page]     frontend_prayan/src/app/page.tsx (component PragyanAI)
    - [Audio]    the recording helper appended to page.tsx (class EnhancedAudioInput)
    - [Detection] the manual form's input-type detection
    - [Voice]    page.tsx, recording in voice mode and choosing an image
    - [Monitor]  the recording helper's devices and monitoring

    Conventions of the embedding.
    - A JavaScript string is the list of its UTF-16 code units.
    - An [async] handler is a function of the state and of the outcomes of its
      awaits (what the browser or the backend answers), which the caller
      supplies; it returns the state once the handler has run to its end.
      Where the interleaving of two pending handlers matters (camera start)
      the handler is split at its await.
    - [alert], [fetch] and callback invocations are recorded in traces held in
      the state, most recent last.
    - Markup is kept as a tree of the elements the templates produce; text
      labels, icons, CSS classes without behaviour, and console output are
      left out. The templates interpolate texts of the backend unescaped;
      the tree is the one the parser builds when those texts bring no markup
      of their own. *)

From Stdlib Require Import ZArith NArith List String Ascii Bool Lia Arith.
From Stdlib Require Import DecimalString.
Import ListNotations.

Local Open Scope list_scope.

(** ** JavaScript strings *)

Definition jstring := list N.

Definition lit (s : string) : jstring :=
  map N_of_ascii (list_ascii_of_string s).

Fixpoint jstr_eqb (a b : jstring) : bool :=
  match a, b with
  | [], [] => true
  | c :: a', d :: b' => N.eqb c d && jstr_eqb a' b'
  | _, _ => false
  end.

(** Truthiness of a string value: every string but the empty one. *)
Definition nonempty (s : jstring) : bool :=
  match s with [] => false | _ :: _ => true end.

(** Truthiness of an optional string property ([undefined] is falsy). *)
Definition truthy (o : option jstring) : bool :=
  match o with Some s => nonempty s | None => false end.

(** [a || d] on an optional string property with a string default. *)
Definition or_else (o : option jstring) (d : jstring) : jstring :=
  match o with
  | Some s => if nonempty s then s else d
  | None => d
  end.

(** [a || b] on two optional string properties. *)
Definition or_opt (a b : option jstring) : option jstring :=
  if truthy a then a else b.

(** WhiteSpace and LineTerminator code points of ECMAScript, the characters
    [String.prototype.trim] strips. *)
Definition is_white_space (c : N) : bool :=
  existsb (N.eqb c)
    [9; 10; 11; 12; 13; 32; 160; 5760;
     8192; 8193; 8194; 8195; 8196; 8197; 8198; 8199; 8200; 8201; 8202;
     8232; 8233; 8239; 8287; 12288; 65279]%N.

Fixpoint trimStart (s : jstring) : jstring :=
  match s with
  | [] => []
  | c :: s' => if is_white_space c then trimStart s' else s
  end.

Definition trimEnd (s : jstring) : jstring := rev (trimStart (rev s)).

Definition trim (s : jstring) : jstring := trimEnd (trimStart s).

(** Decimal rendering of a number inside a template string. *)
Definition decimal (n : N) : jstring :=
  lit (NilEmpty.string_of_uint (N.to_uint n)).

(** ** HTTP exchange with the backend *)

Record File := { file_name : jstring; file_type : jstring; file_size : N }.

(** The video links of a generation result; every property is optional. *)
Record VideoUrls := {
  original : option jstring;
  narrated : option jstring;
  code : option jstring;
  cloud_original : option jstring;
  script : option jstring
}.

Definition no_urls : VideoUrls :=
  {| original := None; narrated := None; code := None;
     cloud_original := None; script := None |}.

Record Documents := {
  solution_url : option jstring;
  explanation_url : option jstring;
  summary_url : option jstring
}.

(** What [await fetch(..)] followed by reading the body can yield: the fetch
    rejects, or a response arrives with a status, its text, and the value its
    body parses to as JSON ([None]: [response.json()] rejects). *)
Inductive FetchOutcome (A : Type) : Type :=
| NetworkError (message : jstring)
| Response (status : N) (text : jstring) (json : option A).
Arguments NetworkError {A} message.
Arguments Response {A} status text json.

(** [response.ok] *)
Definition ok (status : N) : bool := (200 <=? status)%N && (status <=? 299)%N.

(** Message of the SyntaxError of [response.json()] and of the TypeError of a
    property read on [undefined] or [null]; the wording is the engine's. *)
Definition syntax_error_message : jstring := lit "Unexpected token in JSON".
Definition type_error_message : jstring := lit "Cannot read properties of undefined".

(** A browser call that either returns or throws. *)
Inductive Try (A : Type) : Type :=
| Returns (a : A)
| Throws (message : jstring).
Arguments Returns {A} a.
Arguments Throws {A} message.

(** [style.display] of an element; [d_unset] is the value before any script
    wrote it, when the style sheet decides. *)
Inductive Display := d_unset | d_none | d_block | d_inline_block | d_flex.

Definition hidden (d : Display) : bool :=
  match d with d_none => true | _ => false end.

(** The body of a request. [FvJson] is the text [JSON.stringify] gives for an
    object of numeric properties, kept as the list of its properties. *)
Inductive FormValue :=
| FvText (v : jstring)
| FvFile (f : File)
| FvJson (properties : list (jstring * Z)).

Inductive Body :=
| FormBody (fields : list (jstring * FormValue))
| TextToVideoBody (text language complexity : jstring) (include_narration : bool)
| VoiceToVideoBody (audio language : jstring)
| AnalyzeImageBody (image : jstring).

Record Request := { url : jstring; method : jstring; body : Body }.

Definition POST (u : jstring) (b : Body) : Request :=
  {| url := u; method := lit "POST"; body := b |}.

(** The response of [/api/generate-content], as the scanner and the manual
    form read it. *)
Record GenResponse := {
  g_success : bool;
  g_error : option jstring;
  g_video_urls : option VideoUrls;
  g_documents : option Documents
}.

(** Change of the [n]-th element of a list, if there is one. *)
Fixpoint update_nth {A} (n : nat) (f : A -> A) (l : list A) : list A :=
  match l, n with
  | [], _ => []
  | a :: l', O => f a :: l'
  | a :: l', S n' => a :: update_nth n' f l'
  end.

(** The links to generated documents, which the scanner and the manual
    form build alike from [result.documents || {}]: one link per property
    that is set, in this order. *)
Inductive DocLink := SolutionDoc | ExplanationDoc | SummaryDoc.

Definition doc_links (d : option Documents) : list (DocLink * jstring) :=
  match d with
  | None => []
  | Some d =>
      (if truthy (solution_url d) then [(SolutionDoc, or_else (solution_url d) [])] else [])
      ++ (if truthy (explanation_url d) then [(ExplanationDoc, or_else (explanation_url d) [])] else [])
      ++ (if truthy (summary_url d) then [(SummaryDoc, or_else (summary_url d) [])] else [])
  end.

(** ** ar-camera.js: class ARCameraScanner *)

Module Scanner.

(** [this.selectedRegion]: the first click stores [startX] and [startY], the
    second adds the other four properties. Coordinates are CSS pixels, taken
    as integers. *)
Record Region := {
  startX : Z;
  startY : Z;
  width : option Z;
  height : option Z;
  x : option Z;
  y : option Z
}.

(** [JSON.stringify(region)]: the properties in insertion order. *)
Definition stringify_field (name : string) (v : option Z) : list (jstring * Z) :=
  match v with Some z => [(lit name, z)] | None => [] end.

Definition stringify (r : Region) : list (jstring * Z) :=
  [(lit "startX", startX r); (lit "startY", startY r)]
    ++ stringify_field "width" (width r) ++ stringify_field "height" (height r)
    ++ stringify_field "x" (x r) ++ stringify_field "y" (y r).

(** The backend's structured analysis, as far as the client reads it. *)
Record Concept := {
  c_display_text : jstring;
  c_description : jstring;
  c_suggested_input : jstring
}.

Record Question := {
  q_text : jstring;
  q_display_text : jstring;
  q_suggested_input : jstring
}.

Record Topic := {
  t_name : jstring;
  t_display_text : jstring;
  t_suggested_input : jstring
}.

Record BestOption := {
  bo_type : jstring;
  bo_content_text : option jstring;
  bo_content_name : option jstring
}.

Record ConfirmationData := {
  primary_concept : Concept;
  questions : list Question;
  topics : list Topic;
  best_option : BestOption;
  processing_suggestions : list jstring;
  default_selection : jstring
}.

Definition Analysis := jstring.

Record AnalysisResponse := {
  r_success : bool;
  r_analysis : option Analysis;
  r_confirmation_data : option ConfirmationData;
  r_message : option jstring
}.

(** The confirmation overlay: its candidate cards in document order, and its
    three form controls. *)
Inductive CardType := concept | question | topic.

Record Card := {
  card_type : CardType;
  data_index : option nat;
  recommended : bool;
  selected : bool
}.

Record Overlay := {
  cards : list Card;
  confirmed_input : jstring;
  confirmed_complexity : jstring;
  confirmed_language : jstring
}.

Record Controls := {
  cameraFeed : Display;
  startCameraBtn : Display;
  captureBtn : Display;
  selectRegionBtn : Display;
  stopCameraBtn : Display
}.

Record Loading := {
  arLoading : Display;
  loadingMessage : jstring;
  progressBar : N
}.

Record Results := {
  arResults : Display;
  arVideo_src : option jstring;
  arVideo : Display;
  arVideoPlaceholder : Display;
  arDocumentLinks : list (DocLink * jstring)
}.

(** A MediaStream handed out by [getUserMedia] is the list of its tracks,
    each live ([true]) until stopped; [media] lists every stream granted to
    the page so far, and a stream is named by its position there.
    [pendingMedia] counts the [getUserMedia] promises not yet settled.
    [overlays] are the elements of [document.body] whose id is
    [confirmation-overlay], in document order. *)
Record State := {
  stream : option nat;
  isSelecting : bool;
  selectedRegion : option Region;
  analysisResult : option Analysis;
  confirmationData : option ConfirmationData;
  controls : Controls;
  selectionBox : Display;
  loading : Loading;
  overlays : list Overlay;
  results : Results;
  alerts : list jstring;
  requests : list Request;
  media : list (list bool);
  pendingMedia : nat
}.

Definition set_stream v (s : State) : State :=
  {| stream := v; isSelecting := isSelecting s; selectedRegion := selectedRegion s;
     analysisResult := analysisResult s; confirmationData := confirmationData s;
     controls := controls s; selectionBox := selectionBox s; loading := loading s;
     overlays := overlays s; results := results s; alerts := alerts s;
     requests := requests s; media := media s; pendingMedia := pendingMedia s |}.

Definition set_isSelecting v (s : State) : State :=
  {| stream := stream s; isSelecting := v; selectedRegion := selectedRegion s;
     analysisResult := analysisResult s; confirmationData := confirmationData s;
     controls := controls s; selectionBox := selectionBox s; loading := loading s;
     overlays := overlays s; results := results s; alerts := alerts s;
     requests := requests s; media := media s; pendingMedia := pendingMedia s |}.

Definition set_selectedRegion v (s : State) : State :=
  {| stream := stream s; isSelecting := isSelecting s; selectedRegion := v;
     analysisResult := analysisResult s; confirmationData := confirmationData s;
     controls := controls s; selectionBox := selectionBox s; loading := loading s;
     overlays := overlays s; results := results s; alerts := alerts s;
     requests := requests s; media := media s; pendingMedia := pendingMedia s |}.

Definition set_analysis a c (s : State) : State :=
  {| stream := stream s; isSelecting := isSelecting s; selectedRegion := selectedRegion s;
     analysisResult := a; confirmationData := c;
     controls := controls s; selectionBox := selectionBox s; loading := loading s;
     overlays := overlays s; results := results s; alerts := alerts s;
     requests := requests s; media := media s; pendingMedia := pendingMedia s |}.

Definition set_controls v (s : State) : State :=
  {| stream := stream s; isSelecting := isSelecting s; selectedRegion := selectedRegion s;
     analysisResult := analysisResult s; confirmationData := confirmationData s;
     controls := v; selectionBox := selectionBox s; loading := loading s;
     overlays := overlays s; results := results s; alerts := alerts s;
     requests := requests s; media := media s; pendingMedia := pendingMedia s |}.

Definition set_selectionBox v (s : State) : State :=
  {| stream := stream s; isSelecting := isSelecting s; selectedRegion := selectedRegion s;
     analysisResult := analysisResult s; confirmationData := confirmationData s;
     controls := controls s; selectionBox := v; loading := loading s;
     overlays := overlays s; results := results s; alerts := alerts s;
     requests := requests s; media := media s; pendingMedia := pendingMedia s |}.

Definition set_loading v (s : State) : State :=
  {| stream := stream s; isSelecting := isSelecting s; selectedRegion := selectedRegion s;
     analysisResult := analysisResult s; confirmationData := confirmationData s;
     controls := controls s; selectionBox := selectionBox s; loading := v;
     overlays := overlays s; results := results s; alerts := alerts s;
     requests := requests s; media := media s; pendingMedia := pendingMedia s |}.

Definition set_overlays v (s : State) : State :=
  {| stream := stream s; isSelecting := isSelecting s; selectedRegion := selectedRegion s;
     analysisResult := analysisResult s; confirmationData := confirmationData s;
     controls := controls s; selectionBox := selectionBox s; loading := loading s;
     overlays := v; results := results s; alerts := alerts s;
     requests := requests s; media := media s; pendingMedia := pendingMedia s |}.

Definition set_results v (s : State) : State :=
  {| stream := stream s; isSelecting := isSelecting s; selectedRegion := selectedRegion s;
     analysisResult := analysisResult s; confirmationData := confirmationData s;
     controls := controls s; selectionBox := selectionBox s; loading := loading s;
     overlays := overlays s; results := v; alerts := alerts s;
     requests := requests s; media := media s; pendingMedia := pendingMedia s |}.

Definition alert (m : jstring) (s : State) : State :=
  {| stream := stream s; isSelecting := isSelecting s; selectedRegion := selectedRegion s;
     analysisResult := analysisResult s; confirmationData := confirmationData s;
     controls := controls s; selectionBox := selectionBox s; loading := loading s;
     overlays := overlays s; results := results s; alerts := alerts s ++ [m];
     requests := requests s; media := media s; pendingMedia := pendingMedia s |}.

Definition fetch (r : Request) (s : State) : State :=
  {| stream := stream s; isSelecting := isSelecting s; selectedRegion := selectedRegion s;
     analysisResult := analysisResult s; confirmationData := confirmationData s;
     controls := controls s; selectionBox := selectionBox s; loading := loading s;
     overlays := overlays s; results := results s; alerts := alerts s;
     requests := requests s ++ [r]; media := media s; pendingMedia := pendingMedia s |}.

Definition set_media m p (s : State) : State :=
  {| stream := stream s; isSelecting := isSelecting s; selectedRegion := selectedRegion s;
     analysisResult := analysisResult s; confirmationData := confirmationData s;
     controls := controls s; selectionBox := selectionBox s; loading := loading s;
     overlays := overlays s; results := results s; alerts := alerts s;
     requests := requests s; media := m; pendingMedia := p |}.

(** The state the constructor leaves, on a page whose elements carry no
    inline display yet and that holds no confirmation overlay. *)
Definition constructed : State :=
  {| stream := None; isSelecting := false; selectedRegion := None;
     analysisResult := None; confirmationData := None;
     controls := {| cameraFeed := d_unset; startCameraBtn := d_unset;
                    captureBtn := d_unset; selectRegionBtn := d_unset;
                    stopCameraBtn := d_unset |};
     selectionBox := d_unset;
     loading := {| arLoading := d_unset; loadingMessage := []; progressBar := 0 |};
     overlays := [];
     results := {| arResults := d_unset; arVideo_src := None; arVideo := d_unset;
                   arVideoPlaceholder := d_unset; arDocumentLinks := [] |};
     alerts := []; requests := []; media := []; pendingMedia := 0 |}.

(** *** Loading indicator *)

Definition showARLoading (message : jstring) (s : State) : State :=
  set_loading {| arLoading := d_flex; loadingMessage := message; progressBar := 0 |} s.

Definition updateLoadingProgress (percentage : N) (message : jstring) (s : State) : State :=
  set_loading {| arLoading := arLoading (loading s);
                 loadingMessage := if nonempty message then message
                                   else loadingMessage (loading s);
                 progressBar := percentage |} s.

Definition hideARLoading (s : State) : State :=
  set_loading {| arLoading := d_none; loadingMessage := loadingMessage (loading s);
                 progressBar := progressBar (loading s) |} s.

(** *** Camera lifecycle *)

Definition clearDetectedItems (s : State) : State := set_analysis None None s.

(** [startCamera] up to its await: [getUserMedia] has been called. *)
Definition startCamera_call (s : State) : State :=
  set_media (media s) (S (pendingMedia s)) s.

(** [startCamera] from its await on: the promise settles with a stream of
    [n] tracks ([Some n]) or rejects ([None]). *)
Definition startCamera_resume (grant : option nat) (s : State) : State :=
  match grant with
  | Some n =>
      let id := List.length (media s) in
      let s1 := set_media (media s ++ [repeat true n]) (pred (pendingMedia s)) s in
      let s2 := set_stream (Some id) s1 in
      set_controls {| cameraFeed := d_block; startCameraBtn := d_none;
                      captureBtn := d_inline_block; selectRegionBtn := d_inline_block;
                      stopCameraBtn := d_inline_block |} s2
  | None =>
      alert (lit "Camera access denied or not available. Please use image upload instead.")
            (set_media (media s) (pred (pendingMedia s)) s)
  end.

Definition startCamera (grant : option nat) (s : State) : State :=
  startCamera_resume grant (startCamera_call s).

(** [stream.getTracks().forEach(track => track.stop())] on stream [id]. *)
Fixpoint stop_tracks (id : nat) (m : list (list bool)) : list (list bool) :=
  match m, id with
  | [], _ => []
  | t :: m', O => map (fun _ => false) t :: m'
  | t :: m', S id' => t :: stop_tracks id' m'
  end.

Definition stopCamera (s : State) : State :=
  let s1 :=
    match stream s with
    | Some id => set_stream None (set_media (stop_tracks id (media s)) (pendingMedia s) s)
    | None => s
    end in
  let s2 := set_controls {| cameraFeed := d_none; startCameraBtn := d_inline_block;
                            captureBtn := d_none; selectRegionBtn := d_none;
                            stopCameraBtn := d_none |} s1 in
  clearDetectedItems s2.

Definition hideSelectionBox (s : State) : State := set_selectionBox d_none s.

Definition showSelectionBox (s : State) : State := set_selectionBox d_block s.

Definition toggleRegionSelection (s : State) : State :=
  let s1 := set_isSelecting (negb (isSelecting s)) s in
  if isSelecting s1 then s1 else hideSelectionBox s1.

(** *** Confirmation overlay *)

Definition remove_first {A} (l : list A) : list A := tl l.

(** [closeConfirmation]: [getElementById] finds the first element with the id
    in document order, and [remove] takes it out. *)
Definition closeConfirmation (s : State) : State :=
  set_overlays (remove_first (overlays s)) s.

Definition concept_card (cd : ConfirmationData) : Card :=
  {| card_type := concept; data_index := None;
     recommended := jstr_eqb (bo_type (best_option cd)) (lit "concept");
     selected := false |}.

Definition opt_eqb (o : option jstring) (v : jstring) : bool :=
  match o with Some w => jstr_eqb w v | None => false end.

Definition question_card (cd : ConfirmationData) (index : nat) (q : Question) : Card :=
  {| card_type := question; data_index := Some index;
     recommended := jstr_eqb (bo_type (best_option cd)) (lit "question")
                    && opt_eqb (bo_content_text (best_option cd)) (q_text q);
     selected := false |}.

Definition topic_card (cd : ConfirmationData) (index : nat) (t : Topic) : Card :=
  {| card_type := topic; data_index := Some index;
     recommended := jstr_eqb (bo_type (best_option cd)) (lit "topic")
                    && opt_eqb (bo_content_name (best_option cd)) (t_name t);
     selected := false |}.

(** [array.map((item, index) => ..)] *)
Fixpoint mapi_from {A B} (f : nat -> A -> B) (i : nat) (l : list A) : list B :=
  match l with
  | [] => []
  | a :: l' => f i a :: mapi_from f (S i) l'
  end.

Definition mapi {A B} (f : nat -> A -> B) (l : list A) : list B := mapi_from f 0 l.

(** The element the template of [createConfirmationOverlay] produces: the
    concept card, then the question cards, then the topic cards; the text
    area holds the default selection, the complexity select has
    [intermediate] marked selected and the language select shows its first
    option. The backend's texts are interpolated unescaped: this is the
    element for data whose texts hold no markup and no character
    references, and whose [best_option] has its [content]. *)
Definition overlay_of (cd : ConfirmationData) : Overlay :=
  {| cards := concept_card cd :: mapi (question_card cd) (questions cd)
                ++ mapi (topic_card cd) (topics cd);
     confirmed_input := default_selection cd;
     confirmed_complexity := lit "intermediate";
     confirmed_language := lit "english" |}.

(** [createConfirmationOverlay]. Reading [confirmationData.detected_content]
    throws when the response carried no confirmation data, after the
    existing overlay was removed. *)
Definition createConfirmationOverlay (confirmationData : option ConfirmationData)
    (s : State) : State * option jstring :=
  let s1 := closeConfirmation s in
  match confirmationData with
  | None => (s1, Some type_error_message)
  | Some cd => (set_overlays (overlays s1 ++ [overlay_of cd]) s1, None)
  end.

Definition showIntelligentConfirmation (confirmationData : option ConfirmationData)
    (s : State) : State * option jstring :=
  createConfirmationOverlay confirmationData (hideARLoading s).

(** *** Upload of a capture or of a chosen file *)

(** The success branch shared by [processCameraCapture] and [processImage];
    the timer that hides the loading indicator half a second later has
    fired. The result is the state and the message of the exception thrown
    on the way, if any. *)
Definition analysis_succeeded (result : AnalysisResponse) (s : State)
    : State * option jstring :=
  let s1 := updateLoadingProgress 60 (lit "Processing AI analysis results...") s in
  let s2 := set_analysis (r_analysis result) (r_confirmation_data result) s1 in
  let s3 := updateLoadingProgress 80 (lit "Preparing intelligent confirmation...") s2 in
  match showIntelligentConfirmation (r_confirmation_data result) s3 with
  | (s4, Some e) => (s4, Some e)
  | (s4, None) =>
      (hideARLoading (updateLoadingProgress 100 (lit "Ready for confirmation!") s4), None)
  end.

Definition processCameraCapture (formData : list (jstring * FormValue))
    (outcome : FetchOutcome AnalysisResponse) (s : State) : State :=
  let s1 := updateLoadingProgress 20 (lit "Processing camera capture...") s in
  let s2 := fetch (POST (lit "/api/process-camera-capture") (FormBody formData)) s1 in
  let failed (message : jstring) (s' : State) :=
    alert (lit "Camera capture failed: " ++ message) (hideARLoading s') in
  match outcome with
  | NetworkError m => failed m s2
  | Response status text json =>
      if negb (ok status) then
        failed (lit "Server error: " ++ decimal status ++ lit " - " ++ text) s2
      else
        match json with
        | None => failed syntax_error_message s2
        | Some result =>
            if r_success result then
              match analysis_succeeded result s2 with
              | (s3, Some e) => failed e s3
              | (s3, None) => s3
              end
            else failed (or_else (r_message result) (lit "Camera capture analysis failed")) s2
        end
  end.

(** [processImage]: the endpoint follows [isCamera]; the status of the
    response is not looked at. *)
Definition processImage (formData : list (jstring * FormValue)) (isCamera : bool)
    (outcome : FetchOutcome AnalysisResponse) (s : State) : State :=
  let s1 := updateLoadingProgress 20 (lit "Analyzing with AI Vision...") s in
  let endpoint := if isCamera then lit "/api/process-camera-capture"
                  else lit "/api/analyze-educational-image" in
  let s2 := fetch (POST endpoint (FormBody formData)) s1 in
  let failed (message : jstring) (s' : State) :=
    alert (lit "Image analysis failed: " ++ message) (hideARLoading s') in
  match outcome with
  | NetworkError m => failed m s2
  | Response _ _ None => failed syntax_error_message s2
  | Response _ _ (Some result) =>
      if r_success result then
        match analysis_succeeded result s2 with
        | (s3, Some e) => failed e s3
        | (s3, None) => s3
        end
      else failed (or_else (r_message result) (lit "Vision AI analysis failed")) s2
  end.

(** What a capture needs from outside: where the video element sits, what
    rasterising the current frame gives ([canvas.toDataURL], or the exception
    of a canvas call), and the backend's answer. *)
Record CaptureEnv := {
  rect_left : Z;
  rect_top : Z;
  frame : Try jstring;
  answer : FetchOutcome AnalysisResponse
}.

Definition captureImage (env : CaptureEnv) (region : option Region) (s : State) : State :=
  let s1 := showARLoading (lit "Capturing and analyzing with AI Vision...") s in
  match frame env with
  | Throws m => alert (lit "Image capture failed: " ++ m) (hideARLoading s1)
  | Returns imageDataUrl =>
      let formData :=
        (lit "image_data", FvText imageDataUrl)
          :: match region with
             | Some r => [(lit "selected_region", FvJson (stringify r))]
             | None => []
             end in
      processCameraCapture formData (answer env) s1
  end.

(** [handleImageUpload]: the class body declares the method twice and the
    later declaration is the one in force; it goes through [processImage]. *)
Definition handleImageUpload (file : option File)
    (outcome : FetchOutcome AnalysisResponse) (s : State) : State :=
  match file with
  | None => s
  | Some f =>
      let s1 := showARLoading (lit "Analyzing uploaded image with AI Vision...") s in
      processImage [(lit "image", FvFile f)] false outcome s1
  end.

(** *** Region selection *)

Record Pointer := { clientX : Z; clientY : Z }.

(** The second click of a selection: lines 166 to 172. *)
Definition endSelection (r : Region) (px py : Z) : Region :=
  let w := (px - startX r)%Z in
  let h := (py - startY r)%Z in
  {| startX := startX r; startY := startY r;
     width := Some (Z.abs w);
     height := Some (Z.abs h);
     x := Some (if (w >? 0)%Z then startX r else px);
     y := Some (if (h >? 0)%Z then startY r else py) |}.

(** [handleRegionSelection]. [captureImage] is entered before the selection
    mode is left and the region forgotten; its continuation after the
    response touches neither, so it is run here in one piece. *)
Definition handleRegionSelection (env : CaptureEnv) (event : Pointer) (s : State) : State :=
  let px := (clientX event - rect_left env)%Z in
  let py := (clientY event - rect_top env)%Z in
  match selectedRegion s with
  | None =>
      showSelectionBox
        (set_selectedRegion
           (Some {| startX := px; startY := py; width := None; height := None;
                    x := None; y := None |}) s)
  | Some r =>
      let r' := endSelection r px py in
      let s1 := set_selectedRegion (Some r') s in
      let s2 := captureImage env (Some r') s1 in
      let s3 := toggleRegionSelection s2 in
      set_selectedRegion None s3
  end.

Definition handleCameraClick (env : CaptureEnv) (event : Pointer) (s : State) : State :=
  if isSelecting s then handleRegionSelection env event s
  else captureImage env None s.

(** [handleCameraTouch] with [event.touches[0]] as the pointer. *)
Definition handleCameraTouch (env : CaptureEnv) (touch : Pointer) (s : State) : State :=
  if isSelecting s then handleRegionSelection env touch s
  else captureImage env None s.

(** *** Choosing a candidate *)

Definition set_selected (v : bool) (c : Card) : Card :=
  {| card_type := card_type c; data_index := data_index c;
     recommended := recommended c; selected := v |}.

Definition set_cards (cs : list Card) (o : Overlay) : Overlay :=
  {| cards := cs; confirmed_input := confirmed_input o;
     confirmed_complexity := confirmed_complexity o;
     confirmed_language := confirmed_language o |}.

Definition set_confirmed_input (v : jstring) (o : Overlay) : Overlay :=
  {| cards := cards o; confirmed_input := v;
     confirmed_complexity := confirmed_complexity o;
     confirmed_language := confirmed_language o |}.

Definition set_confirmed_complexity (v : jstring) (o : Overlay) : Overlay :=
  {| cards := cards o; confirmed_input := confirmed_input o;
     confirmed_complexity := v; confirmed_language := confirmed_language o |}.

Definition set_confirmed_language (v : jstring) (o : Overlay) : Overlay :=
  {| cards := cards o; confirmed_input := confirmed_input o;
     confirmed_complexity := confirmed_complexity o; confirmed_language := v |}.

(** The user's own change of a form control of the overlay on display. *)
Definition editOverlay (f : Overlay -> Overlay) (s : State) : State :=
  match overlays s with
  | [] => s
  | o :: rest => set_overlays (f o :: rest) s
  end.

(** The text [selectOption] reads for a card of the given type and
    [dataset.index]; [None] when the read throws (no confirmation data held,
    or no candidate at that index). *)
Definition suggested (held : option ConfirmationData) (type : CardType)
    (index : option nat) : option jstring :=
  match held with
  | None => None
  | Some cd =>
      match type with
      | concept => Some (c_suggested_input (primary_concept cd))
      | question =>
          match index with
          | Some i => option_map q_suggested_input (nth_error (questions cd) i)
          | None => None
          end
      | topic =>
          match index with
          | Some i => option_map t_suggested_input (nth_error (topics cd) i)
          | None => None
          end
      end
  end.

(** [selectOption(cardElement, type, inputElement)] for the [j]-th card of
    the overlay the handlers were bound to (the first in the document) and
    that overlay's text area. The selected class is taken off every card of
    the document before it is put on the card; an exception while reading
    the suggestion leaves the text area as it was. *)
Definition selectOption (j : nat) (type : CardType) (s : State) : State :=
  match overlays s with
  | [] => s
  | o :: rest =>
      match nth_error (cards o) j with
      | None => s
      | Some cardElement =>
          let cleared := map (fun o' => set_cards (map (set_selected false) (cards o')) o') in
          let rest1 := cleared rest in
          let o1 := set_cards (update_nth j (set_selected true)
                                 (map (set_selected false) (cards o))) o in
          match suggested (confirmationData s) type (data_index cardElement) with
          | None => set_overlays (o1 :: rest1) s
          | Some selectedText => set_overlays (set_confirmed_input selectedText o1 :: rest1) s
          end
      end
  end.

(** A click on the [j]-th card: the handler [bindConfirmationEvents] put on
    it passes the type of the list the card was found in. *)
Definition clickCard (j : nat) (s : State) : State :=
  match overlays s with
  | [] => s
  | o :: _ =>
      match nth_error (cards o) j with
      | None => s
      | Some c => selectOption j (card_type c) s
      end
  end.

(** *** Generation from the confirmed input *)

(** [result.video_urls?.narrated || result.video_urls?.original] *)
Definition preferred_video (v : option VideoUrls) : option jstring :=
  match v with
  | None => None
  | Some u => or_opt (narrated u) (original u)
  end.

Definition showARResults (result : GenResponse) (s : State) : State :=
  let videoUrl := preferred_video (g_video_urls result) in
  let r := results s in
  let r1 := if truthy videoUrl
            then {| arResults := arResults r; arVideo_src := videoUrl;
                    arVideo := d_block; arVideoPlaceholder := d_none;
                    arDocumentLinks := arDocumentLinks r |}
            else r in
  set_results {| arResults := d_flex; arVideo_src := arVideo_src r1;
                 arVideo := arVideo r1; arVideoPlaceholder := arVideoPlaceholder r1;
                 arDocumentLinks := doc_links (g_documents result) |} s.

(** [proceedWithConfirmedInput]; the one-second timer of the success branch
    has fired. Without an overlay in the document the first property read
    throws outside the try block. *)
Definition proceedWithConfirmedInput (outcome : FetchOutcome GenResponse) (s : State) : State :=
  match overlays s with
  | [] => s
  | overlay :: _ =>
      let confirmedInput := trim (confirmed_input overlay) in
      if negb (nonempty confirmedInput) then
        alert (lit "Please enter or select content to proceed") s
      else
        let s1 := closeConfirmation s in
        let s2 := showARLoading (lit "Processing confirmed input...") s1 in
        let s3 := updateLoadingProgress 10 (lit "Preparing content generation...") s2 in
        let formData := [(lit "input_text", FvText confirmedInput);
                         (lit "complexity", FvText (confirmed_complexity overlay));
                         (lit "language", FvText (confirmed_language overlay))] in
        let s4 := updateLoadingProgress 30 (lit "Generating educational content...") s3 in
        let s5 := fetch (POST (lit "/api/generate-content") (FormBody formData)) s4 in
        let failed (message : jstring) (s' : State) :=
          alert (lit "Content generation failed: " ++ message) (hideARLoading s') in
        match outcome with
        | NetworkError m => failed m s5
        | Response _ _ json =>
            let s6 := updateLoadingProgress 70 (lit "Creating video and narration...") s5 in
            match json with
            | None => failed syntax_error_message s6
            | Some result =>
                if g_success result then
                  showARResults result
                    (hideARLoading (updateLoadingProgress 100 (lit "Content ready!") s6))
                else failed (or_else (g_error result) (lit "Generation failed")) s6
            end
        end
  end.

Definition retakePhoto (s : State) : State := clearDetectedItems (closeConfirmation s).

Definition closeArResults (s : State) : State :=
  set_results {| arResults := d_none; arVideo_src := arVideo_src (results s);
                 arVideo := arVideo (results s);
                 arVideoPlaceholder := arVideoPlaceholder (results s);
                 arDocumentLinks := arDocumentLinks (results s) |} s.

(** *** The scanner as an event-driven machine *)

(** What can happen to the scanner: a user gesture on one of its controls
    (with what the environment answers to the handler), or the settling of a
    pending [getUserMedia] promise. *)
Inductive Event :=
| StartCameraClick
| MediaSettled (grant : option nat)
| StopCameraClick
| SelectRegionClick
| CaptureClick (env : CaptureEnv)
| FeedClick (env : CaptureEnv) (event : Pointer)
| FeedTouch (env : CaptureEnv) (touch : Pointer)
| ImageChosen (file : option File) (outcome : FetchOutcome AnalysisResponse)
| CardClick (j : nat)
| InputEdited (v : jstring)
| ComplexityChosen (v : jstring)
| LanguageChosen (v : jstring)
| GenerateClick (outcome : FetchOutcome GenResponse)
| RetakeClick
| CancelClick
| CloseResultsClick.

Definition handle (e : Event) (s : State) : State :=
  match e with
  | StartCameraClick => startCamera_call s
  | MediaSettled grant => startCamera_resume grant s
  | StopCameraClick => stopCamera s
  | SelectRegionClick => toggleRegionSelection s
  | CaptureClick env => captureImage env None s
  | FeedClick env event => handleCameraClick env event s
  | FeedTouch env touch => handleCameraTouch env touch s
  | ImageChosen file outcome => handleImageUpload file outcome s
  | CardClick j => clickCard j s
  | InputEdited v => editOverlay (set_confirmed_input v) s
  | ComplexityChosen v => editOverlay (set_confirmed_complexity v) s
  | LanguageChosen v => editOverlay (set_confirmed_language v) s
  | GenerateClick outcome => proceedWithConfirmedInput outcome s
  | RetakeClick => retakePhoto s
  | CancelClick => closeConfirmation s
  | CloseResultsClick => closeArResults s
  end.

(** An event can occur when its control is not hidden, and a promise can
    settle only if one is pending. *)
Definition enabled (e : Event) (s : State) : bool :=
  match e with
  | StartCameraClick => negb (hidden (startCameraBtn (controls s)))
  | MediaSettled _ => negb (pendingMedia s =? 0)
  | StopCameraClick => negb (hidden (stopCameraBtn (controls s)))
  | SelectRegionClick => negb (hidden (selectRegionBtn (controls s)))
  | CaptureClick _ => negb (hidden (captureBtn (controls s)))
  | FeedClick _ _ | FeedTouch _ _ => negb (hidden (cameraFeed (controls s)))
  | ImageChosen _ _ => true
  | CardClick _ | InputEdited _ | ComplexityChosen _ | LanguageChosen _
  | GenerateClick _ | RetakeClick | CancelClick =>
      match overlays s with [] => false | _ :: _ => true end
  | CloseResultsClick => true
  end.

Definition run (es : list Event) (s : State) : State :=
  fold_left (fun s' e => handle e s') es s.

(** Every event of the sequence is enabled when its turn comes. *)
Fixpoint admissible (es : list Event) (s : State) : bool :=
  match es with
  | [] => true
  | e :: es' => enabled e s && admissible es' (handle e s)
  end.

(** No camera start is clicked while an earlier request for the camera is
    still pending. *)
Fixpoint one_start_at_a_time (es : list Event) (s : State) : bool :=
  match es with
  | [] => true
  | e :: es' =>
      match e with
      | StartCameraClick => pendingMedia s =? 0
      | _ => true
      end && one_start_at_a_time es' (handle e s)
  end.

Definition live (tracks : list bool) : bool := existsb (fun b => b) tracks.

(** The streams of the page that still hold the camera. *)
Definition live_streams (s : State) : nat :=
  List.length (filter live (media s)).

End Scanner.

(** ** The manual text form: class ManualInputHandler *)

Module Manual.

(** The class put on a progress step by [updateLoadingStep]. *)
Inductive StepClass := step_plain | step_active | step_completed.

Inductive Caption := NarratedVersion | GeneratedVideo.

(** What [displayResults] writes into [video-content]: a video container
    (the player, its caption, and an open-in-new-tab link to the same
    source), the link to the original without audio, the link to the source
    code, or the paragraph saying that no URL is available. *)
Inductive VideoNode :=
| VideoContainer (src : jstring) (caption : Caption)
| OriginalLink (href : jstring)
| SourceCodeLink (href : jstring)
| UrlsNotAvailable.

(** [fields] is what [new FormData(this.form)] collects; [steps] are the
    elements [step-1] to [step-5]. *)
Record State := {
  form : Display;
  detectionSection : Display;
  resultsSection : Display;
  loadingSection : Display;
  steps : list StepClass;
  fields : list (jstring * FormValue);
  videoContent : list VideoNode;
  documentLinks : list (DocLink * jstring);
  alerts : list jstring;
  requests : list Request
}.

Definition set_sections f d r l (s : State) : State :=
  {| form := f; detectionSection := d; resultsSection := r; loadingSection := l;
     steps := steps s; fields := fields s; videoContent := videoContent s;
     documentLinks := documentLinks s; alerts := alerts s; requests := requests s |}.

Definition set_steps v (s : State) : State :=
  {| form := form s; detectionSection := detectionSection s;
     resultsSection := resultsSection s; loadingSection := loadingSection s;
     steps := v; fields := fields s; videoContent := videoContent s;
     documentLinks := documentLinks s; alerts := alerts s; requests := requests s |}.

Definition set_content v d (s : State) : State :=
  {| form := form s; detectionSection := detectionSection s;
     resultsSection := resultsSection s; loadingSection := loadingSection s;
     steps := steps s; fields := fields s; videoContent := v;
     documentLinks := d; alerts := alerts s; requests := requests s |}.

Definition alert (m : jstring) (s : State) : State :=
  {| form := form s; detectionSection := detectionSection s;
     resultsSection := resultsSection s; loadingSection := loadingSection s;
     steps := steps s; fields := fields s; videoContent := videoContent s;
     documentLinks := documentLinks s; alerts := alerts s ++ [m]; requests := requests s |}.

Definition fetch (r : Request) (s : State) : State :=
  {| form := form s; detectionSection := detectionSection s;
     resultsSection := resultsSection s; loadingSection := loadingSection s;
     steps := steps s; fields := fields s; videoContent := videoContent s;
     documentLinks := documentLinks s; alerts := alerts s; requests := requests s ++ [r] |}.

(** [updateLoadingStep]: nothing happens when the step element is missing. *)
Definition updateLoadingStep (stepNumber : nat) (c : StepClass) (s : State) : State :=
  match stepNumber with
  | O => s
  | S i => set_steps (update_nth i (fun _ => c) (steps s)) s
  end.

Definition all_steps (c : StepClass) (s : State) : State :=
  fold_left (fun s' i => updateLoadingStep i c s') [1; 2; 3; 4; 5] s.

Definition showLoading (s : State) : State :=
  all_steps step_plain (set_sections d_none d_none d_none d_block s).

Definition hideLoading (s : State) : State :=
  set_sections (form s) (detectionSection s) (resultsSection s) d_none s.

(** The markup of [video-content]. The URLs are interpolated unescaped
    into double-quoted [src] and [href] attributes: these are the nodes for
    URLs that hold no double quote. *)
Definition video_nodes (videoUrls : VideoUrls) : list VideoNode :=
  let n := if truthy (narrated videoUrls)
           then [VideoContainer (or_else (narrated videoUrls) []) NarratedVersion] else [] in
  let o := if truthy (original videoUrls)
           then if negb (truthy (narrated videoUrls))
                then [VideoContainer (or_else (original videoUrls) []) GeneratedVideo]
                else [OriginalLink (or_else (original videoUrls) [])]
           else [] in
  let c := if truthy (code videoUrls)
           then [SourceCodeLink (or_else (code videoUrls) [])] else [] in
  match n ++ o ++ c with
  | [] => [UrlsNotAvailable]
  | videoHtml => videoHtml
  end.

Definition displayResults (result : GenResponse) (s : State) : State :=
  let s1 := set_sections (form s) (detectionSection s) d_block (loadingSection s) s in
  let videoUrls := match g_video_urls result with Some u => u | None => no_urls end in
  set_content (video_nodes videoUrls) (doc_links (g_documents result)) s1.

(** [handleSubmit]; the artificial delays between the steps have elapsed. *)
Definition handleSubmit (outcome : FetchOutcome GenResponse) (s : State) : State :=
  let formData := fields s in
  let s1 := showLoading s in
  let s2 := updateLoadingStep 1 step_active s1 in
  let s3 := updateLoadingStep 2 step_active s2 in
  let s4 := fetch (POST (lit "/api/generate-content") (FormBody formData)) s3 in
  let failed (message : jstring) (s' : State) :=
    alert (lit "Generation failed: " ++ message) (hideLoading s') in
  match outcome with
  | NetworkError m => failed m s4
  | Response _ _ json =>
      let s5 := updateLoadingStep 3 step_active s4 in
      match json with
      | None => failed syntax_error_message s5
      | Some result =>
          let s6 := updateLoadingStep 4 step_active s5 in
          if g_success result then
            let s7 := updateLoadingStep 5 step_active s6 in
            let s8 := all_steps step_completed s7 in
            displayResults result (hideLoading s8)
          else failed (or_else (g_error result) (lit "Generation failed")) s6
      end
  end.

(** The players of the markup, and its links to a given address other than
    the one inside a player's own container. *)
Definition players (v : list VideoNode) : list jstring :=
  flat_map (fun n => match n with VideoContainer src _ => [src] | _ => [] end) v.

Definition alternative_links (v : list VideoNode) : list jstring :=
  flat_map (fun n => match n with OriginalLink href => [href] | _ => [] end) v.

End Manual.

(** ** page.tsx: component PragyanAI *)

Module Page.

Inductive Mode := text | voice | image.

(** The [ImageAnalysisResult] of the backend; [ia_topics] is
    [options?.topics]. *)
Record ImageAnalysisResult := {
  ia_success : bool;
  ia_subject : option jstring;
  ia_topics : option (list jstring);
  ia_error : option jstring
}.

(** The [VideoGenerationResult] the component holds in [result], and the
    shape it reads the backend's answer in. [debug_audio_path] is
    [debug_info?.debug_audio_path]; [image_analysis] is the property
    [generateVideoFromAnalyzedImage] adds. *)
Record VideoGenerationResult := {
  success : bool;
  transcription : option jstring;
  understood_parameters : option (jstring * jstring * jstring * jstring);
  detected_language : option jstring;
  video_urls : option VideoUrls;
  overall_score : option N;
  language_detection : option jstring;
  debug_audio_path : option jstring;
  error_type : option jstring;
  error_message : option jstring;
  suggestions : option (list jstring);
  error : option jstring;
  image_analysis : option ImageAnalysisResult
}.

(** An error result as the handlers build it. *)
Definition failure (type message : jstring) (tips : list jstring)
    (debug : option jstring) : VideoGenerationResult :=
  {| success := false; transcription := None; understood_parameters := None;
     detected_language := None; video_urls := None; overall_score := None;
     language_detection := None; debug_audio_path := debug;
     error_type := Some type; error_message := Some message;
     suggestions := Some tips; error := None; image_analysis := None |}.

Definition with_image_analysis (a : ImageAnalysisResult) (d : VideoGenerationResult)
    : VideoGenerationResult :=
  {| success := success d; transcription := transcription d;
     understood_parameters := understood_parameters d;
     detected_language := detected_language d; video_urls := video_urls d;
     overall_score := overall_score d; language_detection := language_detection d;
     debug_audio_path := debug_audio_path d; error_type := error_type d;
     error_message := error_message d; suggestions := suggestions d;
     error := error d; image_analysis := Some a |}.

(** The state of the component, with the requests it has sent. *)
Record State := {
  inputText : jstring;
  selectedLanguage : jstring;
  includeNarration : bool;
  complexity : jstring;
  inputMode : Mode;
  isRecording : bool;
  recordedAudio : option (list N);
  isGenerating : bool;
  generationProgress : N;
  result : option VideoGenerationResult;
  selectedImage : option File;
  imagePreview : option jstring;
  imageAnalysis : option ImageAnalysisResult;
  requests : list Request
}.

Definition setIsGenerating v (s : State) : State :=
  {| inputText := inputText s; selectedLanguage := selectedLanguage s;
     includeNarration := includeNarration s; complexity := complexity s;
     inputMode := inputMode s; isRecording := isRecording s;
     recordedAudio := recordedAudio s; isGenerating := v;
     generationProgress := generationProgress s; result := result s;
     selectedImage := selectedImage s; imagePreview := imagePreview s;
     imageAnalysis := imageAnalysis s; requests := requests s |}.

Definition setGenerationProgress v (s : State) : State :=
  {| inputText := inputText s; selectedLanguage := selectedLanguage s;
     includeNarration := includeNarration s; complexity := complexity s;
     inputMode := inputMode s; isRecording := isRecording s;
     recordedAudio := recordedAudio s; isGenerating := isGenerating s;
     generationProgress := v; result := result s;
     selectedImage := selectedImage s; imagePreview := imagePreview s;
     imageAnalysis := imageAnalysis s; requests := requests s |}.

Definition setResult v (s : State) : State :=
  {| inputText := inputText s; selectedLanguage := selectedLanguage s;
     includeNarration := includeNarration s; complexity := complexity s;
     inputMode := inputMode s; isRecording := isRecording s;
     recordedAudio := recordedAudio s; isGenerating := isGenerating s;
     generationProgress := generationProgress s; result := v;
     selectedImage := selectedImage s; imagePreview := imagePreview s;
     imageAnalysis := imageAnalysis s; requests := requests s |}.

Definition setImageAnalysis v (s : State) : State :=
  {| inputText := inputText s; selectedLanguage := selectedLanguage s;
     includeNarration := includeNarration s; complexity := complexity s;
     inputMode := inputMode s; isRecording := isRecording s;
     recordedAudio := recordedAudio s; isGenerating := isGenerating s;
     generationProgress := generationProgress s; result := result s;
     selectedImage := selectedImage s; imagePreview := imagePreview s;
     imageAnalysis := v; requests := requests s |}.

Definition fetch (r : Request) (s : State) : State :=
  {| inputText := inputText s; selectedLanguage := selectedLanguage s;
     includeNarration := includeNarration s; complexity := complexity s;
     inputMode := inputMode s; isRecording := isRecording s;
     recordedAudio := recordedAudio s; isGenerating := isGenerating s;
     generationProgress := generationProgress s; result := result s;
     selectedImage := selectedImage s; imagePreview := imagePreview s;
     imageAnalysis := imageAnalysis s; requests := requests s ++ [r] |}.

(** The state of the first render. *)
Definition initial : State :=
  {| inputText := []; selectedLanguage := lit "auto"; includeNarration := true;
     complexity := lit "intermediate"; inputMode := text; isRecording := false;
     recordedAudio := None; isGenerating := false; generationProgress := 0;
     result := None; selectedImage := None; imagePreview := None;
     imageAnalysis := None; requests := [] |}.

Definition setInputText v (s : State) : State :=
  {| inputText := v; selectedLanguage := selectedLanguage s;
     includeNarration := includeNarration s; complexity := complexity s;
     inputMode := inputMode s; isRecording := isRecording s;
     recordedAudio := recordedAudio s; isGenerating := isGenerating s;
     generationProgress := generationProgress s; result := result s;
     selectedImage := selectedImage s; imagePreview := imagePreview s;
     imageAnalysis := imageAnalysis s; requests := requests s |}.

Definition API_BASE : jstring := lit "http://localhost:8000".

Definition text_to_video : jstring := API_BASE ++ lit "/api/nlp/text-to-video".
Definition voice_to_video : jstring := API_BASE ++ lit "/api/nlp/voice-to-video".
Definition analyze_image : jstring := API_BASE ++ lit "/api/analyze-educational-image".

(** [data.suggestions || [..]]: an array, even an empty one, is truthy. *)
Definition tips_or (o : option (list jstring)) (d : list jstring) : list jstring :=
  match o with Some l => l | None => d end.

Definition generateVideoFromText (outcome : FetchOutcome VideoGenerationResult)
    (s : State) : State :=
  if negb (nonempty (trim (inputText s))) then s
  else
    let s1 := setResult None (setGenerationProgress 10 (setIsGenerating true s)) in
    let s2 := fetch (POST text_to_video
                       (TextToVideoBody (inputText s) (selectedLanguage s)
                          (complexity s) (includeNarration s))) s1 in
    let caught (message : jstring) (s' : State) :=
      setResult (Some (failure (lit "Network Error") message
                         [lit "Check your internet connection";
                          lit "Verify the backend is running"] None)) s' in
    let s3 :=
      match outcome with
      | NetworkError m => caught m s2
      | Response _ _ None => caught syntax_error_message s2
      | Response _ _ (Some data) =>
          let s' := setGenerationProgress 100 s2 in
          if success data then setResult (Some data) s'
          else setResult
                 (Some (failure (or_else (error_type data) (lit "Generation Error"))
                          (or_else (or_opt (error_message data) (error data))
                             (lit "Text generation failed"))
                          (tips_or (suggestions data)
                             [lit "Please try rephrasing your request";
                              lit "Check if the topic is educational"]) None)) s'
      end in
    setIsGenerating false s3.

(** [generateVideoFromVoice]. [read] is what the FileReader produces: the
    data URL its load event carries, or nothing when it fires an error event
    instead (no handler is installed for that). A rejection inside the load
    handler, which is an async function called by the browser, reaches no
    catch block. *)
Definition generateVideoFromVoice (read : option jstring)
    (outcome : FetchOutcome VideoGenerationResult) (s : State) : State :=
  match recordedAudio s with
  | None => s
  | Some _ =>
      let s1 := setResult None (setGenerationProgress 10 (setIsGenerating true s)) in
      match read with
      | None => s1
      | Some audioBase64 =>
          let s2 := setGenerationProgress 30 s1 in
          let s3 := fetch (POST voice_to_video
                             (VoiceToVideoBody audioBase64 (selectedLanguage s))) s2 in
          match outcome with
          | NetworkError _ => s3
          | Response _ _ None => s3
          | Response _ _ (Some data) =>
              let s4 := setGenerationProgress 100 s3 in
              let s5 :=
                if success data then setResult (Some data) s4
                else setResult
                       (Some (failure (or_else (error_type data) (lit "Voice Processing Error"))
                                (or_else (or_opt (error_message data) (error data))
                                   (lit "Voice generation failed"))
                                (tips_or (suggestions data)
                                   [lit "Try speaking more clearly";
                                    lit "Check microphone quality"])
                                (debug_audio_path data))) s4 in
              setIsGenerating false s5
          end
      end
  end.

Definition generateVideoFromAnalyzedImage (topic : jstring) (analysis : ImageAnalysisResult)
    (outcome : FetchOutcome VideoGenerationResult) (s : State) : State :=
  let s1 := fetch (POST text_to_video
                     (TextToVideoBody
                        (lit "Explain " ++ topic ++ lit " based on this educational content")
                        (selectedLanguage s) (complexity s) (includeNarration s))) s in
  let caught (message : jstring) (s' : State) :=
    setResult (Some (failure (lit "Generation Error") message
                       [lit "Try again with a different approach";
                        lit "Check the backend connection"] None)) s' in
  let s2 :=
    match outcome with
    | NetworkError m => caught m s1
    | Response _ _ None => caught syntax_error_message s1
    | Response _ _ (Some data) =>
        let s' := setGenerationProgress 100 s1 in
        if success data then setResult (Some (with_image_analysis analysis data)) s'
        else setResult
               (Some (failure (lit "Video Generation Error")
                        (or_else (error_message data)
                           (lit "Failed to generate video from analyzed content"))
                        (tips_or (suggestions data)
                           [lit "Try a different image"; lit "Simplify the content"])
                        None)) s'
    end in
  setIsGenerating false s2.

(** [analyzeImage], with the outcomes of its two requests. *)
Definition analyzeImage (read : option jstring)
    (analysis : FetchOutcome ImageAnalysisResult)
    (generation : FetchOutcome VideoGenerationResult) (s : State) : State :=
  match selectedImage s with
  | None => s
  | Some _ =>
      let s1 := setImageAnalysis None (setGenerationProgress 10 (setIsGenerating true s)) in
      match read with
      | None => s1
      | Some imageBase64 =>
          let s2 := setGenerationProgress 50 s1 in
          let s3 := fetch (POST analyze_image (AnalyzeImageBody imageBase64)) s2 in
          match analysis with
          | NetworkError _ => s3
          | Response _ _ None => s3
          | Response _ _ (Some data) =>
              let s4 := setImageAnalysis (Some data) (setGenerationProgress 70 s3) in
              match (if ia_success data then ia_topics data else None) with
              | Some (topic :: _) => generateVideoFromAnalyzedImage topic data generation s4
              | _ =>
                  setIsGenerating false
                    (setResult
                       (Some (failure (lit "Image Analysis Error")
                                (or_else (ia_error data)
                                   (lit "Could not analyze the image content"))
                                [lit "Try uploading a clearer image";
                                 lit "Ensure the image contains educational content"]
                                None)) s4)
              end
          end
      end
  end.

(** What the handlers started by one click receive from outside. *)
Record Env := {
  read : option jstring;
  generation : FetchOutcome VideoGenerationResult;
  analysis : FetchOutcome ImageAnalysisResult
}.

Definition handleGenerate (env : Env) (s : State) : State :=
  match inputMode s with
  | text => generateVideoFromText (generation env) s
  | voice => generateVideoFromVoice (read env) (generation env) s
  | image => analyzeImage (read env) (analysis env) (generation env) s
  end.

(** The [disabled] attribute of the generate button. *)
Definition generate_disabled (s : State) : bool :=
  isGenerating s
  || match inputMode s with
     | text => negb (nonempty (trim (inputText s)))
     | voice => match recordedAudio s with None => true | Some _ => false end
     | image => match selectedImage s with None => true | Some _ => false end
     end.

(** *** The results column *)

Inductive SuccessNode :=
| Understanding (transcription : option jstring) (parameters : bool)
| VideoPlayer (src : jstring)
| QualityMetrics (score : N) (language : jstring)
| DownloadVideo (href : jstring)
| ViewScript (href : jstring).

Inductive ViewNode :=
| LoadingState (progress : N)
| SuccessState (children : list SuccessNode)
| ErrorState (title : jstring) (message : option jstring)
             (tips : list jstring) (debug : bool)
| EmptyState.

Definition url_of (v : option VideoUrls) (f : VideoUrls -> option jstring) : option jstring :=
  match v with Some u => f u | None => None end.

Definition success_nodes (r : VideoGenerationResult) : list SuccessNode :=
  let cloud := url_of (video_urls r) cloud_original in
  let scr := url_of (video_urls r) script in
  (if truthy (transcription r)
      || match understood_parameters r with Some _ => true | None => false end
   then [Understanding (if truthy (transcription r) then transcription r else None)
           match understood_parameters r with Some _ => true | None => false end]
   else [])
  ++ (if truthy cloud then [VideoPlayer (or_else cloud [])] else [])
  ++ [QualityMetrics
        (match overall_score r with Some n => n | None => 0%N end)
        (or_else (or_opt (detected_language r) (language_detection r)) (lit "N/A"))]
  ++ (if truthy cloud then [DownloadVideo (or_else cloud [])] else [])
  ++ (if truthy scr then [ViewScript (or_else scr [])] else []).

Definition render (s : State) : list ViewNode :=
  (if isGenerating s then [LoadingState (generationProgress s)] else [])
  ++ match result s with
     | Some r =>
         if success r then [SuccessState (success_nodes r)]
         else [ErrorState (or_else (error_type r) (lit "Generation Failed"))
                 (or_opt (error_message r) (error r))
                 (tips_or (suggestions r) [])
                 (truthy (debug_audio_path r))]
     | None => if isGenerating s then [] else [EmptyState]
     end.

(** The sources of the video players of a view, and the addresses of its
    links. *)
Definition players (v : list ViewNode) : list jstring :=
  flat_map (fun n =>
    match n with
    | SuccessState c =>
        flat_map (fun m => match m with VideoPlayer src => [src] | _ => [] end) c
    | _ => []
    end) v.

Definition links (v : list ViewNode) : list jstring :=
  flat_map (fun n =>
    match n with
    | SuccessState c =>
        flat_map (fun m => match m with
                           | DownloadVideo h | ViewScript h => [h]
                           | _ => []
                           end) c
    | _ => []
    end) v.

End Page.

(** ** The recording helper: class EnhancedAudioInput *)

Module Audio.

(** A Blob: its bytes and its type. *)
Record Blob := { content : list N; mime : jstring }.

Definition size (b : Blob) : nat := List.length (content b).

(** [new Blob(parts, { type })] *)
Definition new_Blob (parts : list Blob) (type : jstring) : Blob :=
  {| content := List.concat (map content parts); mime := type |}.

(** The state of a MediaRecorder of the browser: [stopping] from the call
    of [stop()] until its stop event has been dispatched. *)
Inductive RecorderState := recording | stopping | inactive.

(** The fields of the helper that recording uses, the MediaRecorders
    created so far (a recorder is named by its position), and the calls of
    the completion callback made so far, each with the callback and the
    blob it received. The monitoring graph and the waveform are left out. *)
Record State := {
  mediaRecorder : option nat;
  audioChunks : list Blob;
  isRecording : bool;
  onRecordingComplete : option nat;
  currentStream : option nat;
  recorders : list RecorderState;
  completed : list (nat * Blob)
}.

Definition setRecordingCompleteCallback (callback : nat) (s : State) : State :=
  {| mediaRecorder := mediaRecorder s; audioChunks := audioChunks s;
     isRecording := isRecording s; onRecordingComplete := Some callback;
     currentStream := currentStream s; recorders := recorders s;
     completed := completed s |}.

(** [restartAudioMonitoring]: a granted stream is stored for recording; a
    refusal is caught inside. *)
Definition restartAudioMonitoring (grant : option nat) (s : State) : State :=
  match grant with
  | Some stream =>
      {| mediaRecorder := mediaRecorder s; audioChunks := audioChunks s;
         isRecording := isRecording s; onRecordingComplete := onRecordingComplete s;
         currentStream := Some stream; recorders := recorders s;
         completed := completed s |}
  | None => s
  end.

(** What [startRecording] meets: the answer to a request for the
    microphone, should it make one, and whether the MediaRecorder
    constructor accepts the stream and the type. *)
Record StartEnv := { grant : option nat; supported : bool }.

(** [startRecording]. When the constructor throws, the exception is
    rethrown to the caller and nothing has been assigned. *)
Definition startRecording (env : StartEnv) (s : State) : State :=
  let s1 := match currentStream s with
            | None => restartAudioMonitoring (grant env) s
            | Some _ => s
            end in
  match currentStream s1 with
  | Some _ =>
      if supported env then
        {| mediaRecorder := Some (List.length (recorders s1)); audioChunks := [];
           isRecording := true; onRecordingComplete := onRecordingComplete s1;
           currentStream := currentStream s1;
           recorders := recorders s1 ++ [recording];
           completed := completed s1 |}
      else s1
  | None => s1
  end.

(** [mediaRecorder.stop()] as the browser sees it. *)
Definition stop (id : nat) (rs : list RecorderState) : list RecorderState :=
  update_nth id (fun r => match r with recording => stopping | _ => r end) rs.

Definition stopRecording (s : State) : State :=
  match mediaRecorder s with
  | Some id =>
      if isRecording s then
        {| mediaRecorder := mediaRecorder s; audioChunks := audioChunks s;
           isRecording := false; onRecordingComplete := onRecordingComplete s;
           currentStream := currentStream s; recorders := stop id (recorders s);
           completed := completed s |}
      else s
  | None => s
  end.

(** The [ondataavailable] handler; every recorder's handler writes to the
    one [this.audioChunks]. *)
Definition ondataavailable (data : Blob) (s : State) : State :=
  if (0 <? size data)%nat then
    {| mediaRecorder := mediaRecorder s; audioChunks := audioChunks s ++ [data];
       isRecording := isRecording s; onRecordingComplete := onRecordingComplete s;
       currentStream := currentStream s; recorders := recorders s;
       completed := completed s |}
  else s.

(** The [onstop] handler of recorder [id], which the browser runs as it
    makes the recorder inactive. *)
Definition onstop (id : nat) (s : State) : State :=
  let audioBlob := new_Blob (audioChunks s) (lit "audio/webm") in
  {| mediaRecorder := mediaRecorder s; audioChunks := audioChunks s;
     isRecording := isRecording s; onRecordingComplete := onRecordingComplete s;
     currentStream := currentStream s;
     recorders := update_nth id (fun _ => inactive) (recorders s);
     completed := match onRecordingComplete s with
                  | Some callback => completed s ++ [(callback, audioBlob)]
                  | None => completed s
                  end |}.

Inductive Event :=
| StartRecording (env : StartEnv)
| StopRecording
| DataAvailable (id : nat) (data : Blob)
| Stop (id : nat).

Definition handle (e : Event) (s : State) : State :=
  match e with
  | StartRecording env => startRecording env s
  | StopRecording => stopRecording s
  | DataAvailable _ data => ondataavailable data s
  | Stop id => onstop id s
  end.

(** The browser delivers data of a recorder that is not yet inactive, and
    the stop event of a recorder whose [stop()] was called. *)
Definition enabled (e : Event) (s : State) : bool :=
  match e with
  | StartRecording _ | StopRecording => true
  | DataAvailable id _ =>
      match nth_error (recorders s) id with
      | Some recording | Some stopping => true
      | _ => false
      end
  | Stop id =>
      match nth_error (recorders s) id with
      | Some stopping => true
      | _ => false
      end
  end.

Definition run (es : list Event) (s : State) : State :=
  fold_left (fun s' e => handle e s') es s.

Fixpoint admissible (es : list Event) (s : State) : bool :=
  match es with
  | [] => true
  | e :: es' => enabled e s && admissible es' (handle e s)
  end.

(** One recording from start to completion: the data the recorder delivers
    while recording, the call of [stopRecording], the data delivered after
    it, and the stop event. *)
Definition one_recording (env : StartEnv) (id : nat) (during after : list Blob)
    : list Event :=
  StartRecording env :: map (DataAvailable id) during
    ++ StopRecording :: map (DataAvailable id) after ++ [Stop id].

End Audio.

(** * Properties *)

(** ** Trimming *)

Lemma trimStart_white (s : jstring) :
  forallb is_white_space s = true -> trimStart s = [].
Proof.
  induction s as [|c s IH]; simpl; [reflexivity|].
  intros H. apply andb_true_iff in H as [Hc Hs].
  rewrite Hc. exact (IH Hs).
Qed.

Lemma trim_white (s : jstring) :
  forallb is_white_space s = true -> trim s = [].
Proof.
  intros H. unfold trim, trimEnd. rewrite (trimStart_white s H). reflexivity.
Qed.

(** ** Requests sent by the scanner's handlers *)

Section ScannerRequests.

Import Scanner.

Lemma analysis_succeeded_requests (result : AnalysisResponse) (s : State) :
  requests (fst (analysis_succeeded result s)) = requests s.
Proof.
  unfold analysis_succeeded, showIntelligentConfirmation, createConfirmationOverlay.
  destruct (r_confirmation_data result); reflexivity.
Qed.

Lemma analysis_succeeded_after_error (result : AnalysisResponse) (s : State) :
  forall s' e, analysis_succeeded result s = (s', Some e) -> requests s' = requests s.
Proof.
  intros s' e H. rewrite <- (analysis_succeeded_requests result s), H. reflexivity.
Qed.

Lemma processCameraCapture_requests formData outcome (s : State) :
  requests (processCameraCapture formData outcome s)
  = requests s ++ [POST (lit "/api/process-camera-capture") (FormBody formData)].
Proof.
  unfold processCameraCapture.
  destruct outcome as [m | status text [result|]]; try reflexivity.
  - destruct (negb (ok status)); [reflexivity|].
    destruct (r_success result); [|reflexivity].
    match goal with |- context [analysis_succeeded ?r ?t] =>
      pose proof (analysis_succeeded_requests r t) as H;
      destruct (analysis_succeeded r t) as [s3 [e|]] end; exact H.
  - destruct (negb (ok status)); reflexivity.
Qed.

Lemma processImage_requests formData isCamera outcome (s : State) :
  requests (processImage formData isCamera outcome s)
  = requests s ++ [POST (if isCamera then lit "/api/process-camera-capture"
                         else lit "/api/analyze-educational-image") (FormBody formData)].
Proof.
  unfold processImage.
  destruct outcome as [m | status text [result|]]; try reflexivity.
  destruct (r_success result); [|reflexivity].
  match goal with |- context [analysis_succeeded ?r ?t] =>
    pose proof (analysis_succeeded_requests r t) as H;
    destruct (analysis_succeeded r t) as [s3 [e|]] end; exact H.
Qed.

Lemma captureImage_requests env region (s : State) imageDataUrl :
  frame env = Returns imageDataUrl ->
  requests (captureImage env region s)
  = requests s
      ++ [POST (lit "/api/process-camera-capture")
            (FormBody ((lit "image_data", FvText imageDataUrl)
                         :: match region with
                            | Some r => [(lit "selected_region", FvJson (stringify r))]
                            | None => []
                            end))].
Proof.
  intros H. unfold captureImage. rewrite H.
  rewrite processCameraCapture_requests. reflexivity.
Qed.

End ScannerRequests.

(** ** Region selection *)

Section RegionSelection.

Import Scanner.

Variables (env1 env2 : CaptureEnv) (e1 e2 : Pointer).

Let x1 := (clientX e1 - rect_left env1)%Z.
Let y1 := (clientY e1 - rect_top env1)%Z.
Let x2 := (clientX e2 - rect_left env2)%Z.
Let y2 := (clientY e2 - rect_top env2)%Z.

(** The rectangle the claim describes, on the start corner the first click
    recorded. *)
Definition selected_rectangle (px1 py1 px2 py2 : Z) : Region :=
  {| startX := px1; startY := py1;
     width := Some (Z.abs (px2 - px1)); height := Some (Z.abs (py2 - py1));
     x := Some (Z.min px1 px2); y := Some (Z.min py1 py2) |}.

Lemma endSelection_rectangle (px1 py1 px2 py2 : Z) :
  endSelection {| startX := px1; startY := py1; width := None; height := None;
                  x := None; y := None |} px2 py2
  = selected_rectangle px1 py1 px2 py2.
Proof.
  unfold endSelection, selected_rectangle; simpl.
  f_equal; f_equal.
  - destruct (Z.gtb_spec (px2 - px1) 0); lia.
  - destruct (Z.gtb_spec (py2 - py1) 0); lia.
Qed.

(** C2. Two clicks on the camera feed in selection mode, recording the
    points (x1,y1) and then (x2,y2): the second click passes to
    [captureImage] the rectangle of width |x2-x1|, height |y2-y1| and origin
    (min x1 x2, min y1 y2), and that rectangle is what the upload carries as
    [selected_region]; the points (50,50) then (30,80) give
    x 30, y 50, width 20, height 30. *)
Theorem region_selection_rectangle (s : State) :
  selectedRegion s = None ->
  let r := selected_rectangle x1 y1 x2 y2 in
  let s1 := handleRegionSelection env1 e1 s in
  (handleRegionSelection env2 e2 s1
   = set_selectedRegion None
       (toggleRegionSelection
          (captureImage env2 (Some r) (set_selectedRegion (Some r) s1))))
  /\ (forall imageDataUrl, frame env2 = Returns imageDataUrl ->
      requests (handleRegionSelection env2 e2 s1)
      = requests s
          ++ [POST (lit "/api/process-camera-capture")
                (FormBody [(lit "image_data", FvText imageDataUrl);
                           (lit "selected_region",
                            FvJson [(lit "startX", x1); (lit "startY", y1);
                                    (lit "width", Z.abs (x2 - x1));
                                    (lit "height", Z.abs (y2 - y1));
                                    (lit "x", Z.min x1 x2);
                                    (lit "y", Z.min y1 y2)])])])
  /\ (width (selected_rectangle 50 50 30 80) = Some 20%Z
      /\ height (selected_rectangle 50 50 30 80) = Some 30%Z
      /\ x (selected_rectangle 50 50 30 80) = Some 30%Z
      /\ y (selected_rectangle 50 50 30 80) = Some 50%Z).
Proof.
  intros Hnone r s1.
  assert (Hstep : handleRegionSelection env2 e2 s1
                  = set_selectedRegion None
                      (toggleRegionSelection
                         (captureImage env2 (Some r) (set_selectedRegion (Some r) s1)))).
  { assert (Hs1 : s1 = showSelectionBox
                         (set_selectedRegion
                            (Some {| startX := x1; startY := y1; width := None;
                                     height := None; x := None; y := None |}) s)).
    { unfold s1, handleRegionSelection. rewrite Hnone. reflexivity. }
    unfold handleRegionSelection at 1. rewrite Hs1 at 1. simpl selectedRegion.
    fold x2 y2. cbv iota. rewrite endSelection_rectangle. reflexivity. }
  split; [exact Hstep|]. split; [|repeat split].
  intros imageDataUrl Hframe. rewrite Hstep.
  assert (Htoggle : forall t, requests (set_selectedRegion None (toggleRegionSelection t))
                              = requests t).
  { intros t. unfold toggleRegionSelection. simpl.
    destruct (negb (isSelecting t)); reflexivity. }
  rewrite Htoggle, (captureImage_requests _ _ _ _ Hframe).
  unfold s1, handleRegionSelection. rewrite Hnone. reflexivity.
Qed.

End RegionSelection.

Lemma region_selection_rectangle_witness :
  let env := {| Scanner.rect_left := 10; Scanner.rect_top := 20;
                Scanner.frame := Returns (lit "data:image/jpeg;base64,AAAA");
                Scanner.answer := NetworkError (lit "offline") |} in
  let e1 := {| Scanner.clientX := 60; Scanner.clientY := 70 |} in
  let e2 := {| Scanner.clientX := 40; Scanner.clientY := 100 |} in
  Scanner.requests
    (Scanner.handleRegionSelection env e2
       (Scanner.handleRegionSelection env e1 Scanner.constructed))
  = [POST (lit "/api/process-camera-capture")
       (FormBody [(lit "image_data", FvText (lit "data:image/jpeg;base64,AAAA"));
                  (lit "selected_region",
                   FvJson [(lit "startX", 50%Z); (lit "startY", 50%Z);
                           (lit "width", 20%Z); (lit "height", 30%Z);
                           (lit "x", 30%Z); (lit "y", 50%Z)])])].
Proof.
  intros env e1 e2.
  exact (proj1 (proj2 (region_selection_rectangle env env e1 e2 Scanner.constructed
                         eq_refl))
           (lit "data:image/jpeg;base64,AAAA") eq_refl).
Defined.

(** ** The camera stream *)

Section CameraStream.

Import Scanner.

(** The part of the state the camera lifecycle lives in. *)
Definition camera_part (s : State) : option nat * list (list bool) * nat * Display :=
  (stream s, media s, pendingMedia s, startCameraBtn (controls s)).

Lemma analysis_succeeded_camera (result : AnalysisResponse) (s : State) :
  camera_part (fst (analysis_succeeded result s)) = camera_part s.
Proof.
  unfold analysis_succeeded, showIntelligentConfirmation, createConfirmationOverlay.
  destruct (r_confirmation_data result); reflexivity.
Qed.

Ltac through_analysis L :=
  match goal with
  | |- context [analysis_succeeded ?r ?t] =>
      let H := fresh "H" in
      pose proof (L r t) as H;
      destruct (analysis_succeeded r t) as [? [?|]]; exact H
  end.

Lemma processCameraCapture_camera formData outcome (s : State) :
  camera_part (processCameraCapture formData outcome s) = camera_part s.
Proof.
  unfold processCameraCapture.
  destruct outcome as [m | status text [result|]]; try reflexivity;
    destruct (negb (ok status)); try reflexivity.
  destruct (r_success result); [|reflexivity].
  through_analysis analysis_succeeded_camera.
Qed.

Lemma processImage_camera formData isCamera outcome (s : State) :
  camera_part (processImage formData isCamera outcome s) = camera_part s.
Proof.
  unfold processImage.
  destruct outcome as [m | status text [result|]]; try reflexivity.
  destruct (r_success result); [|reflexivity].
  through_analysis analysis_succeeded_camera.
Qed.

Lemma captureImage_camera env region (s : State) :
  camera_part (captureImage env region s) = camera_part s.
Proof.
  unfold captureImage. destruct (frame env); [|reflexivity].
  rewrite processCameraCapture_camera. reflexivity.
Qed.

Lemma toggleRegionSelection_camera (s : State) :
  camera_part (toggleRegionSelection s) = camera_part s.
Proof.
  unfold toggleRegionSelection. simpl. destruct (negb (isSelecting s)); reflexivity.
Qed.

Lemma handleRegionSelection_camera env event (s : State) :
  camera_part (handleRegionSelection env event s) = camera_part s.
Proof.
  unfold handleRegionSelection. destruct (selectedRegion s); [|reflexivity].
  change (camera_part (set_selectedRegion None ?t)) with (camera_part t).
  rewrite toggleRegionSelection_camera, captureImage_camera. reflexivity.
Qed.

Lemma selectOption_camera j type (s : State) :
  camera_part (selectOption j type s) = camera_part s.
Proof.
  unfold selectOption. destruct (overlays s); [reflexivity|].
  destruct (nth_error _ j); [|reflexivity].
  destruct (suggested _ _ _); reflexivity.
Qed.

Lemma proceedWithConfirmedInput_camera outcome (s : State) :
  camera_part (proceedWithConfirmedInput outcome s) = camera_part s.
Proof.
  unfold proceedWithConfirmedInput. destruct (overlays s); [reflexivity|].
  destruct (negb _); [reflexivity|].
  destruct outcome as [m | status text [result|]]; try reflexivity.
  destruct (g_success result); reflexivity.
Qed.

Definition camera_event (e : Event) : bool :=
  match e with
  | StartCameraClick | MediaSettled _ | StopCameraClick => true
  | _ => false
  end.

Lemma other_events_leave_camera (e : Event) (s : State) :
  camera_event e = false -> camera_part (handle e s) = camera_part s.
Proof.
  destruct e; simpl camera_event; intros H; try discriminate H; simpl handle.
  - apply toggleRegionSelection_camera.
  - apply captureImage_camera.
  - unfold handleCameraClick. destruct (isSelecting s);
      [apply handleRegionSelection_camera | apply captureImage_camera].
  - unfold handleCameraTouch. destruct (isSelecting s);
      [apply handleRegionSelection_camera | apply captureImage_camera].
  - unfold handleImageUpload. destruct file; [|reflexivity].
    rewrite processImage_camera. reflexivity.
  - unfold clickCard. destruct (overlays s); [reflexivity|].
    destruct (nth_error _ j); [|reflexivity]. apply selectOption_camera.
  - unfold editOverlay. destruct (overlays s); reflexivity.
  - unfold editOverlay. destruct (overlays s); reflexivity.
  - unfold editOverlay. destruct (overlays s); reflexivity.
  - apply proceedWithConfirmedInput_camera.
  - reflexivity.
  - reflexivity.
  - reflexivity.
Qed.

(** What holds of the camera part in every state the scanner reaches when
    starts do not overlap: a stream with a live track is the one in
    [this.stream]; while a stream is held the start button is hidden; while
    a request is pending no stream is held; at most one request is pending. *)
Definition camera_inv (p : option nat * list (list bool) * nat * Display) : Prop :=
  let '(held, streams, pending, start) := p in
  (forall i tracks, nth_error streams i = Some tracks -> live tracks = true ->
                    held = Some i)
  /\ (held <> None -> hidden start = true)
  /\ (pending <> 0 -> held = None)
  /\ pending <= 1.

Lemma live_repeat (n : nat) : live (repeat true n) = true -> n <> 0.
Proof. destruct n; simpl; [discriminate|]. intros _; discriminate. Qed.

Lemma stopped_not_live (t : list bool) : live (map (fun _ => false) t) = false.
Proof. induction t; simpl; auto. Qed.

Lemma stop_tracks_live (id : nat) (m : list (list bool)) :
  forall i tracks, nth_error (stop_tracks id m) i = Some tracks -> live tracks = true ->
                   i <> id /\ nth_error m i = Some tracks.
Proof.
  revert id. induction m as [|t m IH]; intros id i tracks H L.
  - destruct id, i; discriminate H.
  - destruct id as [|id]; destruct i as [|i]; simpl in H.
    + injection H as <-. rewrite stopped_not_live in L. discriminate L.
    + split; [discriminate | exact H].
    + split; [discriminate | exact H].
    + destruct (IH id i tracks H L) as [Hne Hm]. split; [congruence | exact Hm].
Qed.

Lemma camera_inv_constructed : camera_inv (camera_part constructed).
Proof.
  simpl. repeat split; try discriminate; try lia; try congruence.
  intros [|i] tracks H; discriminate H.
Qed.

Lemma camera_inv_step (e : Event) (s : State) :
  camera_inv (camera_part s) ->
  enabled e s = true ->
  (e = StartCameraClick -> pendingMedia s = 0) ->
  camera_inv (camera_part (handle e s)).
Proof.
  intros I En Seq.
  destruct (camera_event e) eqn:K;
    [| rewrite (other_events_leave_camera e s K); exact I].
  unfold camera_part in *. destruct I as (I1 & I2 & I3 & I4).
  destruct e; try discriminate K; simpl in En |- *.
  - (* the start button is clicked *)
    specialize (Seq eq_refl). repeat split; auto; try lia.
    intros _. destruct (stream s); [|reflexivity].
    rewrite I2 in En by discriminate. discriminate En.
  - (* the promise settles *)
    apply negb_true_iff, Nat.eqb_neq in En.
    assert (Hnone : stream s = None) by auto.
    destruct grant as [n|]; simpl.
    + repeat split; try lia; try (intros; reflexivity).
      intros i tracks H L.
      destruct (Nat.lt_ge_cases i (List.length (media s))) as [Hlt|Hge].
      * rewrite nth_error_app1 in H by exact Hlt.
        rewrite (I1 i tracks H L) in Hnone. discriminate Hnone.
      * rewrite nth_error_app2 in H by exact Hge.
        destruct (i - List.length (media s)) as [|k] eqn:D; simpl in H.
        -- f_equal. lia.
        -- destruct k; discriminate H.
    + repeat split; auto; try lia.
  - (* the stop button is clicked *)
    destruct (stream s) as [id|] eqn:Hs; simpl.
    + repeat split; auto; try congruence.
      intros i tracks H L.
      destruct (stop_tracks_live id (media s) i tracks H L) as [Hne Hm].
      specialize (I1 i tracks Hm L). congruence.
    + rewrite Hs. repeat split; auto; congruence.
Qed.

Lemma camera_inv_run (es : list Event) :
  forall s, camera_inv (camera_part s) ->
            admissible es s = true -> one_start_at_a_time es s = true ->
            camera_inv (camera_part (run es s)).
Proof.
  induction es as [|e es IH]; intros s I A O; simpl in *; [exact I|].
  apply andb_true_iff in A as [En A]. apply andb_true_iff in O as [Q O].
  apply IH; auto. apply camera_inv_step; auto.
  intros ->. apply Nat.eqb_eq. exact Q.
Qed.

Lemma no_live_filter (m : list (list bool)) :
  (forall i tracks, nth_error m i = Some tracks -> live tracks = true -> False) ->
  filter live m = [].
Proof.
  induction m as [|t m IH]; intros H; simpl; [reflexivity|].
  destruct (live t) eqn:L.
  - exfalso. exact (H 0 t eq_refl L).
  - apply IH. intros i tracks Hi. exact (H (S i) tracks Hi).
Qed.

Lemma one_live_filter (m : list (list bool)) :
  forall k, (forall i tracks, nth_error m i = Some tracks -> live tracks = true -> i = k) ->
            List.length (filter live m) <= 1.
Proof.
  induction m as [|t m IH]; intros k H; simpl; [lia|].
  destruct (live t) eqn:L.
  - rewrite no_live_filter; [simpl; lia|].
    intros i tracks Hi Li.
    pose proof (H 0 t eq_refl L). pose proof (H (S i) tracks Hi Li). lia.
  - apply (IH (pred k)). intros i tracks Hi Li.
    pose proof (H (S i) tracks Hi Li). lia.
Qed.

Lemma camera_inv_live (s : State) :
  camera_inv (camera_part s) ->
  live_streams s <= 1 /\ (stream s = None -> live_streams s = 0).
Proof.
  unfold camera_part, live_streams. intros (I1 & _). split.
  - destruct (stream s) as [k|] eqn:Hs.
    + apply (one_live_filter _ k). intros i tracks H L.
      specialize (I1 i tracks H L). congruence.
    + rewrite no_live_filter; [simpl; lia|].
      intros i tracks H L. specialize (I1 i tracks H L). discriminate I1.
  - intros Hs. rewrite no_live_filter; [reflexivity|].
    intros i tracks H L. specialize (I1 i tracks H L). congruence.
Qed.

(** C4, as the code has it. [startCamera] stores the stream it is granted
    and releases nothing; [stopCamera] stops every track of the stream held
    and clears the handle. The start button is hidden from the moment a
    stream is held until the camera is stopped, so in every state reached
    from construction by events on controls that are not hidden, no start
    being clicked while another request for the camera is pending, at most
    one camera stream is live, and none when no stream is held. *)
Theorem one_camera_stream_between_starts (es : list Event) :
  admissible es constructed = true ->
  one_start_at_a_time es constructed = true ->
  live_streams (run es constructed) <= 1
  /\ (stream (run es constructed) = None -> live_streams (run es constructed) = 0).
Proof.
  intros A O. apply camera_inv_live.
  apply camera_inv_run; auto. apply camera_inv_constructed.
Qed.

End CameraStream.

(** ** The confirmation overlay *)

Section ConfirmationOverlay.

Import Scanner.

Definition at_most_one {A} (l : list A) : Prop := List.length l <= 1.

Lemma at_most_one_tl {A} (l : list A) : at_most_one l -> at_most_one (tl l).
Proof. unfold at_most_one. destruct l; simpl; lia. Qed.

Lemma replaced {A} (l : list A) (a : A) : at_most_one l -> tl l ++ [a] = [a].
Proof.
  unfold at_most_one. destruct l as [|b [|c l]]; simpl; try reflexivity; lia.
Qed.

Lemma analysis_succeeded_overlays (result : AnalysisResponse) (s : State) :
  overlays (fst (analysis_succeeded result s))
  = match r_confirmation_data result with
    | Some cd => tl (overlays s) ++ [overlay_of cd]
    | None => tl (overlays s)
    end.
Proof.
  unfold analysis_succeeded, showIntelligentConfirmation, createConfirmationOverlay.
  destruct (r_confirmation_data result); reflexivity.
Qed.

Lemma analysis_succeeded_at_most_one (result : AnalysisResponse) (s : State) :
  at_most_one (overlays s) -> at_most_one (overlays (fst (analysis_succeeded result s))).
Proof.
  intros H. rewrite analysis_succeeded_overlays.
  destruct (r_confirmation_data result).
  - rewrite (replaced _ _ H). unfold at_most_one. simpl. lia.
  - apply at_most_one_tl, H.
Qed.

Ltac through_analysis_with L Hyp :=
  match goal with
  | |- context [analysis_succeeded ?r ?t] =>
      let H := fresh "H" in
      pose proof (L r t Hyp) as H;
      destruct (analysis_succeeded r t) as [? [?|]]; exact H
  end.

Lemma processCameraCapture_at_most_one formData outcome (s : State) :
  at_most_one (overlays s) ->
  at_most_one (overlays (processCameraCapture formData outcome s)).
Proof.
  intros H. unfold processCameraCapture.
  destruct outcome as [m | status text [result|]]; try exact H;
    destruct (negb (ok status)); try exact H.
  destruct (r_success result); [|exact H].
  through_analysis_with analysis_succeeded_at_most_one H.
Qed.

Lemma processImage_at_most_one formData isCamera outcome (s : State) :
  at_most_one (overlays s) ->
  at_most_one (overlays (processImage formData isCamera outcome s)).
Proof.
  intros H. unfold processImage.
  destruct outcome as [m | status text [result|]]; try exact H.
  destruct (r_success result); [|exact H].
  through_analysis_with analysis_succeeded_at_most_one H.
Qed.

Lemma captureImage_at_most_one env region (s : State) :
  at_most_one (overlays s) -> at_most_one (overlays (captureImage env region s)).
Proof.
  intros H. unfold captureImage. destruct (frame env); [|exact H].
  apply processCameraCapture_at_most_one. exact H.
Qed.

Lemma toggleRegionSelection_overlays (s : State) :
  overlays (toggleRegionSelection s) = overlays s.
Proof.
  unfold toggleRegionSelection. simpl. destruct (negb (isSelecting s)); reflexivity.
Qed.

Lemma handleRegionSelection_at_most_one env event (s : State) :
  at_most_one (overlays s) ->
  at_most_one (overlays (handleRegionSelection env event s)).
Proof.
  intros H. unfold handleRegionSelection. destruct (selectedRegion s); [|exact H].
  change (overlays (set_selectedRegion None ?t)) with (overlays t).
  rewrite toggleRegionSelection_overlays.
  apply captureImage_at_most_one. exact H.
Qed.

Lemma selectOption_count j type (s : State) :
  List.length (overlays (selectOption j type s)) = List.length (overlays s).
Proof.
  unfold selectOption. destruct (overlays s) as [|o rest] eqn:E; [rewrite E; reflexivity|].
  destruct (nth_error _ j); [|rewrite E; reflexivity].
  destruct (suggested _ _ _); simpl; rewrite length_map; reflexivity.
Qed.

Lemma proceedWithConfirmedInput_at_most_one outcome (s : State) :
  at_most_one (overlays s) ->
  at_most_one (overlays (proceedWithConfirmedInput outcome s)).
Proof.
  intros H. unfold proceedWithConfirmedInput.
  destruct (overlays s) as [|o rest] eqn:E; [rewrite E; exact H|].
  destruct (negb _); [simpl; rewrite E; exact H|].
  assert (T : at_most_one rest) by (apply (at_most_one_tl (o :: rest)), H).
  destruct outcome as [m | status text [result|]]; simpl; rewrite ?E; try exact T.
  destruct (g_success result); simpl; rewrite E; exact T.
Qed.

Lemma editOverlay_at_most_one f (s : State) :
  at_most_one (overlays s) -> at_most_one (overlays (editOverlay f s)).
Proof.
  intros H. unfold editOverlay. destruct (overlays s) as [|o rest] eqn:E.
  - rewrite E. exact H.
  - exact H.
Qed.

Lemma handle_at_most_one (e : Event) (s : State) :
  at_most_one (overlays s) -> at_most_one (overlays (handle e s)).
Proof.
  intros H. destruct e; simpl handle.
  - exact H.
  - unfold startCamera_resume. destruct grant; exact H.
  - unfold stopCamera. destruct (stream s); exact H.
  - rewrite toggleRegionSelection_overlays. exact H.
  - apply captureImage_at_most_one, H.
  - unfold handleCameraClick. destruct (isSelecting s);
      [apply handleRegionSelection_at_most_one | apply captureImage_at_most_one]; exact H.
  - unfold handleCameraTouch. destruct (isSelecting s);
      [apply handleRegionSelection_at_most_one | apply captureImage_at_most_one]; exact H.
  - unfold handleImageUpload. destruct file; [|exact H].
    apply processImage_at_most_one. exact H.
  - unfold clickCard. destruct (overlays s) as [|o rest] eqn:E; [rewrite E; exact H|].
    destruct (nth_error _ j); [|rewrite E; exact H].
    unfold at_most_one. rewrite selectOption_count, E. exact H.
  - apply editOverlay_at_most_one, H.
  - apply editOverlay_at_most_one, H.
  - apply editOverlay_at_most_one, H.
  - apply proceedWithConfirmedInput_at_most_one, H.
  - apply (at_most_one_tl (overlays s)), H.
  - apply (at_most_one_tl (overlays s)), H.
  - exact H.
Qed.

Lemma run_at_most_one (es : list Event) :
  forall s, at_most_one (overlays s) -> at_most_one (overlays (run es s)).
Proof.
  induction es as [|e es IH]; intros s H; simpl; [exact H|].
  apply IH, handle_at_most_one, H.
Qed.

(** C10. In every state the scanner reaches from construction, whatever
    the events, the document holds at most one confirmation overlay;
    creating one there leaves exactly the new one, and closing leaves
    none. *)
Theorem at_most_one_confirmation_overlay (es : list Event) :
  List.length (overlays (run es constructed)) <= 1
  /\ (forall cd, overlays (fst (createConfirmationOverlay (Some cd) (run es constructed)))
                 = [overlay_of cd])
  /\ overlays (closeConfirmation (run es constructed)) = [].
Proof.
  assert (H : at_most_one (overlays (run es constructed))).
  { apply run_at_most_one. unfold at_most_one. simpl. lia. }
  split; [exact H|]. split.
  - intros cd. unfold createConfirmationOverlay, closeConfirmation. simpl.
    apply replaced, H.
  - unfold closeConfirmation. simpl. unfold at_most_one in H.
    destruct (overlays (run es constructed)) as [|o [|o' l]]; simpl in *;
      try reflexivity; lia.
Qed.

End ConfirmationOverlay.

(** ** Choosing among the candidates *)

Section CandidateSelection.

Import Scanner.

(** A candidate of the confirmation view. *)
Inductive Candidate :=
| TheConcept
| AQuestion (i : nat)
| ATopic (i : nat).

Definition present (cd : ConfirmationData) (c : Candidate) : bool :=
  match c with
  | TheConcept => true
  | AQuestion i => i <? List.length (questions cd)
  | ATopic i => i <? List.length (topics cd)
  end.

(** The candidate's [suggested_input] in the backend's data. *)
Definition suggested_input (cd : ConfirmationData) (c : Candidate) : option jstring :=
  match c with
  | TheConcept => Some (c_suggested_input (primary_concept cd))
  | AQuestion i => option_map q_suggested_input (nth_error (questions cd) i)
  | ATopic i => option_map t_suggested_input (nth_error (topics cd) i)
  end.

(** Where the candidate's card stands among the cards of the overlay. *)
Definition card_position (cd : ConfirmationData) (c : Candidate) : nat :=
  match c with
  | TheConcept => 0
  | AQuestion i => 1 + i
  | ATopic i => 1 + List.length (questions cd) + i
  end.

Definition is_card_of (c : Candidate) (card : Card) : Prop :=
  match c with
  | TheConcept => card_type card = concept
  | AQuestion i => card_type card = question /\ data_index card = Some i
  | ATopic i => card_type card = topic /\ data_index card = Some i
  end.

Definition click (cd : ConfirmationData) (c : Candidate) : Event :=
  CardClick (card_position cd c).

Lemma mapi_from_length {A B} (f : nat -> A -> B) (l : list A) :
  forall k, List.length (mapi_from f k l) = List.length l.
Proof. induction l; intros k; simpl; auto. Qed.

Lemma mapi_from_nth {A B} (f : nat -> A -> B) (l : list A) :
  forall k i, nth_error (mapi_from f k l) i = option_map (f (k + i)) (nth_error l i).
Proof.
  induction l as [|a l IH]; intros k [|i]; simpl; try reflexivity.
  - rewrite Nat.add_0_r. reflexivity.
  - rewrite IH. f_equal. f_equal. lia.
Qed.

Lemma update_nth_nth {A} (f : A -> A) (l : list A) :
  forall j k, nth_error (update_nth j f l) k
              = if k =? j then option_map f (nth_error l k) else nth_error l k.
Proof.
  induction l as [|a l IH]; intros [|j] [|k]; simpl; try reflexivity.
  - destruct (k =? j); reflexivity.
  - apply IH.
Qed.

Lemma map_update_nth {A} (f g : A -> A) (l : list A) :
  (forall a, f (g a) = f a) -> forall j, map f (update_nth j g l) = map f l.
Proof.
  intros H. induction l as [|a l IH]; intros [|j]; simpl; try reflexivity.
  - rewrite H. reflexivity.
  - rewrite IH. reflexivity.
Qed.

(** The card the template writes for a candidate. *)
Lemma card_of_candidate (cd : ConfirmationData) (c : Candidate) :
  present cd c = true ->
  exists card, nth_error (cards (overlay_of cd)) (card_position cd c) = Some card
               /\ is_card_of c card /\ selected card = false.
Proof.
  destruct c as [|i|i]; simpl; intros P.
  - eexists; repeat split.
  - apply Nat.ltb_lt in P. unfold mapi.
    rewrite nth_error_app1 by (rewrite mapi_from_length; exact P).
    rewrite mapi_from_nth. simpl.
    destruct (nth_error (questions cd) i) as [q|] eqn:E.
    + eexists; repeat split.
    + apply nth_error_None in E. lia.
  - apply Nat.ltb_lt in P. unfold mapi.
    rewrite nth_error_app2 by (rewrite mapi_from_length; lia).
    rewrite mapi_from_length.
    replace (List.length (questions cd) + i - List.length (questions cd)) with i by lia.
    rewrite mapi_from_nth. simpl.
    destruct (nth_error (topics cd) i) as [t|] eqn:E.
    + eexists; repeat split.
    + apply nth_error_None in E. lia.
Qed.

Lemma suggested_of_card (cd : ConfirmationData) (c : Candidate) (card : Card) :
  is_card_of c card ->
  suggested (Some cd) (card_type card) (data_index card) = suggested_input cd c.
Proof.
  destruct c; simpl; [intros -> | intros [-> ->] | intros [-> ->]]; reflexivity.
Qed.

Lemma present_suggested (cd : ConfirmationData) (c : Candidate) :
  present cd c = true -> exists text, suggested_input cd c = Some text.
Proof.
  destruct c as [|i|i]; simpl; intros P.
  - eexists; reflexivity.
  - apply Nat.ltb_lt in P. destruct (nth_error (questions cd) i) eqn:E.
    + eexists; reflexivity.
    + apply nth_error_None in E. lia.
  - apply Nat.ltb_lt in P. destruct (nth_error (topics cd) i) eqn:E.
    + eexists; reflexivity.
    + apply nth_error_None in E. lia.
Qed.

(** The confirmation view of [cd]: the scanner holds [cd], and the document
    holds one overlay, whose cards are those written for [cd], whatever
    their selected marks. *)
Definition confirmation_view (cd : ConfirmationData) (s : State) : Prop :=
  confirmationData s = Some cd
  /\ exists o, overlays s = [o]
              /\ map (set_selected false) (cards o) = cards (overlay_of cd).

Lemma overlay_of_unselected (cd : ConfirmationData) :
  map (set_selected false) (cards (overlay_of cd)) = cards (overlay_of cd).
Proof.
  unfold overlay_of, mapi. simpl. f_equal. rewrite map_app. f_equal.
  - generalize 0. induction (questions cd); intros k; simpl; [reflexivity|].
    rewrite IHl. reflexivity.
  - generalize 0. induction (topics cd); intros k; simpl; [reflexivity|].
    rewrite IHl. reflexivity.
Qed.

(** One click: the overlay that results. *)
Lemma click_selects (cd : ConfirmationData) (c : Candidate) (s : State) :
  confirmation_view cd s -> present cd c = true ->
  exists o text,
    suggested_input cd c = Some text
    /\ confirmationData (handle (click cd c) s) = Some cd
    /\ overlays (handle (click cd c) s) = [o]
    /\ confirmed_input o = text
    /\ cards o = update_nth (card_position cd c) (set_selected true) (cards (overlay_of cd)).
Proof.
  intros (Hcd & o & Ho & Hcards) P.
  destruct (card_of_candidate cd c P) as (card0 & Hnth & Hcard & _).
  destruct (present_suggested cd c P) as (text & Htext).
  assert (Hc : exists card, nth_error (cards o) (card_position cd c) = Some card
                            /\ is_card_of c card).
  { rewrite <- Hcards, nth_error_map in Hnth.
    destruct (nth_error (cards o) (card_position cd c)) as [card|]; [|discriminate Hnth].
    exists card. split; [reflexivity|]. injection Hnth as <-.
    destruct c; exact Hcard. }
  destruct Hc as (card & Hn & Hk).
  simpl handle. unfold clickCard, selectOption. rewrite Ho, Hn, Hcd.
  rewrite (suggested_of_card cd c card Hk), Htext, Hcards.
  eexists; exists text. repeat split; simpl; auto.
Qed.

Lemma click_keeps_view (cd : ConfirmationData) (c : Candidate) (s : State) :
  confirmation_view cd s -> present cd c = true ->
  confirmation_view cd (handle (click cd c) s).
Proof.
  intros V P. destruct (click_selects cd c s V P) as (o & text & _ & Hcd & Ho & _ & Hc).
  split; [exact Hcd|]. exists o. split; [exact Ho|].
  rewrite Hc, map_update_nth by reflexivity. apply overlay_of_unselected.
Qed.

Lemma clicks_keep_view (cd : ConfirmationData) (cs : list Candidate) :
  forall s, confirmation_view cd s -> forallb (present cd) cs = true ->
            confirmation_view cd (run (map (click cd) cs) s).
Proof.
  induction cs as [|c cs IH]; intros s V P; simpl in *; [exact V|].
  apply andb_true_iff in P as [Pc Pcs].
  apply IH; [|exact Pcs]. apply click_keeps_view; assumption.
Qed.

Lemma run_app (es es' : list Event) (s : State) :
  run (es ++ es') s = run es' (run es s).
Proof. unfold run. apply fold_left_app. Qed.

(** The state a successful capture leaves is a confirmation view. *)
Lemma confirmation_view_after_analysis (result : AnalysisResponse) (cd : ConfirmationData)
    (s : State) :
  r_confirmation_data result = Some cd ->
  List.length (overlays s) <= 1 ->
  confirmation_view cd (fst (analysis_succeeded result s)).
Proof.
  intros Hr Hs. split.
  - unfold analysis_succeeded, showIntelligentConfirmation, createConfirmationOverlay.
    rewrite Hr. reflexivity.
  - exists (overlay_of cd). split.
    + unfold analysis_succeeded, showIntelligentConfirmation, createConfirmationOverlay.
      rewrite Hr. simpl. destruct (overlays s) as [|a [|b l]]; simpl in *;
        try reflexivity; lia.
    + apply overlay_of_unselected.
Qed.

(** The overlay on display and the data the scanner holds, and what ties
    them: there is no overlay, or there is one and it was written for the
    data held. *)
Definition view_part (s : State) : list Overlay * option ConfirmationData :=
  (overlays s, confirmationData s).

Definition coherent (p : list Overlay * option ConfirmationData) : Prop :=
  fst p = []
  \/ exists cd o, snd p = Some cd /\ fst p = [o]
                  /\ map (set_selected false) (cards o) = cards (overlay_of cd).

Lemma coherent_view (s : State) :
  coherent (view_part s) -> overlays s <> [] ->
  exists cd, confirmation_view cd s.
Proof.
  intros [H | (cd & o & Hcd & Ho & Hc)] N; [contradiction|].
  exists cd. split; [exact Hcd|]. exists o. split; assumption.
Qed.

Lemma coherent_tl (os : list Overlay) held held' :
  coherent (os, held) -> coherent (tl os, held').
Proof.
  intros [H | (cd & o & _ & Ho & _)]; simpl in *; left; subst; reflexivity.
Qed.

Lemma analysis_succeeded_coherent (result : AnalysisResponse) (s : State) :
  coherent (view_part s) -> coherent (view_part (fst (analysis_succeeded result s))).
Proof.
  intros H.
  assert (T : tl (overlays s) = []).
  { destruct H as [H | (cd & o & _ & Ho & _)]; simpl in *; rewrite ?H, ?Ho; reflexivity. }
  unfold analysis_succeeded, showIntelligentConfirmation, createConfirmationOverlay.
  destruct (r_confirmation_data result) as [cd|] eqn:E; unfold view_part; simpl;
    unfold remove_first; rewrite T.
  - right. exists cd, (overlay_of cd). repeat split. apply overlay_of_unselected.
  - left. reflexivity.
Qed.

Ltac through_analysis_coherent Hyp :=
  match goal with
  | |- context [analysis_succeeded ?r ?t] =>
      let H := fresh "H" in
      pose proof (analysis_succeeded_coherent r t Hyp) as H;
      destruct (analysis_succeeded r t) as [? [?|]]; exact H
  end.

Lemma processCameraCapture_coherent formData outcome (s : State) :
  coherent (view_part s) ->
  coherent (view_part (processCameraCapture formData outcome s)).
Proof.
  intros H. unfold processCameraCapture.
  destruct outcome as [m | status text [result|]]; try exact H;
    destruct (negb (ok status)); try exact H.
  destruct (r_success result); [|exact H].
  through_analysis_coherent H.
Qed.

Lemma processImage_coherent formData isCamera outcome (s : State) :
  coherent (view_part s) ->
  coherent (view_part (processImage formData isCamera outcome s)).
Proof.
  intros H. unfold processImage.
  destruct outcome as [m | status text [result|]]; try exact H.
  destruct (r_success result); [|exact H].
  through_analysis_coherent H.
Qed.

Lemma captureImage_coherent env region (s : State) :
  coherent (view_part s) -> coherent (view_part (captureImage env region s)).
Proof.
  intros H. unfold captureImage. destruct (frame env); [|exact H].
  apply processCameraCapture_coherent. exact H.
Qed.

Lemma toggleRegionSelection_view (s : State) :
  view_part (toggleRegionSelection s) = view_part s.
Proof.
  unfold toggleRegionSelection. simpl. destruct (negb (isSelecting s)); reflexivity.
Qed.

Lemma handleRegionSelection_coherent env event (s : State) :
  coherent (view_part s) -> coherent (view_part (handleRegionSelection env event s)).
Proof.
  intros H. unfold handleRegionSelection. destruct (selectedRegion s); [|exact H].
  change (view_part (set_selectedRegion None ?t)) with (view_part t).
  rewrite toggleRegionSelection_view.
  apply captureImage_coherent. exact H.
Qed.

Lemma clickCard_coherent j (s : State) :
  coherent (view_part s) -> coherent (view_part (clickCard j s)).
Proof.
  intros H. unfold clickCard, selectOption.
  destruct H as [H | (cd & o & Hcd & Ho & Hc)]; unfold view_part in *; simpl in *.
  - rewrite H. left. exact H.
  - rewrite Ho. destruct (nth_error (cards o) j) as [card|] eqn:E.
    + right. exists cd.
      destruct (suggested _ _ _); simpl; eexists; (split; [exact Hcd|]);
        (split; [reflexivity|]); simpl;
        rewrite map_update_nth by reflexivity;
        rewrite map_map; simpl; exact Hc.
    + right. exists cd, o. rewrite Ho. repeat split; assumption.
Qed.

Lemma editOverlay_coherent f (s : State) :
  (forall o, cards (f o) = cards o) ->
  coherent (view_part s) -> coherent (view_part (editOverlay f s)).
Proof.
  intros Hf H. unfold editOverlay.
  destruct H as [H | (cd & o & Hcd & Ho & Hc)]; unfold view_part in *; simpl in *.
  - rewrite H. left. exact H.
  - rewrite Ho. right. exists cd, (f o). simpl. rewrite Hf. repeat split; assumption.
Qed.

Lemma proceedWithConfirmedInput_coherent outcome (s : State) :
  coherent (view_part s) -> coherent (view_part (proceedWithConfirmedInput outcome s)).
Proof.
  intros H. unfold proceedWithConfirmedInput.
  destruct (overlays s) as [|o rest] eqn:E; [exact H|].
  destruct (negb _); [exact H|].
  assert (T : coherent (rest, confirmationData s)).
  { unfold view_part in H. rewrite E in H.
    apply (coherent_tl (o :: rest) (confirmationData s)). exact H. }
  destruct outcome as [m | status text [result|]]; unfold view_part; simpl;
    rewrite ?E; try exact T.
  destruct (g_success result); simpl; rewrite E; exact T.
Qed.

Lemma handle_coherent (e : Event) (s : State) :
  coherent (view_part s) ->
  (e = StopCameraClick -> overlays s = []) ->
  coherent (view_part (handle e s)).
Proof.
  intros H Stop. destruct e; simpl handle.
  - exact H.
  - unfold startCamera_resume. destruct grant; exact H.
  - left. unfold stopCamera. destruct (stream s); simpl; exact (Stop eq_refl).
  - rewrite toggleRegionSelection_view. exact H.
  - apply captureImage_coherent, H.
  - unfold handleCameraClick. destruct (isSelecting s);
      [apply handleRegionSelection_coherent | apply captureImage_coherent]; exact H.
  - unfold handleCameraTouch. destruct (isSelecting s);
      [apply handleRegionSelection_coherent | apply captureImage_coherent]; exact H.
  - unfold handleImageUpload. destruct file; [|exact H].
    apply processImage_coherent. exact H.
  - apply clickCard_coherent, H.
  - apply editOverlay_coherent; [reflexivity | exact H].
  - apply editOverlay_coherent; [reflexivity | exact H].
  - apply editOverlay_coherent; [reflexivity | exact H].
  - apply proceedWithConfirmedInput_coherent, H.
  - apply (coherent_tl (overlays s) (confirmationData s)), H.
  - apply (coherent_tl (overlays s) (confirmationData s)), H.
  - exact H.
Qed.

(** The camera is not stopped while an overlay is on display. *)
Fixpoint stop_outside_confirmation (es : list Event) (s : State) : bool :=
  match es with
  | [] => true
  | e :: es' =>
      match e, overlays s with
      | StopCameraClick, _ :: _ => false
      | _, _ => true
      end && stop_outside_confirmation es' (handle e s)
  end.

(** X12. Whenever an overlay is on display it is the confirmation view of the
    data the scanner holds, in every state reached from construction
    without stopping the camera under an overlay. *)
Lemma overlay_is_confirmation_view (es : list Event) :
  forall s, coherent (view_part s) ->
            stop_outside_confirmation es s = true ->
            coherent (view_part (run es s)).
Proof.
  induction es as [|e es IH]; intros s H O; simpl in *; [exact H|].
  apply andb_true_iff in O as [Oe O].
  apply IH; [|exact O]. apply handle_coherent; [exact H|].
  intros ->. destruct (overlays s); [reflexivity | discriminate Oe].
Qed.

(** While the scanner holds the data its overlay was written for: after
    any sequence of clicks on candidate cards the text area holds the
    [suggested_input] of the candidate clicked last, that candidate's card
    carries the selected mark, and no other card does. *)
Theorem last_click_selects (cd : ConfirmationData) (s : State)
    (earlier : list Candidate) (last : Candidate) :
  confirmation_view cd s ->
  forallb (present cd) (earlier ++ [last]) = true ->
  exists o card,
    overlays (run (map (click cd) (earlier ++ [last])) s) = [o]
    /\ suggested_input cd last = Some (confirmed_input o)
    /\ nth_error (cards o) (card_position cd last) = Some card
    /\ is_card_of last card
    /\ (forall k card', nth_error (cards o) k = Some card' ->
                        selected card' = (k =? card_position cd last)).
Proof.
  intros V P. rewrite forallb_app in P. apply andb_true_iff in P as [Pe Pl].
  simpl in Pl. rewrite andb_true_r in Pl.
  rewrite map_app, run_app. simpl map. unfold run at 1. simpl fold_left.
  pose proof (clicks_keep_view cd earlier s V Pe) as V'.
  destruct (click_selects cd last _ V' Pl) as (o & text & Ht & _ & Ho & Hi & Hc).
  destruct (card_of_candidate cd last Pl) as (card0 & Hnth & Hcard & Hsel).
  exists o, (set_selected true card0). repeat split.
  - exact Ho.
  - rewrite Hi. exact Ht.
  - rewrite Hc, update_nth_nth, Nat.eqb_refl, Hnth. reflexivity.
  - destruct last; exact Hcard.
  - intros k card' Hk. rewrite Hc, update_nth_nth in Hk.
    destruct (k =? card_position cd last) eqn:E.
    + destruct (nth_error (cards (overlay_of cd)) k); [|discriminate Hk].
      injection Hk as <-. reflexivity.
    + rewrite <- overlay_of_unselected, nth_error_map in Hk.
      destruct (nth_error (cards (overlay_of cd)) k); [|discriminate Hk].
      injection Hk as <-. reflexivity.
Qed.

End CandidateSelection.

(** ** Which video is shown *)

Section PreferredVideo.

(** C7. A successful generation result with an original video URL: when
    it also has a narrated URL, the manual form's player and the scanner's
    result video both use the narrated one, and the original appears in the
    manual form as the alternative link and in no player; when it has no
    narrated URL, the original is the source of the player in both. *)
Theorem narrated_video_preferred (result : GenResponse) (v : VideoUrls) (o : jstring)
    (ms : Manual.State) (ss : Scanner.State) :
  g_video_urls result = Some v ->
  original v = Some o ->
  nonempty o = true ->
  let shown := Manual.videoContent (Manual.displayResults result ms) in
  let ar := Scanner.results (Scanner.showARResults result ss) in
  if truthy (narrated v) then
    exists n, narrated v = Some n
              /\ Manual.players shown = [n]
              /\ Manual.alternative_links shown = [o]
              /\ Scanner.arVideo_src ar = Some n
              /\ Scanner.arVideo ar = d_block
  else
    Manual.players shown = [o]
    /\ Manual.alternative_links shown = []
    /\ Scanner.arVideo_src ar = Some o
    /\ Scanner.arVideo ar = d_block.
Proof.
  intros Hv Ho Hne shown ar. subst shown ar.
  unfold Manual.displayResults, Scanner.showARResults, Scanner.preferred_video,
    Manual.video_nodes, or_opt.
  rewrite Hv, Ho. simpl Manual.videoContent. simpl Scanner.results.
  destruct o as [|c o]; [discriminate Hne|].
  destruct (narrated v) as [[|d n]|]; simpl;
    destruct (code v) as [[|e k]|]; simpl; try (repeat split; reflexivity);
    eexists; repeat split; reflexivity.
Qed.

End PreferredVideo.

Lemma narrated_video_preferred_witness :
  let v := {| original := Some (lit "o.mp4"); narrated := Some (lit "n.mp4");
              code := None; cloud_original := None; script := None |} in
  let result := {| g_success := true; g_error := None; g_video_urls := Some v;
                   g_documents := None |} in
  let ms := {| Manual.form := d_none; Manual.detectionSection := d_none;
               Manual.resultsSection := d_none; Manual.loadingSection := d_none;
               Manual.steps := []; Manual.fields := []; Manual.videoContent := [];
               Manual.documentLinks := []; Manual.alerts := []; Manual.requests := [] |} in
  exists n, narrated v = Some n
            /\ Manual.players (Manual.videoContent (Manual.displayResults result ms)) = [n]
            /\ Manual.alternative_links
                 (Manual.videoContent (Manual.displayResults result ms)) = [lit "o.mp4"]
            /\ Scanner.arVideo_src
                 (Scanner.results (Scanner.showARResults result Scanner.constructed)) = Some n
            /\ Scanner.arVideo
                 (Scanner.results (Scanner.showARResults result Scanner.constructed)) = d_block.
Proof.
  intros v result ms.
  exact (narrated_video_preferred result v (lit "o.mp4") ms Scanner.constructed
           eq_refl eq_refl eq_refl).
Defined.

(** ** Failure paths *)

Section Failures.

(** The backend's answer is a failure: the request is rejected, the body
    is not JSON, or it says [success: false]. *)
Definition generation_failed (outcome : FetchOutcome GenResponse) : bool :=
  match outcome with
  | NetworkError _ => true
  | Response _ _ None => true
  | Response _ _ (Some result) => negb (g_success result)
  end.

Definition failure_message (outcome : FetchOutcome GenResponse) : jstring :=
  match outcome with
  | NetworkError m => m
  | Response _ _ None => syntax_error_message
  | Response _ _ (Some result) => or_else (g_error result) (lit "Generation failed")
  end.

(** C3, the manual form. On every failure of the generation request
    [handleSubmit] alerts the user and hides the loading section, and leaves
    the form hidden, as [showLoading] made it, together with the detection
    and result sections: nothing of the handler's sections is on display
    from which the action could be started again. *)
Theorem manual_submit_failure_leaves_form_hidden
    (outcome : FetchOutcome GenResponse) (s : Manual.State) :
  generation_failed outcome = true ->
  let s' := Manual.handleSubmit outcome s in
  Manual.alerts s' = Manual.alerts s ++ [lit "Generation failed: " ++ failure_message outcome]
  /\ Manual.loadingSection s' = d_none
  /\ Manual.form s' = d_none
  /\ Manual.detectionSection s' = d_none
  /\ Manual.resultsSection s' = d_none.
Proof.
  intros F s'. subst s'. unfold Manual.handleSubmit.
  destruct outcome as [m | status text [result|]]; simpl in F.
  - repeat split.
  - destruct (g_success result); [discriminate F|]. repeat split.
  - repeat split.
Qed.

(** The form is shown again by no handler of the class: a successful
    submission leaves it hidden as well, next to the results. *)
Lemma manual_submit_success_shows_results (result : GenResponse) (s : Manual.State)
    status text :
  g_success result = true ->
  let s' := Manual.handleSubmit (Response status text (Some result)) s in
  Manual.form s' = d_none /\ Manual.resultsSection s' = d_block
  /\ Manual.alerts s' = Manual.alerts s.
Proof.
  intros G s'. subst s'. unfold Manual.handleSubmit. rewrite G. repeat split.
Qed.

(** X5. The scanner's upload of a capture, for comparison: on each failure the
    loading indicator is hidden, the user is alerted, and the controls stay
    as they were. *)
Lemma camera_capture_failure_recovers formData
    (outcome : FetchOutcome Scanner.AnalysisResponse) (s : Scanner.State) :
  match outcome with
  | NetworkError _ => True
  | Response status _ json =>
      ok status = false \/ json = None
      \/ exists r, json = Some r /\ Scanner.r_success r = false
  end ->
  let s' := Scanner.processCameraCapture formData outcome s in
  Scanner.arLoading (Scanner.loading s') = d_none
  /\ Scanner.controls s' = Scanner.controls s
  /\ Scanner.overlays s' = Scanner.overlays s
  /\ exists message,
       Scanner.alerts s' = Scanner.alerts s ++ [lit "Camera capture failed: " ++ message].
Proof.
  intros F s'. subst s'. unfold Scanner.processCameraCapture.
  destruct outcome as [m | status text json].
  - repeat split. eexists; reflexivity.
  - destruct (ok status) eqn:K; simpl.
    + destruct F as [F | [-> | (r & -> & F)]]; [discriminate F | |].
      * repeat split. eexists; reflexivity.
      * rewrite F. repeat split. eexists; reflexivity.
    + repeat split. eexists; reflexivity.
Qed.

(** The page component's voice mode: when the request is rejected, or its
    body is not JSON, inside the FileReader's load handler, nothing catches
    it; no error is set and the component stays in its generating state,
    the generate button disabled. *)
Lemma voice_rejection_stays_generating (s : Page.State) audio audioBase64
    (outcome : FetchOutcome Page.VideoGenerationResult) :
  Page.recordedAudio s = Some audio ->
  match outcome with
  | NetworkError _ | Response _ _ None => True
  | _ => False
  end ->
  let s' := Page.generateVideoFromVoice (Some audioBase64) outcome s in
  Page.isGenerating s' = true /\ Page.result s' = None
  /\ Page.generate_disabled s' = true.
Proof.
  intros A F s'. subst s'. unfold Page.generateVideoFromVoice. rewrite A.
  destruct outcome as [m | status text [data|]]; [| destruct F |]; repeat split.
Qed.

End Failures.

Lemma manual_submit_failure_leaves_form_hidden_witness :
  let s := {| Manual.form := d_block; Manual.detectionSection := d_none;
              Manual.resultsSection := d_none; Manual.loadingSection := d_none;
              Manual.steps := [Manual.step_plain; Manual.step_plain; Manual.step_plain;
                               Manual.step_plain; Manual.step_plain];
              Manual.fields := [(lit "input_text", FvText (lit "Explain photosynthesis"))];
              Manual.videoContent := []; Manual.documentLinks := [];
              Manual.alerts := []; Manual.requests := [] |} in
  let outcome := Response 200 [] (Some {| g_success := false;
                                         g_error := Some (lit "no content detected");
                                         g_video_urls := None; g_documents := None |}) in
  Manual.alerts (Manual.handleSubmit outcome s)
  = [lit "Generation failed: no content detected"]
  /\ Manual.loadingSection (Manual.handleSubmit outcome s) = d_none
  /\ Manual.form (Manual.handleSubmit outcome s) = d_none
  /\ Manual.detectionSection (Manual.handleSubmit outcome s) = d_none
  /\ Manual.resultsSection (Manual.handleSubmit outcome s) = d_none.
Proof.
  intros s outcome.
  exact (manual_submit_failure_leaves_form_hidden outcome s eq_refl).
Defined.

(** ** The page component: empty input *)

Section EmptyInput.

Import Page.

(** The input of the active mode is empty: text that is blank or all white
    space, no recorded audio, no selected image. *)
Definition empty_input (s : State) : bool :=
  match inputMode s with
  | text => forallb is_white_space (inputText s)
  | voice => match recordedAudio s with None => true | Some _ => false end
  | image => match selectedImage s with None => true | Some _ => false end
  end.

(** C9. Generating with an empty input for the active mode changes
    nothing: the state after [handleGenerate] is the state before, so no
    request was sent and [isGenerating], [generationProgress] and [result]
    are as they were. *)
Theorem generate_with_empty_input_is_noop (env : Env) (s : State) :
  empty_input s = true ->
  handleGenerate env s = s
  /\ requests (handleGenerate env s) = requests s
  /\ isGenerating (handleGenerate env s) = isGenerating s
  /\ generationProgress (handleGenerate env s) = generationProgress s
  /\ result (handleGenerate env s) = result s.
Proof.
  intros E.
  assert (H : handleGenerate env s = s).
  { unfold handleGenerate, empty_input in *. destruct (inputMode s).
    - unfold generateVideoFromText. rewrite (trim_white _ E). reflexivity.
    - unfold generateVideoFromVoice. destruct (recordedAudio s); [discriminate E|reflexivity].
    - unfold analyzeImage. destruct (selectedImage s); [discriminate E|reflexivity]. }
  rewrite H. repeat split.
Qed.

End EmptyInput.

Lemma generate_with_empty_input_is_noop_witness :
  let env := {| Page.read := Some (lit "data:"); Page.generation := NetworkError [];
                Page.analysis := NetworkError [] |} in
  let s := Page.setInputText (lit "  ") Page.initial in
  Page.handleGenerate env s = s.
Proof.
  intros env s.
  exact (proj1 (generate_with_empty_input_is_noop env s eq_refl)).
Defined.

(** ** The page component: requests *)

Section PageRequests.

Import Page.

Lemma generateVideoFromText_requests outcome (s : State) :
  nonempty (trim (inputText s)) = true ->
  requests (generateVideoFromText outcome s)
  = requests s ++ [POST text_to_video
                     (TextToVideoBody (inputText s) (selectedLanguage s)
                        (complexity s) (includeNarration s))].
Proof.
  intros H. unfold generateVideoFromText. rewrite H. simpl negb. cbv iota.
  destruct outcome as [m | status text [data|]]; try reflexivity.
  destruct (success data); reflexivity.
Qed.

Lemma generateVideoFromVoice_requests audio audioBase64 outcome (s : State) :
  recordedAudio s = Some audio ->
  requests (generateVideoFromVoice (Some audioBase64) outcome s)
  = requests s ++ [POST voice_to_video (VoiceToVideoBody audioBase64 (selectedLanguage s))].
Proof.
  intros H. unfold generateVideoFromVoice. rewrite H.
  destruct outcome as [m | status text [data|]]; try reflexivity.
  destruct (success data); reflexivity.
Qed.

Lemma generateVideoFromAnalyzedImage_requests topic analysis outcome (s : State) :
  requests (generateVideoFromAnalyzedImage topic analysis outcome s)
  = requests s
      ++ [POST text_to_video
            (TextToVideoBody
               (lit "Explain " ++ topic ++ lit " based on this educational content")
               (selectedLanguage s) (complexity s) (includeNarration s))].
Proof.
  unfold generateVideoFromAnalyzedImage.
  destruct outcome as [m | status text [data|]]; try reflexivity.
  destruct (success data); reflexivity.
Qed.

(** The topic the analysis of an image hands on to generation, if any. *)
Definition first_topic (analysis : FetchOutcome ImageAnalysisResult) : option jstring :=
  match analysis with
  | Response _ _ (Some data) =>
      if ia_success data then
        match ia_topics data with Some (topic :: _) => Some topic | _ => None end
      else None
  | _ => None
  end.

Lemma analyzeImage_requests file imageBase64 analysis generation (s : State) :
  selectedImage s = Some file ->
  requests (analyzeImage (Some imageBase64) analysis generation s)
  = requests s
      ++ POST analyze_image (AnalyzeImageBody imageBase64)
      :: match first_topic analysis with
         | Some topic =>
             [POST text_to_video
                (TextToVideoBody
                   (lit "Explain " ++ topic ++ lit " based on this educational content")
                   (selectedLanguage s) (complexity s) (includeNarration s))]
         | None => []
         end.
Proof.
  intros H. unfold analyzeImage, first_topic. rewrite H.
  destruct analysis as [m | status text [data|]]; try reflexivity.
  destruct (ia_success data); [|reflexivity].
  destruct (ia_topics data) as [[|topic l]|]; try reflexivity.
  rewrite generateVideoFromAnalyzedImage_requests. simpl.
  rewrite <- app_assoc. reflexivity.
Qed.

End PageRequests.

(** ** One action, how many requests *)

Section RequestsPerAction.

(** A user's capture, upload or generate action, with the state it is made
    in and what the environment answers. *)
Inductive Action :=
| CameraCapture (env : Scanner.CaptureEnv) (s : Scanner.State)
| ImageUpload (file : File) (outcome : FetchOutcome Scanner.AnalysisResponse)
              (s : Scanner.State)
| ConfirmedGenerate (outcome : FetchOutcome GenResponse) (s : Scanner.State)
| FormSubmit (outcome : FetchOutcome GenResponse) (s : Manual.State)
| PageGenerate (env : Page.Env) (s : Page.State).

(** The requests sent before the action and after it. *)
Definition requests_before (a : Action) : list Request :=
  match a with
  | CameraCapture _ s | ImageUpload _ _ s | ConfirmedGenerate _ s => Scanner.requests s
  | FormSubmit _ s => Manual.requests s
  | PageGenerate _ s => Page.requests s
  end.

Definition requests_after (a : Action) : list Request :=
  match a with
  | CameraCapture env s => Scanner.requests (Scanner.captureImage env None s)
  | ImageUpload file outcome s =>
      Scanner.requests (Scanner.handleImageUpload (Some file) outcome s)
  | ConfirmedGenerate outcome s =>
      Scanner.requests (Scanner.proceedWithConfirmedInput outcome s)
  | FormSubmit outcome s => Manual.requests (Manual.handleSubmit outcome s)
  | PageGenerate env s => Page.requests (Page.handleGenerate env s)
  end.

Definition issued (a : Action) : list Request :=
  skipn (List.length (requests_before a)) (requests_after a).

(** The action gets as far as the network: the frame is rasterised, the
    confirmed text is not blank, the generate button is enabled, and the
    FileReader of the voice and image modes loads. *)
Definition goes_out (a : Action) : bool :=
  match a with
  | CameraCapture env _ =>
      match Scanner.frame env with Returns _ => true | Throws _ => false end
  | ImageUpload _ _ _ => true
  | ConfirmedGenerate _ s =>
      match Scanner.overlays s with
      | o :: _ => nonempty (trim (Scanner.confirmed_input o))
      | [] => false
      end
  | FormSubmit _ _ => true
  | PageGenerate env s =>
      negb (Page.generate_disabled s)
      && match Page.inputMode s with
         | Page.text => true
         | _ => match Page.read env with Some _ => true | None => false end
         end
  end.

(** The page's image mode whose analysis comes back with a topic. *)
Definition analysis_then_generation (a : Action) : bool :=
  match a with
  | PageGenerate env s =>
      match Page.inputMode s, first_topic (Page.analysis env) with
      | Page.image, Some _ => true
      | _, _ => false
      end
  | _ => false
  end.

Lemma skipn_length_app {A} (l l' : list A) : skipn (List.length l) (l ++ l') = l'.
Proof. induction l; simpl; auto. Qed.

Lemma proceedWithConfirmedInput_requests outcome (s : Scanner.State) o rest :
  Scanner.overlays s = o :: rest ->
  nonempty (trim (Scanner.confirmed_input o)) = true ->
  Scanner.requests (Scanner.proceedWithConfirmedInput outcome s)
  = Scanner.requests s
      ++ [POST (lit "/api/generate-content")
            (FormBody [(lit "input_text", FvText (trim (Scanner.confirmed_input o)));
                       (lit "complexity", FvText (Scanner.confirmed_complexity o));
                       (lit "language", FvText (Scanner.confirmed_language o))])].
Proof.
  intros Ho Hn. unfold Scanner.proceedWithConfirmedInput. rewrite Ho, Hn.
  simpl negb. cbv iota.
  destruct outcome as [m | status text [result|]]; try reflexivity.
  destruct (g_success result); reflexivity.
Qed.

Lemma handleSubmit_requests outcome (s : Manual.State) :
  Manual.requests (Manual.handleSubmit outcome s)
  = Manual.requests s
      ++ [POST (lit "/api/generate-content") (FormBody (Manual.fields s))].
Proof.
  unfold Manual.handleSubmit.
  destruct outcome as [m | status text [result|]]; try reflexivity.
  destruct (g_success result); reflexivity.
Qed.

(** C5, as the code has it. A capture, upload or generate action that
    gets as far as the network sends exactly one request, except the page
    component's generate in image mode when the analysis comes back
    successful with a topic: that one click sends two, the analysis and
    then the text-to-video request for the first topic. *)
Theorem requests_per_action (a : Action) :
  goes_out a = true ->
  requests_after a = requests_before a ++ issued a
  /\ List.length (issued a) = if analysis_then_generation a then 2 else 1.
Proof.
  intros G.
  assert (H : exists new, requests_after a = requests_before a ++ new
                          /\ List.length new = if analysis_then_generation a then 2 else 1).
  { destruct a as [env s | file outcome s | outcome s | outcome s | env s];
      simpl in G |- *.
    - destruct (Scanner.frame env) as [u|] eqn:F; [|discriminate G].
      rewrite (captureImage_requests env None s u F). eexists; split; reflexivity.
    - unfold Scanner.handleImageUpload. rewrite processImage_requests.
      eexists; split; reflexivity.
    - destruct (Scanner.overlays s) as [|o rest] eqn:E; [discriminate G|].
      rewrite (proceedWithConfirmedInput_requests outcome s o rest E G).
      eexists; split; reflexivity.
    - rewrite handleSubmit_requests. eexists; split; reflexivity.
    - apply andb_true_iff in G as [D R]. unfold Page.generate_disabled in D.
      apply negb_true_iff, orb_false_iff in D as [_ D].
      unfold Page.handleGenerate. destruct (Page.inputMode s).
      + apply negb_false_iff in D.
        rewrite (generateVideoFromText_requests _ s D). eexists; split; reflexivity.
      + destruct (Page.recordedAudio s) as [audio|] eqn:A; [|discriminate D].
        destruct (Page.read env) as [u|]; [|discriminate R].
        rewrite (generateVideoFromVoice_requests audio u _ s A).
        eexists; split; reflexivity.
      + destruct (Page.selectedImage s) as [file|] eqn:I; [|discriminate D].
        destruct (Page.read env) as [u|]; [|discriminate R].
        rewrite (analyzeImage_requests file u _ _ s I).
        eexists; split; [reflexivity|].
        destruct (first_topic (Page.analysis env)); reflexivity. }
  destruct H as (new & Hreq & Hlen). unfold issued.
  rewrite Hreq, skipn_length_app. split; [reflexivity | exact Hlen].
Qed.

End RequestsPerAction.

(** ** The page component: the text scenario *)

Section TextScenario.

Import Page.

(** A successful answer of the backend carrying the given video links and
    nothing else. *)
Definition answer_with (v : VideoUrls) : VideoGenerationResult :=
  {| success := true; transcription := None; understood_parameters := None;
     detected_language := None; video_urls := Some v; overall_score := None;
     language_detection := None; debug_audio_path := None; error_type := None;
     error_message := None; suggestions := None; error := None;
     image_analysis := None |}.

Definition only_original (u : jstring) : VideoUrls :=
  {| original := Some u; narrated := None; code := None;
     cloud_original := None; script := None |}.

(** C1, as the code has it. In text mode with the text "Explain
    photosynthesis", language "auto" and complexity "intermediate", the
    generate action sends one POST to the text-to-video endpoint whose JSON
    body carries these three values and the narration flag. On a successful
    answer with video links [v] the component leaves the generating state
    and shows the success view, whose only player is sourced from
    [cloud_original] and whose only links are the download of
    [cloud_original] and the script: with [original] alone there is no
    player and no link at all. *)
Theorem text_scenario (env : Env) (s : State) (v : VideoUrls) status body :
  inputMode s = text ->
  inputText s = lit "Explain photosynthesis" ->
  selectedLanguage s = lit "auto" ->
  complexity s = lit "intermediate" ->
  generation env = Response status body (Some (answer_with v)) ->
  let s' := handleGenerate env s in
  requests s' = requests s
                  ++ [POST text_to_video
                        (TextToVideoBody (lit "Explain photosynthesis") (lit "auto")
                           (lit "intermediate") (includeNarration s))]
  /\ isGenerating s' = false
  /\ result s' = Some (answer_with v)
  /\ players (render s')
     = (if truthy (cloud_original v) then [or_else (cloud_original v) []] else [])
  /\ links (render s')
     = (if truthy (cloud_original v) then [or_else (cloud_original v) []] else [])
         ++ (if truthy (script v) then [or_else (script v) []] else []).
Proof.
  intros Hm Ht Hl Hc Hg s'. subst s'.
  unfold handleGenerate. rewrite Hm, Hg.
  unfold generateVideoFromText. rewrite Ht, Hl, Hc.
  replace (negb (nonempty (trim (lit "Explain photosynthesis")))) with false
    by (vm_compute; reflexivity).
  cbv iota. simpl success. cbv iota.
  repeat split; unfold render, players, links, success_nodes, url_of; simpl;
    destruct (cloud_original v) as [[|c u]|]; destruct (script v) as [[|d w]|];
    reflexivity.
Qed.

End TextScenario.

Lemma text_scenario_witness :
  let env := {| Page.read := None;
                Page.generation :=
                  Response 200 [] (Some (answer_with (only_original (lit "a.mp4"))));
                Page.analysis := NetworkError [] |} in
  let s := Page.setInputText (lit "Explain photosynthesis") Page.initial in
  Page.requests (Page.handleGenerate env s)
  = [POST (lit "http://localhost:8000/api/nlp/text-to-video")
       (TextToVideoBody (lit "Explain photosynthesis") (lit "auto")
          (lit "intermediate") true)]
  /\ Page.isGenerating (Page.handleGenerate env s) = false
  /\ Page.result (Page.handleGenerate env s)
     = Some (answer_with (only_original (lit "a.mp4")))
  /\ Page.players (Page.render (Page.handleGenerate env s)) = []
  /\ Page.links (Page.render (Page.handleGenerate env s)) = [].
Proof.
  intros env s.
  exact (text_scenario env s (only_original (lit "a.mp4")) 200%N []
           eq_refl eq_refl eq_refl eq_refl eq_refl).
Defined.

(** C1 as stated fails: on the answer
    [{success: true, video_urls: {original: "a.mp4"}}] the success view is
    the quality panel alone, with no video player. *)
Lemma original_alone_renders_no_player :
  Page.render
    (Page.handleGenerate
       {| Page.read := None;
          Page.generation :=
            Response 200 [] (Some (answer_with (only_original (lit "a.mp4"))));
          Page.analysis := NetworkError [] |}
       (Page.setInputText (lit "Explain photosynthesis") Page.initial))
  = [Page.SuccessState [Page.QualityMetrics 0 (lit "N/A")]].
Proof. vm_compute. reflexivity. Qed.

Lemma requests_per_action_witness :
  let a := PageGenerate
             {| Page.read := None; Page.generation := NetworkError (lit "offline");
                Page.analysis := NetworkError [] |}
             (Page.setInputText (lit "Explain photosynthesis") Page.initial) in
  requests_after a = requests_before a ++ issued a
  /\ List.length (issued a) = 1.
Proof.
  intros a. exact (requests_per_action a eq_refl).
Defined.

(** C5 as stated fails: one click on generate in the page's image mode,
    the analysis answering with a topic, sends two requests. *)
Lemma image_generate_sends_two_requests :
  Page.requests
    (Page.handleGenerate
       {| Page.read := Some (lit "data:image/png;base64,AAAA");
          Page.generation := NetworkError (lit "offline");
          Page.analysis :=
            Response 200 []
              (Some {| Page.ia_success := true; Page.ia_subject := None;
                       Page.ia_topics := Some [lit "Photosynthesis"];
                       Page.ia_error := None |}) |}
       {| Page.inputText := []; Page.selectedLanguage := lit "auto";
          Page.includeNarration := true; Page.complexity := lit "intermediate";
          Page.inputMode := Page.image; Page.isRecording := false;
          Page.recordedAudio := None; Page.isGenerating := false;
          Page.generationProgress := 0; Page.result := None;
          Page.selectedImage := Some {| file_name := lit "leaf.png";
                                        file_type := lit "image/png";
                                        file_size := 10240 |};
          Page.imagePreview := None; Page.imageAnalysis := None;
          Page.requests := [] |})
  = [POST (lit "http://localhost:8000/api/analyze-educational-image")
       (AnalyzeImageBody (lit "data:image/png;base64,AAAA"));
     POST (lit "http://localhost:8000/api/nlp/text-to-video")
       (TextToVideoBody (lit "Explain Photosynthesis based on this educational content")
          (lit "auto") (lit "intermediate") true)].
Proof. vm_compute. reflexivity. Qed.

Lemma last_click_selects_witness :
  let cd := {| Scanner.primary_concept :=
                 {| Scanner.c_display_text := lit "Cells";
                    Scanner.c_description := lit "Cell structure";
                    Scanner.c_suggested_input := lit "Explain cells" |};
               Scanner.questions :=
                 [{| Scanner.q_text := lit "2+2"; Scanner.q_display_text := lit "2+2?";
                     Scanner.q_suggested_input := lit "Solve 2+2" |};
                  {| Scanner.q_text := lit "3*3"; Scanner.q_display_text := lit "3*3?";
                     Scanner.q_suggested_input := lit "Solve 3*3" |}];
               Scanner.topics :=
                 [{| Scanner.t_name := lit "Algebra"; Scanner.t_display_text := lit "Algebra";
                     Scanner.t_suggested_input := lit "Explain algebra" |}];
               Scanner.best_option :=
                 {| Scanner.bo_type := lit "question";
                    Scanner.bo_content_text := Some (lit "2+2");
                    Scanner.bo_content_name := None |};
               Scanner.processing_suggestions := [];
               Scanner.default_selection := lit "Solve 2+2" |} in
  let env := {| Scanner.rect_left := 0; Scanner.rect_top := 0;
                Scanner.frame := Returns (lit "data:image/jpeg;base64,AAAA");
                Scanner.answer :=
                  Response 200 []
                    (Some {| Scanner.r_success := true; Scanner.r_analysis := None;
                             Scanner.r_confirmation_data := Some cd;
                             Scanner.r_message := None |}) |} in
  let s := Scanner.captureImage env None Scanner.constructed in
  exists o card,
    Scanner.overlays
      (Scanner.run (map (click cd) ([AQuestion 0; TheConcept] ++ [ATopic 0])) s) = [o]
    /\ suggested_input cd (ATopic 0) = Some (Scanner.confirmed_input o)
    /\ nth_error (Scanner.cards o) (card_position cd (ATopic 0)) = Some card
    /\ is_card_of (ATopic 0) card
    /\ (forall k card', nth_error (Scanner.cards o) k = Some card' ->
                        Scanner.selected card' = (k =? card_position cd (ATopic 0))).
Proof.
  intros cd env s.
  refine (last_click_selects cd s [AQuestion 0; TheConcept] (ATopic 0) _ eq_refl).
  split; [reflexivity|]. exists (Scanner.overlay_of cd). split; reflexivity.
Defined.

(** ** One recording, one callback *)

Section Recording.

Import Audio.

(** The chunks the [ondataavailable] handler keeps. *)
Definition kept (chunks : list Blob) : list Blob :=
  filter (fun data => 0 <? size data) chunks.

Definition set_audioChunks (v : list Blob) (s : State) : State :=
  {| mediaRecorder := mediaRecorder s; audioChunks := v;
     isRecording := isRecording s; onRecordingComplete := onRecordingComplete s;
     currentStream := currentStream s; recorders := recorders s;
     completed := completed s |}.

Lemma set_audioChunks_same (s : State) : set_audioChunks (audioChunks s) s = s.
Proof. destruct s; reflexivity. Qed.

Lemma run_data (id : nat) (chunks : list Blob) :
  forall s, run (map (DataAvailable id) chunks) s
            = set_audioChunks (audioChunks s ++ kept chunks) s.
Proof.
  induction chunks as [|data chunks IH]; intros s; simpl.
  - rewrite app_nil_r, set_audioChunks_same. reflexivity.
  - change (fold_left _ _ ?t) with (run (map (DataAvailable id) chunks) t).
    rewrite IH. unfold ondataavailable.
    destruct (0 <? size data); simpl.
    + unfold set_audioChunks. simpl. rewrite <- app_assoc. reflexivity.
    + reflexivity.
Qed.

Definition delivering (id : nat) (s : State) : bool :=
  match nth_error (recorders s) id with
  | Some recording | Some stopping => true
  | _ => false
  end.

Lemma admissible_data (id : nat) (chunks : list Blob) :
  forall s, delivering id s = true ->
            admissible (map (DataAvailable id) chunks) s = true.
Proof.
  induction chunks as [|data chunks IH]; intros s D; simpl; [reflexivity|].
  apply andb_true_iff. split; [exact D|].
  apply IH. unfold ondataavailable. destruct (0 <? size data); exact D.
Qed.

Lemma admissible_app (es es' : list Event) :
  forall s, admissible (es ++ es') s = admissible es s && admissible es' (run es s).
Proof.
  induction es as [|e es IH]; intros s; simpl; [reflexivity|].
  rewrite IH, andb_assoc. reflexivity.
Qed.

Lemma audio_run_app (es es' : list Event) (s : State) :
  run (es ++ es') s = run es' (run es s).
Proof. unfold run. apply fold_left_app. Qed.

Lemma nth_error_last {A} (l : list A) (a : A) :
  nth_error (l ++ [a]) (List.length l) = Some a.
Proof. induction l; simpl; auto. Qed.

Lemma filter_app_kept (l l' : list Blob) : kept (l ++ l') = kept l ++ kept l'.
Proof. unfold kept. apply filter_app. Qed.

(** One recording on its own, from any state: it starts (the callback
    registered, a stream at hand, the recorder accepted), receives data, is
    stopped, receives the rest of its data and then its stop event. All
    these events are ones the browser can deliver, the callback has been
    called exactly once more than before, with a blob of type audio/webm
    built from the non-empty chunks delivered since the start and from
    nothing recorded earlier; after that the recorder has no stop event left
    and a further [stopRecording] does nothing. *)
Theorem isolated_recording_completes (s : State) (env : StartEnv) (callback : nat)
    (during after : list Blob) :
  onRecordingComplete s = Some callback ->
  supported env = true ->
  (currentStream s <> None \/ grant env <> None) ->
  let id := List.length (recorders s) in
  let es := one_recording env id during after in
  admissible es s = true
  /\ completed (run es s)
     = completed s ++ [(callback, new_Blob (kept (during ++ after)) (lit "audio/webm"))]
  /\ isRecording (run es s) = false
  /\ enabled (Stop id) (run es s) = false
  /\ handle StopRecording (run es s) = run es s.
Proof.
  intros Hcb Hsup Hstream id es.
  (* the state once recording has started *)
  assert (Hstart : exists stream,
             startRecording env s
             = {| mediaRecorder := Some id; audioChunks := [];
                  isRecording := true; onRecordingComplete := Some callback;
                  currentStream := Some stream;
                  recorders := recorders s ++ [recording];
                  completed := completed s |}).
  { unfold startRecording, restartAudioMonitoring.
    destruct (currentStream s) as [st|] eqn:C.
    - rewrite C, Hsup, Hcb. exists st. reflexivity.
    - destruct (grant env) as [st|] eqn:G.
      + simpl. rewrite Hsup, Hcb. exists st. reflexivity.
      + destruct Hstream as [H|H]; congruence. }
  destruct Hstart as (stream & Hstart).
  assert (Hid : nth_error (recorders s ++ [recording]) id = Some recording)
    by apply nth_error_last.
  assert (Hstop : nth_error (stop id (recorders s ++ [recording])) id = Some stopping).
  { unfold stop. rewrite update_nth_nth, Nat.eqb_refl, Hid. reflexivity. }
  assert (Hrun : run es s
                 = {| mediaRecorder := Some id; audioChunks := kept (during ++ after);
                      isRecording := false; onRecordingComplete := Some callback;
                      currentStream := Some stream;
                      recorders := update_nth id (fun _ => inactive)
                                     (stop id (recorders s ++ [recording]));
                      completed := completed s
                        ++ [(callback,
                             new_Blob (kept (during ++ after)) (lit "audio/webm"))] |}).
  { unfold es, one_recording.
    change (run (?e :: ?l) s) with (run l (handle e s)). simpl handle.
    rewrite Hstart, audio_run_app, run_data.
    change (run (?e :: ?l) ?t) with (run l (handle e t)). simpl handle.
    unfold stopRecording. simpl.
    rewrite audio_run_app, run_data. simpl.
    unfold onstop. simpl. rewrite filter_app_kept. reflexivity. }
  split; [|rewrite Hrun; simpl; repeat split].
  - unfold es, one_recording. simpl admissible. rewrite Hstart.
    rewrite admissible_app, run_data.
    rewrite admissible_data by (unfold delivering; simpl; rewrite Hid; reflexivity).
    simpl. rewrite admissible_app, run_data.
    rewrite admissible_data by (unfold delivering; simpl; rewrite Hstop; reflexivity).
    simpl. rewrite Hstop. reflexivity.
  - rewrite update_nth_nth, Nat.eqb_refl, Hstop. reflexivity.
Qed.

(** *** Recordings one after the other *)





















End Recording.

Lemma isolated_recording_completes_witness :
  let s := {| Audio.mediaRecorder := Some 0;
              Audio.audioChunks := [{| Audio.content := [9; 9]%N; Audio.mime := [] |}];
              Audio.isRecording := false; Audio.onRecordingComplete := Some 7;
              Audio.currentStream := Some 0; Audio.recorders := [Audio.inactive];
              Audio.completed := [] |} in
  let env := {| Audio.grant := None; Audio.supported := true |} in
  let chunk := {| Audio.content := [1; 2; 3]%N; Audio.mime := lit "audio/webm;codecs=opus" |} in
  let empty := {| Audio.content := []; Audio.mime := lit "audio/webm;codecs=opus" |} in
  Audio.completed (Audio.run (Audio.one_recording env 1 [empty] [chunk]) s)
  = [(7, {| Audio.content := [1; 2; 3]%N; Audio.mime := lit "audio/webm" |})].
Proof.
  intros s env chunk empty.
  refine (proj1 (proj2 (isolated_recording_completes s env 7 [empty] [chunk]
                          eq_refl eq_refl _))).
  left. discriminate.
Defined.



Lemma one_camera_stream_between_starts_witness :
  Scanner.live_streams
    (Scanner.run [Scanner.StartCameraClick; Scanner.MediaSettled (Some 1);
                  Scanner.StopCameraClick; Scanner.StartCameraClick;
                  Scanner.MediaSettled (Some 2)] Scanner.constructed) <= 1.
Proof.
  exact (proj1 (one_camera_stream_between_starts
                  [Scanner.StartCameraClick; Scanner.MediaSettled (Some 1);
                   Scanner.StopCameraClick; Scanner.StartCameraClick;
                   Scanner.MediaSettled (Some 2)] eq_refl eq_refl)).
Defined.

(** C4 as stated fails: two clicks on the start button before the first
    request for the camera settles are both admitted, each is granted a
    stream, the second grant overwrites [this.stream], and both streams stay
    live. *)
Lemma overlapping_starts_hold_two_streams :
  Scanner.admissible
    [Scanner.StartCameraClick; Scanner.StartCameraClick;
     Scanner.MediaSettled (Some 1); Scanner.MediaSettled (Some 1)]
    Scanner.constructed = true
  /\ Scanner.live_streams
       (Scanner.run
          [Scanner.StartCameraClick; Scanner.StartCameraClick;
           Scanner.MediaSettled (Some 1); Scanner.MediaSettled (Some 1)]
          Scanner.constructed) = 2
  /\ Scanner.media
       (Scanner.startCamera (Some 1)
          (Scanner.startCamera (Some 1) Scanner.constructed))
     = [[true]; [true]].
Proof. repeat split. Qed.

(** * Further properties of the handlers *)

(** ** What an upload leaves alone *)

Section ScannerFrame.

Import Scanner.

Context {A : Type} (P : State -> A).

Hypothesis P_loading : forall v s, P (set_loading v s) = P s.
Hypothesis P_analysis : forall a c s, P (set_analysis a c s) = P s.
Hypothesis P_overlays : forall v s, P (set_overlays v s) = P s.
Hypothesis P_alert : forall m s, P (alert m s) = P s.
Hypothesis P_fetch : forall r s, P (fetch r s) = P s.

Ltac frame_steps :=
  unfold showARLoading, hideARLoading, updateLoadingProgress;
  repeat first [rewrite P_loading | rewrite P_analysis | rewrite P_overlays
               | rewrite P_alert | rewrite P_fetch];
  try reflexivity.

Lemma frame_analysis_succeeded (result : AnalysisResponse) (s : State) :
  P (fst (analysis_succeeded result s)) = P s.
Proof.
  unfold analysis_succeeded, showIntelligentConfirmation, createConfirmationOverlay,
    closeConfirmation.
  destruct (r_confirmation_data result); cbn [fst]; frame_steps.
Qed.

Lemma frame_processCameraCapture formData outcome (s : State) :
  P (processCameraCapture formData outcome s) = P s.
Proof.
  unfold processCameraCapture.
  destruct outcome as [m | status text [result|]]; cbv zeta;
    try destruct (negb (ok status)); try solve [frame_steps].
  destruct (r_success result); [|solve [frame_steps]].
  match goal with
  | |- context [analysis_succeeded ?r ?t] =>
      pose proof (frame_analysis_succeeded r t) as H;
      destruct (analysis_succeeded r t) as [s3 [e|]]; cbn [fst] in H
  end.
  - frame_steps. rewrite H. frame_steps.
  - rewrite H. frame_steps.
Qed.

Lemma frame_processImage formData isCamera outcome (s : State) :
  P (processImage formData isCamera outcome s) = P s.
Proof.
  unfold processImage.
  destruct outcome as [m | status text [result|]]; cbv zeta; try solve [frame_steps].
  destruct (r_success result); [|solve [frame_steps]].
  match goal with
  | |- context [analysis_succeeded ?r ?t] =>
      pose proof (frame_analysis_succeeded r t) as H;
      destruct (analysis_succeeded r t) as [s3 [e|]]; cbn [fst] in H
  end.
  - frame_steps. rewrite H. frame_steps.
  - rewrite H. frame_steps.
Qed.

Lemma frame_captureImage env region (s : State) :
  P (captureImage env region s) = P s.
Proof.
  unfold captureImage. destruct (frame env); cbv zeta.
  - rewrite frame_processCameraCapture. frame_steps.
  - frame_steps.
Qed.

Lemma frame_handleImageUpload file outcome (s : State) :
  P (handleImageUpload file outcome s) = P s.
Proof.
  unfold handleImageUpload. destruct file; [|reflexivity].
  cbv zeta. rewrite frame_processImage. frame_steps.
Qed.

End ScannerFrame.

(** ** Region selection: leaving and cancelling *)

Section SelectionMode.

Import Scanner.

Definition selection_part (s : State) : bool * option Region * Display :=
  (isSelecting s, selectedRegion s, selectionBox s).

Lemma captureImage_selection env region (s : State) :
  selection_part (captureImage env region s) = selection_part s.
Proof. apply (frame_captureImage selection_part); reflexivity. Qed.

Definition corner (env : CaptureEnv) (event : Pointer) : Region :=
  {| startX := clientX event - rect_left env; startY := clientY event - rect_top env;
     width := None; height := None; x := None; y := None |}.

Lemma first_click_records_corner env event (s : State) :
  isSelecting s = true -> selectedRegion s = None ->
  handleCameraClick env event s
  = showSelectionBox (set_selectedRegion (Some (corner env event)) s).
Proof.
  intros Hsel Hnone. unfold handleCameraClick, handleRegionSelection.
  rewrite Hsel, Hnone. reflexivity.
Qed.

(** X1. A selection takes two clicks on the feed: the first records a corner
    and sends nothing; after the second, whatever the upload comes to, the
    scanner has left selection mode, forgotten the region and hidden the
    selection box. *)
Theorem selection_ends_after_second_click env1 env2 e1 e2 (s : State) :
  isSelecting s = true ->
  selectedRegion s = None ->
  let s1 := handleCameraClick env1 e1 s in
  let s2 := handleCameraClick env2 e2 s1 in
  requests s1 = requests s
  /\ alerts s1 = alerts s
  /\ selection_part s1 = (true, Some (corner env1 e1), d_block)
  /\ selection_part s2 = (false, None, d_none).
Proof.
  intros Hsel Hnone s1 s2.
  assert (H1 : s1 = showSelectionBox (set_selectedRegion (Some (corner env1 e1)) s))
    by (apply first_click_records_corner; assumption).
  assert (Hp1 : selection_part s1 = (true, Some (corner env1 e1), d_block)).
  { rewrite H1. unfold selection_part. simpl. rewrite Hsel. reflexivity. }
  repeat split; try (rewrite H1; reflexivity); try exact Hp1.
  unfold s2, handleCameraClick, handleRegionSelection.
  injection Hp1 as Hs Hr Hb. rewrite Hs, Hr.
  unfold selection_part, toggleRegionSelection. simpl.
  match goal with
  | |- context [captureImage ?e ?r ?t] =>
      pose proof (captureImage_selection e r t) as Hc
  end.
  unfold selection_part in Hc. simpl in Hc. injection Hc as Hc1 _ _.
  rewrite Hc1, Hs. reflexivity.
Qed.

(** X2. Cancelling a selection after its first click does not forget the
    corner: once selection mode is entered again, the very next click ends
    a rectangle that starts at the old corner, and uploads it. *)
Theorem cancelled_selection_keeps_corner env1 env3 e1 e3 (s : State) imageDataUrl :
  isSelecting s = true ->
  selectedRegion s = None ->
  frame env3 = Returns imageDataUrl ->
  let cancelled := toggleRegionSelection (handleCameraClick env1 e1 s) in
  let reentered := toggleRegionSelection cancelled in
  selection_part cancelled = (false, Some (corner env1 e1), d_none)
  /\ requests (handleCameraClick env3 e3 reentered)
     = requests s
         ++ [POST (lit "/api/process-camera-capture")
               (FormBody
                  [(lit "image_data", FvText imageDataUrl);
                   (lit "selected_region",
                    FvJson (stringify
                              (selected_rectangle
                                 (clientX e1 - rect_left env1) (clientY e1 - rect_top env1)
                                 (clientX e3 - rect_left env3)
                                 (clientY e3 - rect_top env3))))])].
Proof.
  intros Hsel Hnone Hframe cancelled reentered.
  assert (H1 : handleCameraClick env1 e1 s
               = showSelectionBox (set_selectedRegion (Some (corner env1 e1)) s))
    by (apply first_click_records_corner; assumption).
  assert (Hc : selection_part cancelled = (false, Some (corner env1 e1), d_none)).
  { unfold cancelled. rewrite H1. unfold selection_part, toggleRegionSelection.
    simpl. rewrite Hsel. reflexivity. }
  split; [exact Hc|].
  injection Hc as Hs Hr Hb.
  assert (Hre : isSelecting reentered = true /\ selectedRegion reentered
                = Some (corner env1 e1) /\ requests reentered = requests s).
  { unfold reentered, toggleRegionSelection. simpl. rewrite Hs. simpl.
    repeat split; try assumption.
    unfold cancelled. rewrite H1. unfold toggleRegionSelection. simpl.
    rewrite Hsel. reflexivity. }
  destruct Hre as (Hs' & Hr' & Hq').
  unfold handleCameraClick, handleRegionSelection. rewrite Hs', Hr'.
  assert (Htoggle : forall t, requests (set_selectedRegion None (toggleRegionSelection t))
                              = requests t).
  { intros t. unfold toggleRegionSelection. simpl.
    destruct (negb (isSelecting t)); reflexivity. }
  rewrite Htoggle, (captureImage_requests _ _ _ _ Hframe).
  unfold corner. rewrite (endSelection_rectangle env1 env3 e1 e3).
  simpl requests. rewrite Hq'. reflexivity.
Qed.

End SelectionMode.

(** ** The scanner between events: loading indicator, alerts, requests *)

Section ScannerEffects.

Import Scanner.

(** What one handler adds to the traces, and where it leaves the loading
    indicator: hidden, or as it found it. *)
Record Effects (s s' : State) : Prop := {
  new_alerts : exists l, alerts s' = alerts s ++ l /\ List.length l <= 1;
  new_requests : exists l, requests s' = requests s ++ l /\ List.length l <= 1
                           /\ Forall (fun r => method r = lit "POST"
                                               /\ In (url r)
                                                    [lit "/api/process-camera-capture";
                                                     lit "/api/analyze-educational-image";
                                                     lit "/api/generate-content"]
                                               /\ exists fields, body r = FormBody fields) l;
  loading_after : arLoading (loading s') = d_none \/ loading s' = loading s
}.

Lemma effects_none (s s' : State) :
  alerts s' = alerts s -> requests s' = requests s -> loading s' = loading s ->
  Effects s s'.
Proof.
  intros Ha Hr Hl. split.
  - exists []. rewrite app_nil_r. split; [exact Ha | simpl; lia].
  - exists []. rewrite app_nil_r. repeat split; [exact Hr | simpl; lia | constructor].
  - right. exact Hl.
Qed.

Lemma effects_make (s s' : State) (al : list jstring) (rq : list Request) :
  alerts s' = alerts s ++ al -> List.length al <= 1 ->
  requests s' = requests s ++ rq -> List.length rq <= 1 ->
  Forall (fun r => method r = lit "POST"
                   /\ In (url r) [lit "/api/process-camera-capture";
                                  lit "/api/analyze-educational-image";
                                  lit "/api/generate-content"]
                   /\ exists fields, body r = FormBody fields) rq ->
  arLoading (loading s') = d_none ->
  Effects s s'.
Proof.
  intros Ha La Hr Lr F Hl. split.
  - exists al. split; assumption.
  - exists rq. repeat split; assumption.
  - left. exact Hl.
Qed.

Lemma analysis_succeeded_traces (result : AnalysisResponse) (s : State) :
  alerts (fst (analysis_succeeded result s)) = alerts s
  /\ arLoading (loading (fst (analysis_succeeded result s))) = d_none.
Proof.
  unfold analysis_succeeded, showIntelligentConfirmation, createConfirmationOverlay.
  destruct (r_confirmation_data result); split; reflexivity.
Qed.

Lemma processCameraCapture_alerts formData outcome (s : State) :
  exists l, alerts (processCameraCapture formData outcome s) = alerts s ++ l
            /\ List.length l <= 1
            /\ arLoading (loading (processCameraCapture formData outcome s)) = d_none.
Proof.
  unfold processCameraCapture.
  destruct outcome as [m | status text [result|]]; cbv zeta;
    try destruct (negb (ok status));
    try (eexists [_]; repeat split; simpl; lia).
  destruct (r_success result); [|eexists [_]; repeat split; simpl; lia].
  match goal with
  | |- context [analysis_succeeded ?r ?t] =>
      destruct (analysis_succeeded_traces r t) as [Ha Hl];
      destruct (analysis_succeeded r t) as [s3 [e|]]; simpl in Ha, Hl
  end.
  - eexists [_]. simpl. rewrite Ha. repeat split. lia.
  - exists []. rewrite app_nil_r. repeat split; [exact Ha | simpl; lia | exact Hl].
Qed.

Lemma processImage_alerts formData isCamera outcome (s : State) :
  exists l, alerts (processImage formData isCamera outcome s) = alerts s ++ l
            /\ List.length l <= 1
            /\ arLoading (loading (processImage formData isCamera outcome s)) = d_none.
Proof.
  unfold processImage.
  destruct outcome as [m | status text [result|]]; cbv zeta;
    try (eexists [_]; repeat split; simpl; lia).
  destruct (r_success result); [|eexists [_]; repeat split; simpl; lia].
  match goal with
  | |- context [analysis_succeeded ?r ?t] =>
      destruct (analysis_succeeded_traces r t) as [Ha Hl];
      destruct (analysis_succeeded r t) as [s3 [e|]]; simpl in Ha, Hl
  end.
  - eexists [_]. simpl. rewrite Ha. repeat split. lia.
  - exists []. rewrite app_nil_r. repeat split; [exact Ha | simpl; lia | exact Hl].
Qed.

Ltac one_post :=
  first [ constructor;
          [ split; [reflexivity | split; [simpl; auto 6 | eexists; reflexivity]]
          | constructor ]
        | constructor ].

Lemma captureImage_effects env region (s : State) :
  Effects s (captureImage env region s).
Proof.
  destruct (frame env) as [u|m] eqn:F.
  - destruct (processCameraCapture_alerts
                ((lit "image_data", FvText u)
                   :: match region with
                      | Some r => [(lit "selected_region", FvJson (stringify r))]
                      | None => []
                      end)
                (answer env)
                (showARLoading (lit "Capturing and analyzing with AI Vision...") s))
      as (l & Ha & Ll & Hl).
    eapply (effects_make _ _ l).
    + unfold captureImage. rewrite F. exact Ha.
    + exact Ll.
    + apply (captureImage_requests env region s u F).
    + simpl; lia.
    + one_post.
    + unfold captureImage. rewrite F. exact Hl.
  - unfold captureImage. rewrite F.
    eapply (effects_make _ _ [_] []); try reflexivity; simpl; try lia.
    + rewrite app_nil_r. reflexivity.
    + constructor.
Qed.

Lemma effects_after (s s1 s' : State) :
  Effects s s1 -> alerts s' = alerts s1 -> requests s' = requests s1 ->
  loading s' = loading s1 -> Effects s s'.
Proof.
  intros [Ha Hr Hl] Ea Er El. split.
  - rewrite Ea. exact Ha.
  - rewrite Er. exact Hr.
  - rewrite El. exact Hl.
Qed.

Lemma toggleRegionSelection_traces (s : State) :
  alerts (toggleRegionSelection s) = alerts s
  /\ requests (toggleRegionSelection s) = requests s
  /\ loading (toggleRegionSelection s) = loading s.
Proof.
  unfold toggleRegionSelection. simpl. destruct (negb (isSelecting s)); repeat split.
Qed.

Lemma handleRegionSelection_effects env event (s : State) :
  Effects s (handleRegionSelection env event s).
Proof.
  unfold handleRegionSelection. destruct (selectedRegion s) as [r|].
  - cbv zeta.
    match goal with
    | |- Effects _ (set_selectedRegion None (toggleRegionSelection (captureImage ?e ?g ?t))) =>
        pose proof (captureImage_effects e g t) as E;
        destruct (toggleRegionSelection_traces (captureImage e g t)) as (Ta & Tr & Tl)
    end.
    eapply effects_after; [| exact Ta | exact Tr | exact Tl].
    destruct E as [Ha Hr Hl]. split; assumption.
  - apply effects_none; reflexivity.
Qed.

Lemma handleImageUpload_effects file outcome (s : State) :
  Effects s (handleImageUpload file outcome s).
Proof.
  destruct file as [f|]; [|apply effects_none; reflexivity].
  unfold handleImageUpload.
  match goal with
  | |- Effects _ (processImage ?fd ?c ?o ?t) =>
      destruct (processImage_alerts fd c o t) as (l & Ha & Ll & Hl)
  end.
  eapply (effects_make _ _ l).
  - exact Ha.
  - exact Ll.
  - rewrite processImage_requests. reflexivity.
  - simpl; lia.
  - one_post.
  - exact Hl.
Qed.

Lemma clickCard_traces j (s : State) :
  alerts (clickCard j s) = alerts s /\ requests (clickCard j s) = requests s
  /\ loading (clickCard j s) = loading s.
Proof.
  unfold clickCard, selectOption. destruct (overlays s) as [|o rest]; [repeat split|].
  destruct (nth_error (cards o) j); [|repeat split].
  destruct (suggested _ _ _); repeat split.
Qed.

Lemma proceedWithConfirmedInput_effects outcome (s : State) :
  Effects s (proceedWithConfirmedInput outcome s).
Proof.
  destruct (overlays s) as [|o rest] eqn:E.
  - unfold proceedWithConfirmedInput. rewrite E. apply effects_none; reflexivity.
  - destruct (nonempty (trim (confirmed_input o))) eqn:N.
    + pose proof (proceedWithConfirmedInput_requests outcome s o rest E N) as Hr.
      unfold proceedWithConfirmedInput in *. rewrite E, N in *. simpl negb in *.
      cbv iota zeta in *.
      destruct outcome as [m | status text [result|]];
        try (eapply (effects_make _ _ [_]); [reflexivity | simpl; lia | exact Hr
                                            | simpl; lia | one_post | reflexivity]).
      destruct (g_success result).
      * eapply (effects_make _ _ []); [simpl; rewrite app_nil_r; reflexivity | simpl; lia
                                      | exact Hr | simpl; lia | one_post | reflexivity].
      * eapply (effects_make _ _ [_]); [reflexivity | simpl; lia | exact Hr
                                       | simpl; lia | one_post | reflexivity].
    + unfold proceedWithConfirmedInput. rewrite E, N. simpl negb. cbv iota.
      split.
      * eexists [_]. split; [reflexivity | simpl; lia].
      * exists []. rewrite app_nil_r. repeat split; [simpl; lia | constructor].
      * right. reflexivity.
Qed.

Lemma handle_effects (e : Event) (s : State) : Effects s (handle e s).
Proof.
  destruct e; simpl handle.
  - apply effects_none; reflexivity.
  - unfold startCamera_resume. destruct grant.
    + apply effects_none; reflexivity.
    + split.
      * eexists [_]. split; [reflexivity | simpl; lia].
      * exists []. rewrite app_nil_r. repeat split; [simpl; lia | constructor].
      * right. reflexivity.
  - unfold stopCamera. destruct (stream s); apply effects_none; reflexivity.
  - destruct (toggleRegionSelection_traces s) as (Ta & Tr & Tl).
    apply effects_none; assumption.
  - apply captureImage_effects.
  - unfold handleCameraClick. destruct (isSelecting s);
      [apply handleRegionSelection_effects | apply captureImage_effects].
  - unfold handleCameraTouch. destruct (isSelecting s);
      [apply handleRegionSelection_effects | apply captureImage_effects].
  - apply handleImageUpload_effects.
  - destruct (clickCard_traces j s) as (Ta & Tr & Tl). apply effects_none; assumption.
  - unfold editOverlay. destruct (overlays s); apply effects_none; reflexivity.
  - unfold editOverlay. destruct (overlays s); apply effects_none; reflexivity.
  - unfold editOverlay. destruct (overlays s); apply effects_none; reflexivity.
  - apply proceedWithConfirmedInput_effects.
  - apply effects_none; reflexivity.
  - apply effects_none; reflexivity.
  - apply effects_none; reflexivity.
Qed.

(** X3. Once the handlers of any sequence of events have run to their end,
    the loading indicator is not on display: it is hidden, or still as the
    page came with it. Each handler that shows it hides it again on every
    path, failure or success. *)
Theorem loading_indicator_never_left_showing (es : list Event) :
  arLoading (loading (run es constructed)) = d_none
  \/ arLoading (loading (run es constructed)) = d_unset.
Proof.
  assert (H : forall s, arLoading (loading s) = d_none \/ arLoading (loading s) = d_unset ->
                        arLoading (loading (run es s)) = d_none
                        \/ arLoading (loading (run es s)) = d_unset).
  { induction es as [|e es IH]; intros s Hs; simpl; [exact Hs|].
    apply IH. destruct (handle_effects e s) as [_ _ [Hl | Hl]].
    - left. exact Hl.
    - rewrite Hl. exact Hs. }
  apply H. right. reflexivity.
Qed.

(** One event raises at most one alert: an exception caught by an inner
    handler is not reported a second time by the handler that called it. *)
Theorem at_most_one_alert_per_event (e : Event) (s : State) :
  exists l, alerts (handle e s) = alerts s ++ l /\ List.length l <= 1.
Proof. destruct (handle_effects e s) as [Ha _ _]. exact Ha. Qed.

(** X4. Whatever the events, every request the handlers send is a POST of form
    data to one of three endpoints, and earlier requests stay in the trace. *)
Theorem scanner_requests_are_form_posts (es : list Event) (s : State) :
  exists l, requests (run es s) = requests s ++ l
            /\ Forall (fun r => method r = lit "POST"
                                /\ In (url r) [lit "/api/process-camera-capture";
                                               lit "/api/analyze-educational-image";
                                               lit "/api/generate-content"]
                                /\ exists fields, body r = FormBody fields) l.
Proof.
  revert s. induction es as [|e es IH]; intros s; simpl.
  - exists []. rewrite app_nil_r. split; [reflexivity | constructor].
  - destruct (IH (handle e s)) as (l' & Hl' & F').
    destruct (handle_effects e s) as [_ (l & Hl & _ & F) _].
    exists (l ++ l'). split.
    + change (fold_left _ es (handle e s)) with (run es (handle e s)).
      rewrite Hl', Hl, app_assoc. reflexivity.
    + apply Forall_app. split; assumption.
Qed.

End ScannerEffects.

(** ** The scanner: confirmation and results, edge cases *)

Section ConfirmationEdges.

Import Scanner.

(** A capture the backend calls successful but answers without
    confirmation data ends as a failure: the overlay on display, if any, has
    already been removed when the template reads the missing data, the
    scanner holds no confirmation data, and the user is alerted. *)
Theorem success_without_confirmation_data formData status text
    (result : AnalysisResponse) (s : State) :
  ok status = true ->
  r_success result = true ->
  r_confirmation_data result = None ->
  let s' := processCameraCapture formData (Response status text (Some result)) s in
  overlays s' = tl (overlays s)
  /\ confirmationData s' = None
  /\ analysisResult s' = r_analysis result
  /\ alerts s' = alerts s ++ [lit "Camera capture failed: " ++ type_error_message]
  /\ arLoading (loading s') = d_none.
Proof.
  intros Hok Hs Hc s'. subst s'.
  unfold processCameraCapture. rewrite Hok, Hs. simpl negb. cbv iota zeta.
  unfold analysis_succeeded, showIntelligentConfirmation, createConfirmationOverlay.
  rewrite Hc. repeat split.
Qed.

(** X6. Generate on a confirmed input that is blank or all white space is
    refused with an alert: no request goes out and the overlay, the loading
    indicator and the results stay as they are. *)
Theorem blank_confirmed_input_is_refused outcome (s : State) o rest :
  overlays s = o :: rest ->
  forallb is_white_space (confirmed_input o) = true ->
  proceedWithConfirmedInput outcome s
  = alert (lit "Please enter or select content to proceed") s.
Proof.
  intros Ho Hw. unfold proceedWithConfirmedInput.
  rewrite Ho, (trim_white _ Hw). reflexivity.
Qed.

(** X7. Generate on the confirmation view with a usable input closes the
    overlay before the request is sent, so it is gone whatever the answer.
    The request carries the trimmed text and the two selections. On a
    failure the user is alerted with the backend's message and the results
    stay as they were; on success the results overlay is put on display
    and no alert is raised. *)
Theorem confirmed_generation_closes_overlay outcome (s : State) o :
  overlays s = [o] ->
  nonempty (trim (confirmed_input o)) = true ->
  let s' := proceedWithConfirmedInput outcome s in
  overlays s' = []
  /\ requests s'
     = requests s
         ++ [POST (lit "/api/generate-content")
               (FormBody [(lit "input_text", FvText (trim (confirmed_input o)));
                          (lit "complexity", FvText (confirmed_complexity o));
                          (lit "language", FvText (confirmed_language o))])]
  /\ arLoading (loading s') = d_none
  /\ if generation_failed outcome
     then alerts s' = alerts s
                        ++ [lit "Content generation failed: " ++ failure_message outcome]
          /\ results s' = results s
     else alerts s' = alerts s /\ arResults (results s') = d_flex.
Proof.
  intros Ho Hn s'. subst s'.
  split; [|split; [apply (proceedWithConfirmedInput_requests outcome s o [] Ho Hn)|]].
  - unfold proceedWithConfirmedInput. rewrite Ho, Hn. simpl negb. cbv iota zeta.
    destruct outcome as [m | status text [result|]]; simpl; rewrite ?Ho; try reflexivity.
    destruct (g_success result); simpl; rewrite Ho; reflexivity.
  - unfold proceedWithConfirmedInput. rewrite Ho, Hn. simpl negb. cbv iota zeta.
    unfold generation_failed, failure_message.
    destruct outcome as [m | status text [result|]];
      [| destruct (g_success result) |]; simpl; repeat split.
Qed.

(** X8. A result without a video URL leaves the video element alone: shown
    after a result that had one, it still plays the earlier video, next to
    the documents of the new result. *)
Theorem result_without_video_keeps_previous_video (first second : GenResponse)
    (s : State) (u : jstring) :
  preferred_video (g_video_urls first) = Some u ->
  nonempty u = true ->
  truthy (preferred_video (g_video_urls second)) = false ->
  let s' := showARResults second (closeArResults (showARResults first s)) in
  arVideo_src (results s') = Some u
  /\ arVideo (results s') = d_block
  /\ arVideoPlaceholder (results s') = d_none
  /\ arDocumentLinks (results s') = doc_links (g_documents second)
  /\ arResults (results s') = d_flex.
Proof.
  intros H1 Hu H2 s'. subst s'. unfold showARResults, closeArResults.
  rewrite H1, H2. simpl. rewrite Hu. repeat split.
Qed.

(** The property a document link reads. *)
Definition document_url (k : DocLink) (d : Documents) : option jstring :=
  match k with
  | SolutionDoc => solution_url d
  | ExplanationDoc => explanation_url d
  | SummaryDoc => summary_url d
  end.

(** A document link is shown exactly when its URL is set and not empty, it
    points to that URL, and no kind of document is linked twice. *)
Theorem document_links_shown_iff_set (d : Documents) :
  (forall k u, In (k, u) (doc_links (Some d))
               <-> document_url k d = Some u /\ nonempty u = true)
  /\ NoDup (map fst (doc_links (Some d)))
  /\ doc_links None = [].
Proof.
  split; [|split; [|reflexivity]].
  - intros k u. unfold doc_links, document_url.
    destruct d as [[[|a x]|] [[|b y]|] [[|c z]|]]; simpl; destruct k; split.
    all: try (intros H;
              repeat match goal with
                     | H : _ \/ _ |- _ => destruct H as [H | H]
                     end;
              try contradiction; try discriminate H;
              injection H as <-; split; reflexivity).
    all: intros [H N]; try discriminate H; injection H as <-;
      try discriminate N; auto 6.
  - unfold doc_links.
    destruct d as [[[|a x]|] [[|b y]|] [[|c z]|]]; simpl;
      repeat constructor; simpl; intuition discriminate.
Qed.

(** X9. The camera stopped under an overlay: the scanner then holds no
    confirmation data, and a click on a card of the overlay still moves the
    selected mark to that card but, the suggestion being out of reach,
    leaves the text area as it was. *)
Theorem select_after_stop_leaves_text (s : State) o j card :
  overlays s = [o] ->
  nth_error (cards o) j = Some card ->
  exists o' card',
    overlays (clickCard j (stopCamera s)) = [o']
    /\ confirmed_input o' = confirmed_input o
    /\ nth_error (cards o') j = Some card'
    /\ selected card' = true
    /\ confirmationData (clickCard j (stopCamera s)) = None.
Proof.
  intros Ho Hj.
  assert (Hs : overlays (stopCamera s) = [o] /\ confirmationData (stopCamera s) = None).
  { unfold stopCamera. destruct (stream s); simpl; rewrite Ho; split; reflexivity. }
  destruct Hs as [Hs Hc].
  unfold clickCard, selectOption. rewrite Hs, Hj, Hc. simpl suggested. cbv iota zeta.
  exists (set_cards (update_nth j (set_selected true)
                       (map (set_selected false) (cards o))) o),
    (set_selected true (set_selected false card)).
  split; [reflexivity|]. split; [reflexivity|]. split; [|split; reflexivity].
  unfold set_cards. cbn [cards].
  rewrite update_nth_nth, Nat.eqb_refl, nth_error_map, Hj. reflexivity.
Qed.

Lemma scanner_admissible_app (es es' : list Event) :
  forall s, admissible (es ++ es') s = admissible es s && admissible es' (run es s).
Proof.
  induction es as [|e es IH]; intros s; simpl; [reflexivity|].
  rewrite IH, andb_assoc. reflexivity.
Qed.

(** C6. Where the code departs from the claim. In any state the scanner
    reaches by events on visible controls that shows the confirmation view
    while the camera runs (the stop button is visible), the camera can be
    stopped under the overlay: [stopCamera] clears [this.confirmationData]
    and leaves the overlay in the document. A click on any card of the
    overlay then marks that card and no other, but [selectOption] throws
    while reading the suggestion from the data that is gone, and the text
    area keeps the text it had instead of receiving the card's
    [suggested_input]. *)
Theorem click_after_stop_leaves_text (es : list Event) (o : Overlay) (j : nat)
    (card : Card) :
  let s := run es constructed in
  let es' := es ++ [StopCameraClick; CardClick j] in
  admissible es constructed = true ->
  hidden (stopCameraBtn (controls s)) = false ->
  overlays s = [o] ->
  nth_error (cards o) j = Some card ->
  admissible es' constructed = true
  /\ confirmationData (run es' constructed) = None
  /\ suggested (confirmationData (run es' constructed)) (card_type card)
       (data_index card) = None
  /\ exists o',
       overlays (run es' constructed) = [o']
       /\ confirmed_input o' = confirmed_input o
       /\ forall k card', nth_error (cards o') k = Some card' ->
                          selected card' = (k =? j).
Proof.
  intros s es' Ha Hb Ho Hj.
  assert (Hs : overlays (stopCamera s) = [o] /\ confirmationData (stopCamera s) = None).
  { unfold stopCamera. destruct (stream s); simpl; rewrite Ho; split; reflexivity. }
  destruct Hs as [Hs Hn].
  assert (Hclick : clickCard j (stopCamera s)
                   = set_overlays
                       [set_cards (update_nth j (set_selected true)
                                     (map (set_selected false) (cards o))) o]
                       (stopCamera s)).
  { unfold clickCard, selectOption. rewrite Hs, Hj, Hn. reflexivity. }
  assert (Hes : run es' constructed = clickCard j (stopCamera s)).
  { unfold es'. rewrite run_app. reflexivity. }
  split; [|rewrite Hes, Hclick; split; [exact Hn|split; [reflexivity|]]].
  - unfold es'. rewrite scanner_admissible_app, Ha. fold s.
    cbn [admissible handle enabled andb]. rewrite Hb, Hs. reflexivity.
  - eexists. split; [reflexivity|]. split; [reflexivity|].
    intros k card' Hk. cbn [cards set_cards] in Hk.
    rewrite update_nth_nth, nth_error_map in Hk.
    destruct (k =? j); destruct (nth_error (cards o) k); try discriminate Hk;
      injection Hk as <-; reflexivity.
Qed.

End ConfirmationEdges.

(** ** The camera: stopping *)

Section StoppingCamera.

Import Scanner.

(** Stopping the camera twice is stopping it once. *)
Theorem stopCamera_idempotent (s : State) :
  stopCamera (stopCamera s) = stopCamera s.
Proof.
  unfold stopCamera. destruct (stream s) as [id|] eqn:E; simpl.
  - reflexivity.
  - rewrite E. reflexivity.
Qed.

Lemma stop_tracks_other (id : nat) (m : list (list bool)) :
  forall i, i <> id -> nth_error (stop_tracks id m) i = nth_error m i.
Proof.
  revert id. induction m as [|t m IH]; intros [|id] [|i] H; simpl; try reflexivity.
  - contradiction.
  - apply IH. intros ->. apply H. reflexivity.
Qed.

Lemma out_of_reach_step (e : Event) (s : State) i tracks :
  nth_error (media s) i = Some tracks -> stream s <> Some i ->
  nth_error (media (handle e s)) i = Some tracks /\ stream (handle e s) <> Some i.
Proof.
  intros Hm Hs.
  destruct (camera_event e) eqn:K.
  - destruct e; try discriminate K; simpl.
    + split; assumption.
    + destruct grant as [n|]; simpl; [|split; assumption].
      assert (Hlt : i < List.length (media s))
        by (apply nth_error_Some; rewrite Hm; discriminate).
      split.
      * rewrite nth_error_app1 by exact Hlt. exact Hm.
      * intros H. injection H as H. lia.
    + unfold stopCamera. destruct (stream s) as [id|] eqn:E; simpl.
      * split; [|discriminate].
        rewrite stop_tracks_other; [exact Hm|]. intros ->. apply Hs. reflexivity.
      * rewrite E. split; [exact Hm | discriminate].
  - pose proof (other_events_leave_camera e s K) as H. unfold camera_part in H.
    injection H as H1 H2 _ _. rewrite H1, H2. split; assumption.
Qed.

(** X11. A stream of the page that [this.stream] does not name is out of the
    scanner's reach: after any events its tracks are as they were, so a
    stream whose handle was overwritten while live is never stopped. *)
Theorem overwritten_stream_is_never_stopped (es : list Event) (s : State) i tracks :
  nth_error (media s) i = Some tracks ->
  stream s <> Some i ->
  nth_error (media (run es s)) i = Some tracks /\ stream (run es s) <> Some i.
Proof.
  revert s. induction es as [|e es IH]; intros s Hm Hs; simpl; [split; assumption|].
  destruct (out_of_reach_step e s i tracks Hm Hs) as [Hm' Hs'].
  apply IH; assumption.
Qed.

End StoppingCamera.

(** ** The manual form: progress steps and video content *)

Section ManualSubmit.

Import Manual.

(** X14. The five progress steps after a submission, when the page has all five
    step elements: all completed on success; on a failure, active up to the
    stage that failed (the second when the request is rejected, the third
    when the body is not JSON, the fourth when the backend reports failure)
    and plain after it. *)
Theorem submit_progress_steps (outcome : FetchOutcome GenResponse) (s : State) :
  List.length (steps s) = 5 ->
  steps (handleSubmit outcome s)
  = match outcome with
    | NetworkError _ =>
        [step_active; step_active; step_plain; step_plain; step_plain]
    | Response _ _ None =>
        [step_active; step_active; step_active; step_plain; step_plain]
    | Response _ _ (Some result) =>
        if g_success result
        then [step_completed; step_completed; step_completed; step_completed;
              step_completed]
        else [step_active; step_active; step_active; step_active; step_plain]
    end.
Proof.
  intros H. destruct s as [f d r l st fl vc dl al rq]. simpl in H.
  destruct st as [|a [|b [|c [|e [|g [|h st]]]]]]; try discriminate H.
  unfold handleSubmit.
  destruct outcome as [m | status text [result|]]; try reflexivity.
  destruct (g_success result); reflexivity.
Qed.

(** [displayResults] writes each URL between the double quotes of a [src]
    or [href] attribute and hands the text to [innerHTML]. Inside a
    double-quoted attribute value only a double quote ends the value, so a
    URL without one stays inside its attribute and the parser builds the
    elements of the template and no others. *)
Definition quote_free (url : option jstring) : bool :=
  match url with
  | Some u => forallb (fun c => negb (c =? 34)%N) u
  | None => true
  end.

Definition stay_in_attributes (v : VideoUrls) : bool :=
  quote_free (narrated v) && quote_free (original v) && quote_free (code v).

(** X15. For URLs that hold no double quote: the video content is never
    empty and holds at most one player; the notice that no URL is available
    stands there exactly when none of the narrated, original and code URLs
    is set, and then alone. *)
Theorem video_content_one_player_or_notice (v : VideoUrls) :
  stay_in_attributes v = true ->
  List.length (players (video_nodes v)) <= 1
  /\ (truthy (narrated v) || truthy (original v) || truthy (code v) = false
      -> video_nodes v = [UrlsNotAvailable])
  /\ (truthy (narrated v) || truthy (original v) || truthy (code v) = true
      -> video_nodes v <> [] /\ ~ In UrlsNotAvailable (video_nodes v)).
Proof.
  intros _. unfold video_nodes.
  destruct (narrated v) as [[|a n]|]; destruct (original v) as [[|b o]|];
    destruct (code v) as [[|c k]|]; simpl;
    (split; [lia|]); split; intros H; try discriminate H; try reflexivity;
    (split; [discriminate | intros F; simpl in F; intuition discriminate]).
Qed.

End ManualSubmit.

Lemma submit_progress_steps_witness :
  let s := {| Manual.form := d_block; Manual.detectionSection := d_none;
              Manual.resultsSection := d_none; Manual.loadingSection := d_none;
              Manual.steps := [Manual.step_completed; Manual.step_completed;
                               Manual.step_completed; Manual.step_completed;
                               Manual.step_completed];
              Manual.fields := []; Manual.videoContent := [];
              Manual.documentLinks := []; Manual.alerts := [];
              Manual.requests := [] |} in
  Manual.steps (Manual.handleSubmit (NetworkError (lit "Failed to fetch")) s)
  = [Manual.step_active; Manual.step_active; Manual.step_plain; Manual.step_plain;
     Manual.step_plain].
Proof.
  intros s.
  exact (submit_progress_steps (NetworkError (lit "Failed to fetch")) s eq_refl).
Defined.

Lemma video_content_one_player_or_notice_witness :
  let v := {| original := Some (lit "/media/videos/Scene.mp4");
              narrated := Some (lit "/media/videos/Scene_narrated.mp4?lang=en&v=2");
              code := Some (lit "/media/code/scene.py");
              cloud_original := None; script := None |} in
  List.length (Manual.players (Manual.video_nodes v)) <= 1
  /\ Manual.video_nodes v <> []
  /\ ~ In Manual.UrlsNotAvailable (Manual.video_nodes v).
Proof.
  intros v.
  split; [exact (proj1 (video_content_one_player_or_notice v eq_refl))|].
  exact (proj2 (proj2 (video_content_one_player_or_notice v eq_refl)) eq_refl).
Defined.

(** ** The manual form: detection of the input type *)

Module Detection.

(** The [detection] object of the backend's answer; its confidence only
    feeds the markup and is left out. *)
Record Detection := {
  d_type : jstring;
  d_subject_area : jstring;
  d_complexity_hint : option jstring;
  d_reasoning : jstring
}.

Record DetectResponse := {
  dr_success : bool;
  dr_detection : option Detection
}.

Inductive Label := DetectType | Detecting.

(** The form with what detection touches: the text of the input, the
    detect button, the summary panel, and the complexity select with the
    values of its options. *)
Record State := {
  base : Manual.State;
  inputText : jstring;
  detectBtn_display : Display;
  detectBtn_disabled : bool;
  detectBtn_text : Label;
  detectionResults : option Detection;
  complexity_options : list jstring;
  complexity : jstring
}.

Definition set_base v (s : State) : State :=
  {| base := v; inputText := inputText s; detectBtn_display := detectBtn_display s;
     detectBtn_disabled := detectBtn_disabled s; detectBtn_text := detectBtn_text s;
     detectionResults := detectionResults s;
     complexity_options := complexity_options s; complexity := complexity s |}.

Definition set_detectBtn disabled text (s : State) : State :=
  {| base := base s; inputText := inputText s; detectBtn_display := detectBtn_display s;
     detectBtn_disabled := disabled; detectBtn_text := text;
     detectionResults := detectionResults s;
     complexity_options := complexity_options s; complexity := complexity s |}.

(** The input listener: the detect button is put on display once the text
    is longer than ten code units. *)
Definition oninput (v : jstring) (s : State) : State :=
  {| base := base s; inputText := v;
     detectBtn_display := if 10 <? List.length v then d_inline_block
                          else detectBtn_display s;
     detectBtn_disabled := detectBtn_disabled s; detectBtn_text := detectBtn_text s;
     detectionResults := detectionResults s;
     complexity_options := complexity_options s; complexity := complexity s |}.

(** Assignment to the [value] of a select: the option with that value
    becomes the selected one; without such an option none is selected and
    the value reads as the empty string. *)
Definition select_value (options : list jstring) (v : jstring) : jstring :=
  if existsb (jstr_eqb v) options then v else [].

Definition displayDetectionResults (detection : Detection) (s : State) : State :=
  let b := base s in
  {| base := Manual.set_sections (Manual.form b) d_block (Manual.resultsSection b)
               (Manual.loadingSection b) b;
     inputText := inputText s; detectBtn_display := detectBtn_display s;
     detectBtn_disabled := detectBtn_disabled s; detectBtn_text := detectBtn_text s;
     detectionResults := Some detection;
     complexity_options := complexity_options s;
     complexity :=
       if truthy (d_complexity_hint detection)
          && negb (jstr_eqb (or_else (d_complexity_hint detection) [])
                     (lit "intermediate"))
       then select_value (complexity_options s)
              (or_else (d_complexity_hint detection) [])
       else complexity s |}.

(** [detectInputType]: the [finally] block runs on every path that enters
    the [try]. *)
Definition detectInputType (outcome : FetchOutcome DetectResponse) (s : State) : State :=
  let text := trim (inputText s) in
  if negb (nonempty text) then s
  else
    let s1 := set_detectBtn true Detecting s in
    let s2 := set_base (Manual.fetch (POST (lit "/api/detect-input-type")
                                        (FormBody [(lit "input_text", FvText text)]))
                          (base s1)) s1 in
    let caught (message : jstring) (s' : State) :=
      set_base (Manual.alert (lit "Detection failed: " ++ message) (base s')) s' in
    let s3 :=
      match outcome with
      | NetworkError m => caught m s2
      | Response _ _ None => caught syntax_error_message s2
      | Response _ _ (Some result) =>
          if dr_success result then
            match dr_detection result with
            | Some detection => displayDetectionResults detection s2
            | None => caught type_error_message s2
            end
          else caught (lit "Detection failed") s2
      end in
    set_detectBtn false DetectType s3.

End Detection.

Section DetectionProperties.

Import Detection.

(** X16. Detection on a text that is not blank sends one request with the
    trimmed text and, on every path, failure or success, ends with the
    detect button enabled again under its usual label; a failure is
    alerted and shows no summary, a success shows the summary panel and
    raises no alert. *)
Theorem detect_button_always_reenabled (outcome : FetchOutcome DetectResponse)
    (s : State) :
  nonempty (trim (inputText s)) = true ->
  let s' := detectInputType outcome s in
  detectBtn_disabled s' = false
  /\ detectBtn_text s' = DetectType
  /\ Manual.requests (base s')
     = Manual.requests (base s)
         ++ [POST (lit "/api/detect-input-type")
               (FormBody [(lit "input_text", FvText (trim (inputText s)))])]
  /\ match outcome with
     | Response _ _ (Some {| dr_success := true; dr_detection := Some detection |}) =>
         Manual.alerts (base s') = Manual.alerts (base s)
         /\ detectionResults s' = Some detection
         /\ Manual.detectionSection (base s') = d_block
     | _ =>
         (exists message,
             Manual.alerts (base s')
             = Manual.alerts (base s) ++ [lit "Detection failed: " ++ message])
         /\ detectionResults s' = detectionResults s
         /\ Manual.detectionSection (base s') = Manual.detectionSection (base s)
         /\ complexity s' = complexity s
     end.
Proof.
  intros H s'. subst s'. unfold detectInputType. rewrite H. simpl negb. cbv iota zeta.
  destruct outcome as [m | status text [[[|] [detection|]]|]]; simpl;
    repeat split; try (eexists; reflexivity).
Qed.

(** Detection with a blank text does nothing at all. *)
Lemma detect_blank_is_noop (outcome : FetchOutcome DetectResponse) (s : State) :
  forallb is_white_space (inputText s) = true -> detectInputType outcome s = s.
Proof.
  intros H. unfold detectInputType. rewrite (trim_white _ H). reflexivity.
Qed.

(** X17. Detection never moves the complexity select to "intermediate": when
    the select reads "intermediate" after a detection, it did so before. *)
Theorem detection_never_selects_intermediate (outcome : FetchOutcome DetectResponse)
    (s : State) :
  complexity (detectInputType outcome s) = lit "intermediate" ->
  complexity s = lit "intermediate".
Proof.
  unfold detectInputType.
  destruct (negb (nonempty (trim (inputText s)))); [auto|]. cbv zeta.
  destruct outcome as [m | status text [[[|] [detection|]]|]];
    cbn [complexity set_detectBtn set_base dr_success dr_detection]; auto.
  unfold displayDetectionResults. cbn [complexity set_detectBtn set_base].
  destruct (truthy (d_complexity_hint detection)); cbn [andb]; [|auto].
  destruct (jstr_eqb (or_else (d_complexity_hint detection) []) (lit "intermediate"))
    eqn:E; cbn [negb]; [auto|].
  unfold select_value. destruct (existsb _ _); intros H.
  - rewrite H in E. vm_compute in E. discriminate E.
  - vm_compute in H. discriminate H.
Qed.

End DetectionProperties.

Lemma detect_button_always_reenabled_witness :
  let s := {| Detection.base :=
                {| Manual.form := d_block; Manual.detectionSection := d_none;
                   Manual.resultsSection := d_none; Manual.loadingSection := d_none;
                   Manual.steps := []; Manual.fields := []; Manual.videoContent := [];
                   Manual.documentLinks := []; Manual.alerts := [];
                   Manual.requests := [] |};
              Detection.inputText := lit " Solve x^2 = 4 ";
              Detection.detectBtn_display := d_inline_block;
              Detection.detectBtn_disabled := false;
              Detection.detectBtn_text := Detection.DetectType;
              Detection.detectionResults := None;
              Detection.complexity_options :=
                [lit "beginner"; lit "intermediate"; lit "advanced"];
              Detection.complexity := lit "intermediate" |} in
  let s' := Detection.detectInputType (NetworkError (lit "Failed to fetch")) s in
  Detection.detectBtn_disabled s' = false
  /\ Detection.detectBtn_text s' = Detection.DetectType
  /\ Manual.requests (Detection.base s')
     = [POST (lit "/api/detect-input-type")
          (FormBody [(lit "input_text", FvText (lit "Solve x^2 = 4"))])]
  /\ (exists message,
         Manual.alerts (Detection.base s') = [lit "Detection failed: " ++ message])
     /\ Detection.detectionResults s' = None
     /\ Manual.detectionSection (Detection.base s') = d_none
     /\ Detection.complexity s' = lit "intermediate".
Proof.
  intros s s'.
  exact (detect_button_always_reenabled (NetworkError (lit "Failed to fetch")) s eq_refl).
Defined.

Lemma detection_never_selects_intermediate_witness :
  let s := {| Detection.base :=
                {| Manual.form := d_block; Manual.detectionSection := d_none;
                   Manual.resultsSection := d_none; Manual.loadingSection := d_none;
                   Manual.steps := []; Manual.fields := []; Manual.videoContent := [];
                   Manual.documentLinks := []; Manual.alerts := [];
                   Manual.requests := [] |};
              Detection.inputText := lit "What is a cell?";
              Detection.detectBtn_display := d_inline_block;
              Detection.detectBtn_disabled := false;
              Detection.detectBtn_text := Detection.DetectType;
              Detection.detectionResults := None;
              Detection.complexity_options :=
                [lit "beginner"; lit "intermediate"; lit "advanced"];
              Detection.complexity := lit "intermediate" |} in
  Detection.complexity s = lit "intermediate".
Proof.
  intros s.
  exact (detection_never_selects_intermediate
           (Response 200 []
              (Some {| Detection.dr_success := true;
                       Detection.dr_detection :=
                         Some {| Detection.d_type := lit "question";
                                 Detection.d_subject_area := lit "biology";
                                 Detection.d_complexity_hint := Some (lit "intermediate");
                                 Detection.d_reasoning := [] |} |}))
           s eq_refl).
Defined.

(** ** The page component: how a generation ends *)

Section PageOutcomes.

Import Page.

Lemma or_else_nonempty (o : option jstring) (d : jstring) :
  nonempty d = true -> nonempty (or_else o d) = true.
Proof.
  intros H. unfold or_else. destruct o as [[|c s]|]; auto.
Qed.

Lemma truthy_or_else (o : option jstring) (d : jstring) :
  nonempty d = true -> or_opt (Some (or_else o d)) None = Some (or_else o d).
Proof.
  intros H. unfold or_opt, truthy. rewrite (or_else_nonempty o d H). reflexivity.
Qed.

(** The backend said [success: true]. *)
Definition answered_success (outcome : FetchOutcome VideoGenerationResult) : bool :=
  match outcome with
  | Response _ _ (Some data) => success data
  | _ => false
  end.

(** X18. A text generation that starts always settles: whatever happens to the
    request, the component leaves the generating state with a result set,
    a successful one exactly when the backend said so, and a failed one
    always with an error type and a list of suggestions. *)
Theorem text_generation_always_settles (outcome : FetchOutcome VideoGenerationResult)
    (s : State) :
  nonempty (trim (inputText s)) = true ->
  let s' := generateVideoFromText outcome s in
  isGenerating s' = false
  /\ exists r, result s' = Some r
               /\ success r = answered_success outcome
               /\ (success r = false ->
                   truthy (error_type r) = true /\ suggestions r <> None).
Proof.
  intros H s'. subst s'. unfold generateVideoFromText. rewrite H. simpl negb.
  cbv iota zeta.
  destruct outcome as [m | status text [data|]]; simpl.
  - split; [reflexivity|]. eexists. repeat split. discriminate.
  - destruct (success data) eqn:S; simpl.
    + split; [reflexivity|]. exists data. repeat split; try exact S;
        rewrite S in *; discriminate.
    + split; [reflexivity|]. eexists. repeat split; try discriminate.
      simpl. apply or_else_nonempty. reflexivity.
  - split; [reflexivity|]. eexists. repeat split. discriminate.
Qed.

(** X19. An answer with [success: false] to a text generation never shows a
    result panel: the results column is the error panel alone, under the
    backend's error type or "Generation Error", with the backend's
    [error_message], else its [error], else a fixed text, and with the
    backend's suggestions or two fixed ones. *)
Theorem backend_failure_renders_error_panel (data : VideoGenerationResult) status text
    (s : State) :
  nonempty (trim (inputText s)) = true ->
  success data = false ->
  render (generateVideoFromText (Response status text (Some data)) s)
  = [ErrorState (or_else (error_type data) (lit "Generation Error"))
       (Some (or_else (or_opt (error_message data) (error data))
                (lit "Text generation failed")))
       (tips_or (suggestions data)
          [lit "Please try rephrasing your request";
           lit "Check if the topic is educational"])
       false].
Proof.
  intros H S. unfold generateVideoFromText. rewrite H, S. simpl negb. cbv iota zeta.
  unfold render. cbn [isGenerating result setIsGenerating setResult
                      setGenerationProgress fetch failure success error_type
                      error_message error suggestions debug_audio_path app].
  f_equal. f_equal.
  - unfold or_else at 1.
    rewrite (or_else_nonempty (error_type data) (lit "Generation Error") eq_refl).
    destruct (or_else (error_type data) (lit "Generation Error")); reflexivity.
  - apply truthy_or_else. reflexivity.
Qed.

(** The results column is never blank and never shows two panels of the
    same kind: it holds the loading state exactly while generating, and
    besides it one of the success panel, the error panel or, when idle
    without a result, the empty state. *)
Theorem results_column_states (s : State) :
  render s <> []
  /\ List.length (render s) <= 2
  /\ ((exists p, In (LoadingState p) (render s)) <-> isGenerating s = true)
  /\ (In EmptyState (render s) <-> isGenerating s = false /\ result s = None)
  /\ ((exists c, In (SuccessState c) (render s))
      <-> exists r, result s = Some r /\ success r = true)
  /\ ((exists t m l d, In (ErrorState t m l d) (render s))
      <-> exists r, result s = Some r /\ success r = false).
Proof.
  unfold render.
  destruct (isGenerating s); destruct (result s) as [r|]; try destruct (success r) eqn:S;
    simpl; (split; [discriminate|]); (split; [lia|]);
    repeat split; intros;
    repeat match goal with
           | H : exists _, _ |- _ => destruct H as [? ?]
           | H : _ /\ _ |- _ => destruct H
           | H : _ \/ _ |- _ => destruct H
           | H : False |- _ => contradiction
           | H : Some _ = Some _ |- _ => inversion H; subst; clear H
           end;
    try congruence;
    first [ solve [reflexivity]
          | solve [eexists; split; [reflexivity | eassumption]]
          | solve [do 4 eexists; simpl; eauto]
          | solve [eexists; simpl; eauto]
          | solve [simpl; auto] ].
Qed.

(** X20. While idle, the handler's own guards and the [disabled] attribute of
    the generate button agree: a call does nothing exactly when the button
    is disabled. *)
Theorem generate_guard_matches_button (env : Env) (s : State) :
  isGenerating s = false ->
  (handleGenerate env s = s <-> generate_disabled s = true).
Proof.
  intros G. unfold generate_disabled, handleGenerate. rewrite G. simpl orb.
  destruct (inputMode s).
  - unfold generateVideoFromText.
    destruct (negb (nonempty (trim (inputText s)))) eqn:E;
      [split; reflexivity|].
    split; [|discriminate]. intros H. apply negb_false_iff in E.
    pose proof (generateVideoFromText_requests (generation env) s E) as R.
    unfold generateVideoFromText in R. rewrite E in R. simpl negb in R.
    cbv iota in R. rewrite H in R.
    apply (f_equal (@List.length _)) in R. rewrite length_app in R. simpl in R. lia.
  - unfold generateVideoFromVoice.
    destruct (recordedAudio s) as [audio|] eqn:A; [|split; reflexivity].
    split; [|discriminate]. intros H.
    destruct (read env) as [u|].
    + pose proof (generateVideoFromVoice_requests audio u (generation env) s A) as R.
      unfold generateVideoFromVoice in R. rewrite A in R. rewrite H in R.
      apply (f_equal (@List.length _)) in R. rewrite length_app in R. simpl in R. lia.
    + apply (f_equal isGenerating) in H. simpl in H. congruence.
  - unfold analyzeImage.
    destruct (selectedImage s) as [file|] eqn:I; [|split; reflexivity].
    split; [|discriminate]. intros H.
    destruct (read env) as [u|].
    + pose proof (analyzeImage_requests file u (analysis env) (generation env) s I) as R.
      unfold analyzeImage in R. rewrite I in R. rewrite H in R.
      apply (f_equal (@List.length _)) in R. rewrite length_app in R. simpl in R. lia.
    + apply (f_equal isGenerating) in H. simpl in H. congruence.
Qed.

(** X21. In image mode an analysis that names no topic, be it a failure or a
    success without topics, ends the action with an "Image Analysis Error"
    result carrying the backend's error or a fixed text; the analysis is
    kept, one request was sent, and the component is idle again. *)
Theorem image_without_topic_reports_analysis_error (file : File) (imageBase64 : jstring)
    (data : ImageAnalysisResult) status text
    (generation : FetchOutcome VideoGenerationResult) (s : State) :
  selectedImage s = Some file ->
  first_topic (Response status text (Some data)) = None ->
  let s' := analyzeImage (Some imageBase64) (Response status text (Some data))
              generation s in
  isGenerating s' = false
  /\ imageAnalysis s' = Some data
  /\ requests s' = requests s ++ [POST analyze_image (AnalyzeImageBody imageBase64)]
  /\ result s'
     = Some (failure (lit "Image Analysis Error")
               (or_else (ia_error data) (lit "Could not analyze the image content"))
               [lit "Try uploading a clearer image";
                lit "Ensure the image contains educational content"]
               None).
Proof.
  intros I T s'. subst s'. unfold analyzeImage. rewrite I.
  unfold first_topic in T.
  destruct (ia_success data); [destruct (ia_topics data) as [[|topic l]|]|];
    try discriminate T; repeat split.
Qed.

(** X22. In voice and image mode, a file the FileReader cannot read leaves the
    component generating for good: no load event comes, so no request is
    sent, no error is set, and the generate button stays disabled. *)
Theorem unread_file_stays_generating (env : Env) (s : State) :
  inputMode s <> text ->
  generate_disabled s = false ->
  read env = None ->
  let s' := handleGenerate env s in
  isGenerating s' = true
  /\ generate_disabled s' = true
  /\ requests s' = requests s
  /\ (inputMode s = voice -> result s' = None)
  /\ (inputMode s = image -> result s' = result s).
Proof.
  intros M D R s'. subst s'. unfold generate_disabled in D.
  apply orb_false_iff in D as [_ D]. unfold handleGenerate. rewrite R.
  destruct (inputMode s); [contradiction M; reflexivity | |].
  - unfold generateVideoFromVoice.
    destruct (recordedAudio s); [|discriminate D]. repeat split. discriminate.
  - unfold analyzeImage.
    destruct (selectedImage s); [|discriminate D]. repeat split. discriminate.
Qed.

(** X23. In image mode a rejected analysis request, or an answer that is not
    JSON, is caught nowhere: the component stays generating with the
    earlier result, if any, still in place. *)
Theorem image_rejection_stays_generating (file : File) (imageBase64 : jstring)
    (analysis : FetchOutcome ImageAnalysisResult)
    (generation : FetchOutcome VideoGenerationResult) (s : State) :
  selectedImage s = Some file ->
  match analysis with
  | NetworkError _ | Response _ _ None => True
  | _ => False
  end ->
  let s' := analyzeImage (Some imageBase64) analysis generation s in
  isGenerating s' = true
  /\ generate_disabled s' = true
  /\ result s' = result s
  /\ imageAnalysis s' = None
  /\ requests s' = requests s ++ [POST analyze_image (AnalyzeImageBody imageBase64)].
Proof.
  intros I F s'. subst s'. unfold analyzeImage. rewrite I.
  destruct analysis as [m | status text [data|]]; [| destruct F |]; repeat split.
Qed.

End PageOutcomes.

(** ** The recording helper: failed starts, callbacks, overlapping recordings *)

Section RecordingEdges.

Import Audio.

(** X24. A start that cannot create its recorder, for want of a stream or
    because the constructor refuses, assigns nothing: the recorder in use,
    the chunks gathered, the recording flag and the callbacks made are as
    before, so an earlier recording is not disturbed. *)
Theorem failed_start_assigns_nothing (env : StartEnv) (s : State) :
  supported env = false \/ (currentStream s = None /\ grant env = None) ->
  let s' := startRecording env s in
  mediaRecorder s' = mediaRecorder s
  /\ audioChunks s' = audioChunks s
  /\ isRecording s' = isRecording s
  /\ recorders s' = recorders s
  /\ completed s' = completed s
  /\ onRecordingComplete s' = onRecordingComplete s.
Proof.
  intros H s'. subst s'. unfold startRecording, restartAudioMonitoring.
  destruct (currentStream s) as [st|] eqn:C.
  - rewrite C. destruct H as [H | [H _]]; [rewrite H; repeat split | discriminate H].
  - destruct (grant env) as [st|]; simpl.
    + destruct H as [H | [_ H]]; [rewrite H; repeat split | discriminate H].
    + rewrite C. repeat split.
Qed.

Definition stop_events (es : list Event) : nat :=
  List.length (filter (fun e => match e with Stop _ => true | _ => false end) es).

Lemma handle_completed (e : Event) (s : State) :
  onRecordingComplete (handle e s) = onRecordingComplete s
  /\ exists new,
       completed (handle e s) = completed s ++ new
       /\ List.length new <= stop_events [e]
       /\ (onRecordingComplete s = None -> new = [])
       /\ Forall (fun c => Some (fst c) = onRecordingComplete s
                           /\ mime (snd c) = lit "audio/webm") new.
Proof.
  destruct e as [env | | id data | id]; simpl.
  - unfold startRecording, restartAudioMonitoring.
    destruct (currentStream s) as [st|] eqn:C.
    + rewrite C. destruct (supported env); (split; [reflexivity|]); exists [];
        rewrite app_nil_r; repeat split; simpl; auto; lia.
    + destruct (grant env) as [st|]; simpl.
      * destruct (supported env); (split; [reflexivity|]); exists [];
          rewrite app_nil_r; repeat split; simpl; auto; lia.
      * rewrite C. split; [reflexivity|]. exists []. rewrite app_nil_r.
        repeat split; simpl; auto; lia.
  - unfold stopRecording. destruct (mediaRecorder s); [destruct (isRecording s)|];
      (split; [reflexivity|]); exists []; rewrite app_nil_r; repeat split; simpl; auto; lia.
  - unfold ondataavailable. destruct (0 <? size data);
      (split; [reflexivity|]); exists []; rewrite app_nil_r; repeat split; simpl; auto; lia.
  - split; [reflexivity|]. destruct (onRecordingComplete s) as [callback|].
    + exists [(callback, new_Blob (audioChunks s) (lit "audio/webm"))].
      split; [reflexivity|]. split; [unfold stop_events; simpl; lia|].
      split; [discriminate|].
      constructor; [split; reflexivity | constructor].
    + exists []. rewrite app_nil_r. repeat split; simpl; auto; lia.
Qed.

(** X25. The completion callback is called by stop events and by nothing else:
    after any events the calls made are the earlier ones followed by at
    most one per stop event, each to the registered callback with a blob of
    type audio/webm; when no callback is registered no call is made and the
    recordings are dropped. *)
Theorem callback_only_on_stop_events (es : list Event) (s : State) :
  exists new,
    completed (run es s) = completed s ++ new
    /\ List.length new <= stop_events es
    /\ (onRecordingComplete s = None -> new = [])
    /\ Forall (fun c => Some (fst c) = onRecordingComplete s
                        /\ mime (snd c) = lit "audio/webm") new.
Proof.
  revert s. induction es as [|e es IH]; intros s.
  - exists []. simpl. rewrite app_nil_r. repeat split; auto.
  - destruct (handle_completed e s) as (Hcb & new1 & H1 & L1 & N1 & F1).
    destruct (IH (handle e s)) as (new2 & H2 & L2 & N2 & F2).
    exists (new1 ++ new2). simpl run.
    change (fold_left _ es (handle e s)) with (run es (handle e s)).
    rewrite H2, H1, app_assoc. split; [reflexivity|]. split; [|split].
    + rewrite length_app. unfold stop_events in *. simpl in *.
      destruct e; simpl in *; lia.
    + intros Hn. rewrite (N1 Hn), N2 by (rewrite Hcb; exact Hn). reflexivity.
    + apply Forall_app. split; [exact F1|]. rewrite Hcb in F2. exact F2.
Qed.

(** X26. A recording started again before the stop event of the one just
    stopped shares its buffer with it, since the new start empties the one
    array both recorders write to: what the first recorder had delivered
    before the restart is dropped, and what it delivers after it is handed
    to the callback by its stop event and stays in the buffer of the second
    recording. *)
Theorem restart_before_stop_event_shares_buffer (s : State) (env env' : StartEnv)
    (callback : nat) (before after : list Blob) :
  onRecordingComplete s = Some callback ->
  supported env = true ->
  supported env' = true ->
  (currentStream s <> None \/ grant env <> None) ->
  let id := List.length (recorders s) in
  let es := StartRecording env :: map (DataAvailable id) before
              ++ StopRecording :: StartRecording env'
              :: map (DataAvailable id) after ++ [Stop id] in
  admissible es s = true
  /\ completed (run es s)
     = completed s ++ [(callback, new_Blob (kept after) (lit "audio/webm"))]
  /\ audioChunks (run es s) = kept after
  /\ isRecording (run es s) = true
  /\ mediaRecorder (run es s) = Some (S id).
Proof.
  intros Hcb Hsup Hsup' Hstream id es.
  assert (Hstart : exists stream,
             startRecording env s
             = {| mediaRecorder := Some id; audioChunks := [];
                  isRecording := true; onRecordingComplete := Some callback;
                  currentStream := Some stream;
                  recorders := recorders s ++ [recording];
                  completed := completed s |}).
  { unfold startRecording, restartAudioMonitoring.
    destruct (currentStream s) as [st|] eqn:C.
    - rewrite C, Hsup, Hcb. exists st. reflexivity.
    - destruct (grant env) as [st|] eqn:G.
      + simpl. rewrite Hsup, Hcb. exists st. reflexivity.
      + destruct Hstream as [H|H]; congruence. }
  destruct Hstart as (stream & Hstart).
  assert (Hid : nth_error (recorders s ++ [recording]) id = Some recording)
    by apply nth_error_last.
  assert (Hstop : nth_error (stop id (recorders s ++ [recording])) id = Some stopping).
  { unfold stop. rewrite update_nth_nth, Nat.eqb_refl, Hid. reflexivity. }
  assert (Hlen : List.length (stop id (recorders s ++ [recording])) = S id).
  { assert (L : forall (f : RecorderState -> RecorderState) l k,
                 List.length (update_nth k f l) = List.length l).
    { intros f l. induction l as [|a l IH]; intros [|k]; simpl; auto. }
    unfold stop. rewrite L, length_app. simpl. unfold id. lia. }
  assert (Hstop' : nth_error (stop id (recorders s ++ [recording]) ++ [recording]) id
                   = Some stopping).
  { rewrite nth_error_app1 by (rewrite Hlen; lia). exact Hstop. }
  assert (Hsecond :
            startRecording env'
              (stopRecording
                 (set_audioChunks ([] ++ kept before)
                    {| mediaRecorder := Some id; audioChunks := [];
                       isRecording := true; onRecordingComplete := Some callback;
                       currentStream := Some stream;
                       recorders := recorders s ++ [recording];
                       completed := completed s |}))
            = {| mediaRecorder := Some (S id); audioChunks := [];
                 isRecording := true; onRecordingComplete := Some callback;
                 currentStream := Some stream;
                 recorders := stop id (recorders s ++ [recording]) ++ [recording];
                 completed := completed s |}).
  { unfold startRecording, stopRecording, set_audioChunks. simpl.
    rewrite Hsup', Hlen. reflexivity. }
  split.
  - unfold es. simpl admissible. rewrite Hstart.
    rewrite admissible_app, run_data.
    rewrite admissible_data by (unfold delivering; simpl; rewrite Hid; reflexivity).
    cbn [andb admissible enabled handle audioChunks].
    rewrite Hsecond.
    rewrite admissible_app, run_data.
    rewrite admissible_data by (unfold delivering; simpl; rewrite Hstop'; reflexivity).
    simpl. rewrite Hstop'. reflexivity.
  - unfold es.
    change (run (?e :: ?l) s) with (run l (handle e s)). simpl handle.
    rewrite Hstart, audio_run_app, run_data.
    change (run (?e :: ?e' :: ?l) ?t) with (run l (handle e' (handle e t))).
    cbn [handle audioChunks]. rewrite Hsecond.
    rewrite audio_run_app, run_data. simpl. repeat split.
Qed.

End RecordingEdges.

Lemma failed_start_assigns_nothing_witness :
  let s := {| Audio.mediaRecorder := Some 0;
              Audio.audioChunks := [{| Audio.content := [7]%N; Audio.mime := [] |}];
              Audio.isRecording := true; Audio.onRecordingComplete := Some 1;
              Audio.currentStream := Some 0; Audio.recorders := [Audio.recording];
              Audio.completed := [] |} in
  let env := {| Audio.grant := None; Audio.supported := false |} in
  Audio.audioChunks (Audio.startRecording env s)
  = [{| Audio.content := [7]%N; Audio.mime := [] |}].
Proof.
  intros s env.
  exact (proj1 (proj2 (failed_start_assigns_nothing env s (or_introl eq_refl)))).
Defined.

Lemma restart_before_stop_event_shares_buffer_witness :
  let s := {| Audio.mediaRecorder := None; Audio.audioChunks := [];
              Audio.isRecording := false; Audio.onRecordingComplete := Some 1;
              Audio.currentStream := Some 0; Audio.recorders := [];
              Audio.completed := [] |} in
  let env := {| Audio.grant := None; Audio.supported := true |} in
  let chunk := {| Audio.content := [1; 2; 3]%N; Audio.mime := [] |} in
  Audio.audioChunks
    (Audio.run (Audio.StartRecording env :: map (Audio.DataAvailable 0) []
                  ++ Audio.StopRecording :: Audio.StartRecording env
                  :: map (Audio.DataAvailable 0) [chunk] ++ [Audio.Stop 0]) s)
  = [chunk].
Proof.
  intros s env chunk.
  refine (proj1 (proj2 (proj2 (restart_before_stop_event_shares_buffer s env env 1 []
                                 [chunk] eq_refl eq_refl eq_refl _)))).
  left. discriminate.
Defined.

(** ** page.tsx: recording in voice mode and choosing an image *)

Module Voice.

Definition setIsRecording (v : bool) (s : Page.State) : Page.State :=
  {| Page.inputText := Page.inputText s; Page.selectedLanguage := Page.selectedLanguage s;
     Page.includeNarration := Page.includeNarration s; Page.complexity := Page.complexity s;
     Page.inputMode := Page.inputMode s; Page.isRecording := v;
     Page.recordedAudio := Page.recordedAudio s; Page.isGenerating := Page.isGenerating s;
     Page.generationProgress := Page.generationProgress s; Page.result := Page.result s;
     Page.selectedImage := Page.selectedImage s; Page.imagePreview := Page.imagePreview s;
     Page.imageAnalysis := Page.imageAnalysis s; Page.requests := Page.requests s |}.

Definition setRecordedAudio (v : option (list N)) (s : Page.State) : Page.State :=
  {| Page.inputText := Page.inputText s; Page.selectedLanguage := Page.selectedLanguage s;
     Page.includeNarration := Page.includeNarration s; Page.complexity := Page.complexity s;
     Page.inputMode := Page.inputMode s; Page.isRecording := Page.isRecording s;
     Page.recordedAudio := v; Page.isGenerating := Page.isGenerating s;
     Page.generationProgress := Page.generationProgress s; Page.result := Page.result s;
     Page.selectedImage := Page.selectedImage s; Page.imagePreview := Page.imagePreview s;
     Page.imageAnalysis := Page.imageAnalysis s; Page.requests := Page.requests s |}.

(** [handleImageUpload] of the page: with a file chosen, it becomes the
    selected image and the earlier analysis is cleared; [preview] is the
    data URL the FileReader loads for the preview, if it loads. *)
Definition handleImageUpload (file : option File) (preview : option jstring)
    (s : Page.State) : Page.State :=
  match file with
  | None => s
  | Some f =>
      {| Page.inputText := Page.inputText s;
         Page.selectedLanguage := Page.selectedLanguage s;
         Page.includeNarration := Page.includeNarration s;
         Page.complexity := Page.complexity s;
         Page.inputMode := Page.inputMode s; Page.isRecording := Page.isRecording s;
         Page.recordedAudio := Page.recordedAudio s;
         Page.isGenerating := Page.isGenerating s;
         Page.generationProgress := Page.generationProgress s;
         Page.result := Page.result s;
         Page.selectedImage := Some f;
         Page.imagePreview := match preview with
                              | Some u => Some u
                              | None => Page.imagePreview s
                              end;
         Page.imageAnalysis := None; Page.requests := Page.requests s |}
  end.

(** The component with its three refs for recording. [helper_defined]
    tells whether [window.EnhancedAudioInput] exists. The fallback path
    keeps the streams it was granted (live or not) and the recorders it
    created, each with its stream and state. *)
Record State := {
  page : Page.State;
  helper_defined : bool;
  enhancedAudioRef : option Audio.State;
  mediaRecorderRef : option nat;
  audioChunksRef : list Audio.Blob;
  streams : list bool;
  recorders : list (nat * Audio.RecorderState);
  alerts : list jstring
}.

Definition set_page v (s : State) : State :=
  {| page := v; helper_defined := helper_defined s;
     enhancedAudioRef := enhancedAudioRef s; mediaRecorderRef := mediaRecorderRef s;
     audioChunksRef := audioChunksRef s; streams := streams s;
     recorders := recorders s; alerts := alerts s |}.

Definition set_enhanced v (s : State) : State :=
  {| page := page s; helper_defined := helper_defined s;
     enhancedAudioRef := v; mediaRecorderRef := mediaRecorderRef s;
     audioChunksRef := audioChunksRef s; streams := streams s;
     recorders := recorders s; alerts := alerts s |}.

Definition alert (m : jstring) (s : State) : State :=
  {| page := page s; helper_defined := helper_defined s;
     enhancedAudioRef := enhancedAudioRef s; mediaRecorderRef := mediaRecorderRef s;
     audioChunksRef := audioChunksRef s; streams := streams s;
     recorders := recorders s; alerts := alerts s ++ [m] |}.

(** The helper as its constructor leaves it. *)
Definition new_helper : Audio.State :=
  {| Audio.mediaRecorder := None; Audio.audioChunks := []; Audio.isRecording := false;
     Audio.onRecordingComplete := None; Audio.currentStream := None;
     Audio.recorders := []; Audio.completed := [] |}.

(** The one callback the page registers; it stores the blob it receives. *)
Definition page_callback : nat := 0.

(** Whether the helper's [startRecording] rejects: it has no stream and is
    granted none, or the recorder cannot be constructed. *)
Definition helper_rejects (env : Audio.StartEnv) (h : Audio.State) : bool :=
  negb (Audio.supported env)
  || match Audio.currentStream h, Audio.grant env with
     | None, None => true
     | _, _ => false
     end.

(** What the page's [startRecording] meets: the helper's environment, and
    for the fallback path whether the microphone is granted and whether the
    MediaRecorder constructor accepts the stream. *)
Record StartEnv := {
  helper : Audio.StartEnv;
  microphone : bool;
  recorder_ok : bool
}.

Definition denied : jstring :=
  lit "Microphone access denied. Please check your audio device settings.".

Definition startRecording (env : StartEnv) (s : State) : State :=
  let s1 := match enhancedAudioRef s with
            | None =>
                if helper_defined s
                then set_enhanced
                       (Some (Audio.setRecordingCompleteCallback page_callback new_helper)) s
                else s
            | Some _ => s
            end in
  match enhancedAudioRef s1 with
  | Some h =>
      let s2 := set_enhanced (Some (Audio.startRecording (helper env) h)) s1 in
      if helper_rejects (helper env) h then alert denied s2
      else set_page (setIsRecording true (page s2)) s2
  | None =>
      if microphone env then
        let stream := List.length (streams s1) in
        if recorder_ok env then
          {| page := setIsRecording true (page s1); helper_defined := helper_defined s1;
             enhancedAudioRef := None;
             mediaRecorderRef := Some (List.length (recorders s1));
             audioChunksRef := []; streams := streams s1 ++ [true];
             recorders := recorders s1 ++ [(stream, Audio.recording)];
             alerts := alerts s1 |}
        else
          {| page := page s1; helper_defined := helper_defined s1;
             enhancedAudioRef := None; mediaRecorderRef := mediaRecorderRef s1;
             audioChunksRef := audioChunksRef s1; streams := streams s1 ++ [true];
             recorders := recorders s1; alerts := alerts s1 ++ [denied] |}
      else alert denied s1
  end.

Definition stopRecording (s : State) : State :=
  if Page.isRecording (page s) then
    match enhancedAudioRef s with
    | Some h =>
        set_page (setIsRecording false (page s))
          (set_enhanced (Some (Audio.stopRecording h)) s)
    | None =>
        match mediaRecorderRef s with
        | Some id =>
            {| page := setIsRecording false (page s);
               helper_defined := helper_defined s; enhancedAudioRef := None;
               mediaRecorderRef := mediaRecorderRef s;
               audioChunksRef := audioChunksRef s; streams := streams s;
               recorders :=
                 update_nth id
                   (fun r => match snd r with
                             | Audio.recording => (fst r, Audio.stopping)
                             | _ => r
                             end) (recorders s);
               alerts := alerts s |}
        | None => s
        end
    end
  else s.

(** An event of a helper's recorder: the helper handles it, and each call of
    the page's callback it makes stores the blob's bytes as the recorded
    audio. *)
Definition helper_event (e : Audio.Event) (s : State) : State :=
  match enhancedAudioRef s with
  | None => s
  | Some h =>
      let h' := Audio.handle e h in
      let calls := skipn (List.length (Audio.completed h)) (Audio.completed h') in
      set_page
        (fold_left (fun p c => setRecordedAudio (Some (Audio.content (snd c))) p)
           calls (page s))
        (set_enhanced (Some h') s)
  end.

(** The handlers of a fallback recorder: every chunk is kept; the stop
    handler stores a blob of all chunks and stops the tracks of the stream
    the recorder was created on. *)
Definition ondataavailable (data : Audio.Blob) (s : State) : State :=
  {| page := page s; helper_defined := helper_defined s;
     enhancedAudioRef := enhancedAudioRef s; mediaRecorderRef := mediaRecorderRef s;
     audioChunksRef := audioChunksRef s ++ [data]; streams := streams s;
     recorders := recorders s; alerts := alerts s |}.

Definition onstop (id : nat) (s : State) : State :=
  match nth_error (recorders s) id with
  | None => s
  | Some (stream, _) =>
      {| page := setRecordedAudio
                   (Some (Audio.content
                            (Audio.new_Blob (audioChunksRef s) (lit "audio/wav"))))
                   (page s);
         helper_defined := helper_defined s; enhancedAudioRef := enhancedAudioRef s;
         mediaRecorderRef := mediaRecorderRef s; audioChunksRef := audioChunksRef s;
         streams := update_nth stream (fun _ => false) (streams s);
         recorders := update_nth id (fun r => (fst r, Audio.inactive)) (recorders s);
         alerts := alerts s |}
  end.

Inductive Event :=
| RecordClick (env : StartEnv)
| HelperEvent (e : Audio.Event)
| FallbackData (id : nat) (data : Audio.Blob)
| FallbackStop (id : nat).

(** The record button starts a recording or stops the one under way. *)
Definition handle (e : Event) (s : State) : State :=
  match e with
  | RecordClick env =>
      if Page.isRecording (page s) then stopRecording s else startRecording env s
  | HelperEvent e' => helper_event e' s
  | FallbackData _ data => ondataavailable data s
  | FallbackStop id => onstop id s
  end.

Definition run (es : list Event) (s : State) : State :=
  fold_left (fun s' e => handle e s') es s.

(** The component at its first render, with or without the helper script. *)
Definition mounted (defined : bool) : State :=
  {| page := Page.initial; helper_defined := defined; enhancedAudioRef := None;
     mediaRecorderRef := None; audioChunksRef := []; streams := [];
     recorders := []; alerts := [] |}.

End Voice.

Section VoiceRecording.

Import Voice.

Lemma set_page_same (x : option Audio.State) (s : State) :
  set_page (page s) (set_enhanced x s) = set_enhanced x s.
Proof. destruct s; reflexivity. Qed.

Lemma set_enhanced_twice (x y : option Audio.State) (s : State) :
  set_enhanced x (set_enhanced y s) = set_enhanced x s.
Proof. destruct s; reflexivity. Qed.

Lemma kept_content (chunks : list Audio.Blob) :
  List.concat (map Audio.content (kept chunks)) = List.concat (map Audio.content chunks).
Proof.
  induction chunks as [|data chunks IH]; simpl; [reflexivity|].
  unfold Audio.size. destruct (Audio.content data) eqn:E; simpl.
  - exact IH.
  - rewrite E, IH. reflexivity.
Qed.

Lemma helper_data_run (id : nat) (chunks : list Audio.Blob) :
  forall s h, enhancedAudioRef s = Some h ->
    run (map (fun data => HelperEvent (Audio.DataAvailable id data)) chunks) s
    = set_enhanced (Some (set_audioChunks (Audio.audioChunks h ++ kept chunks) h)) s.
Proof.
  induction chunks as [|data chunks IH]; intros s h Hh; simpl.
  - rewrite app_nil_r, set_audioChunks_same.
    destruct s; simpl in *; rewrite Hh; reflexivity.
  - change (fold_left _ _ ?t)
      with (run (map (fun data => HelperEvent (Audio.DataAvailable id data)) chunks) t).
    unfold helper_event. rewrite Hh. cbv zeta.
    assert (Hc : Audio.completed (Audio.handle (Audio.DataAvailable id data) h)
                 = Audio.completed h).
    { simpl. unfold Audio.ondataavailable. destruct (0 <? Audio.size data); reflexivity. }
    rewrite Hc, skipn_all. simpl fold_left. rewrite set_page_same.
    rewrite (IH _ (Audio.handle (Audio.DataAvailable id data) h)) by reflexivity.
    rewrite set_enhanced_twice. f_equal. f_equal.
    simpl. unfold Audio.ondataavailable.
    destruct (0 <? Audio.size data); simpl.
    + unfold set_audioChunks. simpl. rewrite <- app_assoc. reflexivity.
    + reflexivity.
Qed.

Lemma fallback_data_run (id : nat) (chunks : list Audio.Blob) :
  forall s, run (map (FallbackData id) chunks) s
            = {| page := page s; helper_defined := helper_defined s;
                 enhancedAudioRef := enhancedAudioRef s;
                 mediaRecorderRef := mediaRecorderRef s;
                 audioChunksRef := audioChunksRef s ++ chunks; streams := streams s;
                 recorders := recorders s; alerts := alerts s |}.
Proof.
  induction chunks as [|data chunks IH]; intros s; simpl.
  - rewrite app_nil_r. destruct s; reflexivity.
  - change (fold_left _ _ ?t) with (run (map (FallbackData id) chunks) t).
    rewrite IH. unfold ondataavailable. simpl. rewrite <- app_assoc. reflexivity.
Qed.

Lemma voice_run_app (es es' : list Event) (s : State) :
  run (es ++ es') s = run es' (run es s).
Proof. unfold run. apply fold_left_app. Qed.

(** X27. With the helper script on the page, a first recording from the record
    button, through the data the helper's recorder delivers, the second
    click and the recorder's stop event, ends with the page holding all the
    recorded bytes as its recorded audio, the recording flag down and no
    alert raised; in voice mode, while idle, this enables the generate
    button. *)
Theorem enhanced_recording_reaches_page (s : State) (env env' : StartEnv)
    (stream : nat) (during after : list Audio.Blob) :
  helper_defined s = true ->
  enhancedAudioRef s = None ->
  Page.isRecording (page s) = false ->
  Audio.supported (helper env) = true ->
  Audio.grant (helper env) = Some stream ->
  let data := fun d => HelperEvent (Audio.DataAvailable 0 d) in
  let s' := run (RecordClick env :: map data during
                   ++ RecordClick env' :: map data after
                   ++ [HelperEvent (Audio.Stop 0)]) s in
  Page.recordedAudio (page s')
  = Some (List.concat (map Audio.content (during ++ after)))
  /\ Page.isRecording (page s') = false
  /\ alerts s' = alerts s
  /\ (Page.inputMode (page s) = Page.voice -> Page.isGenerating (page s) = false ->
      Page.generate_disabled (page s') = false).
Proof.
  intros Hd He Hr Hsup Hgrant data s'. subst s'.
  change (run (?e :: ?l) s) with (run l (handle e s)).
  assert (H1 : handle (RecordClick env) s
               = set_page (setIsRecording true (page s))
                   (set_enhanced
                      (Some {| Audio.mediaRecorder := Some 0; Audio.audioChunks := [];
                               Audio.isRecording := true;
                               Audio.onRecordingComplete := Some page_callback;
                               Audio.currentStream := Some stream;
                               Audio.recorders := [Audio.recording];
                               Audio.completed := [] |}) s)).
  { simpl handle. rewrite Hr. unfold startRecording. rewrite He, Hd.
    cbn [enhancedAudioRef set_enhanced]. unfold helper_rejects.
    rewrite Hsup, Hgrant. cbn [negb orb Audio.currentStream
                               Audio.setRecordingCompleteCallback new_helper].
    unfold Audio.startRecording, Audio.restartAudioMonitoring.
    cbn [Audio.currentStream Audio.setRecordingCompleteCallback new_helper].
    rewrite Hgrant. cbn. rewrite Hsup. destruct s; reflexivity. }
  rewrite H1, voice_run_app. unfold data.
  erewrite helper_data_run by reflexivity.
  change (run (?e :: ?l) ?t) with (run l (handle e t)).
  cbn [handle page set_page set_enhanced setIsRecording Page.isRecording].
  unfold stopRecording.
  cbn [page set_page set_enhanced setIsRecording Page.isRecording enhancedAudioRef].
  rewrite voice_run_app. erewrite helper_data_run by reflexivity.
  unfold run. cbn [fold_left handle]. unfold helper_event.
  cbn [enhancedAudioRef set_enhanced set_page]. cbv zeta.
  simpl. rewrite <- filter_app_kept, kept_content.
  repeat split.
  intros Hv Hg. unfold Page.generate_disabled. simpl. rewrite Hv, Hg. reflexivity.
Qed.

(** X28. Without the helper script, a recording through the page's own
    recorder ends, at the recorder's stop event, with the page holding all
    the bytes delivered, empty chunks included, and with the microphone
    stream that was opened for it stopped; the streams held before are not
    touched. *)
Theorem fallback_recording_releases_microphone (s : State) (env env' : StartEnv)
    (during after : list Audio.Blob) :
  helper_defined s = false ->
  enhancedAudioRef s = None ->
  Page.isRecording (page s) = false ->
  microphone env = true ->
  recorder_ok env = true ->
  let id := List.length (recorders s) in
  let s' := run (RecordClick env :: map (FallbackData id) during
                   ++ RecordClick env' :: map (FallbackData id) after
                   ++ [FallbackStop id]) s in
  Page.recordedAudio (page s')
  = Some (List.concat (map Audio.content (during ++ after)))
  /\ Page.isRecording (page s') = false
  /\ streams s' = streams s ++ [false]
  /\ nth_error (recorders s') id = Some (List.length (streams s), Audio.inactive)
  /\ alerts s' = alerts s.
Proof.
  intros Hd He Hr Hm Hk id s'. subst s'.
  change (run (?e :: ?l) s) with (run l (handle e s)).
  assert (H1 : handle (RecordClick env) s
               = {| page := setIsRecording true (page s); helper_defined := false;
                    enhancedAudioRef := None; mediaRecorderRef := Some id;
                    audioChunksRef := []; streams := streams s ++ [true];
                    recorders := recorders s ++ [(List.length (streams s), Audio.recording)];
                    alerts := alerts s |}).
  { simpl handle. rewrite Hr. unfold startRecording. rewrite He, Hd, He, Hm, Hk.
    cbv zeta. rewrite Hd. reflexivity. }
  rewrite H1, voice_run_app, fallback_data_run.
  change (run (?e :: ?l) ?t) with (run l (handle e t)).
  cbn [handle page setIsRecording Page.isRecording]. unfold stopRecording.
  cbn [page setIsRecording Page.isRecording enhancedAudioRef mediaRecorderRef].
  rewrite voice_run_app, fallback_data_run.
  unfold run. cbn [fold_left handle]. unfold onstop.
  cbn [recorders audioChunksRef app].
  assert (Hn : nth_error
                 (update_nth id
                    (fun r => match snd r with
                              | Audio.recording => (fst r, Audio.stopping)
                              | _ => r
                              end)
                    (recorders s ++ [(List.length (streams s), Audio.recording)])) id
               = Some (List.length (streams s), Audio.stopping)).
  { rewrite update_nth_nth, Nat.eqb_refl. unfold id. rewrite nth_error_last.
    reflexivity. }
  rewrite Hn. cbn [page streams recorders alerts setRecordedAudio setIsRecording
                   Page.recordedAudio Page.isRecording].
  split; [|split; [reflexivity|split; [|split; [|reflexivity]]]].
  - unfold Audio.new_Blob. cbn [Audio.content]. reflexivity.
  - clear. induction (streams s) as [|b l IH]; simpl; [reflexivity|].
    rewrite IH. reflexivity.
  - rewrite update_nth_nth, Nat.eqb_refl, Hn. reflexivity.
Qed.

(** X29. Choosing an image while idle in image mode enables the generate button,
    clears the earlier analysis and keeps the earlier result; the next
    generate click then sends the analysis request with the data URL the
    FileReader loads. Closing the file dialog without a file changes
    nothing. *)
Theorem chosen_image_is_analysed (file : File) (preview : option jstring)
    (env : Page.Env) (s : Page.State) (imageBase64 : jstring) :
  Page.inputMode s = Page.image ->
  Page.isGenerating s = false ->
  Page.read env = Some imageBase64 ->
  let s1 := handleImageUpload (Some file) preview s in
  Page.generate_disabled s1 = false
  /\ Page.imageAnalysis s1 = None
  /\ Page.result s1 = Page.result s
  /\ (exists more,
         Page.requests (Page.handleGenerate env s1)
         = Page.requests s
             ++ POST Page.analyze_image (AnalyzeImageBody imageBase64) :: more)
  /\ handleImageUpload None preview s = s.
Proof.
  intros Hm Hg Hread s1.
  assert (Hsel : Page.selectedImage s1 = Some file) by reflexivity.
  split; [|split; [reflexivity|split; [reflexivity|split; [|reflexivity]]]].
  - unfold Page.generate_disabled. simpl. rewrite Hg, Hm. reflexivity.
  - unfold Page.handleGenerate.
    replace (Page.inputMode s1) with Page.image by (symmetry; exact Hm).
    rewrite Hread, (analyzeImage_requests file imageBase64 _ _ s1 Hsel).
    eexists. reflexivity.
Qed.

End VoiceRecording.

(** ** Instances *)

Lemma selection_ends_after_second_click_witness :
  let env := {| Scanner.rect_left := 0; Scanner.rect_top := 0;
                Scanner.frame := Returns (lit "data:image/jpeg;base64,AAAA");
                Scanner.answer := NetworkError (lit "offline") |} in
  let e1 := {| Scanner.clientX := 50; Scanner.clientY := 50 |} in
  let e2 := {| Scanner.clientX := 30; Scanner.clientY := 80 |} in
  let s := Scanner.toggleRegionSelection Scanner.constructed in
  selection_part (Scanner.handleCameraClick env e2 (Scanner.handleCameraClick env e1 s))
  = (false, None, d_none).
Proof.
  intros env e1 e2 s.
  exact (proj2 (proj2 (proj2 (selection_ends_after_second_click env env e1 e2 s
                                eq_refl eq_refl)))).
Defined.

Lemma cancelled_selection_keeps_corner_witness :
  let env := {| Scanner.rect_left := 0; Scanner.rect_top := 0;
                Scanner.frame := Returns (lit "data:image/jpeg;base64,AAAA");
                Scanner.answer := NetworkError (lit "offline") |} in
  let e1 := {| Scanner.clientX := 50; Scanner.clientY := 50 |} in
  let e3 := {| Scanner.clientX := 30; Scanner.clientY := 80 |} in
  let s := Scanner.toggleRegionSelection Scanner.constructed in
  Scanner.requests
    (Scanner.handleCameraClick env e3
       (Scanner.toggleRegionSelection
          (Scanner.toggleRegionSelection (Scanner.handleCameraClick env e1 s))))
  = [POST (lit "/api/process-camera-capture")
       (FormBody [(lit "image_data", FvText (lit "data:image/jpeg;base64,AAAA"));
                  (lit "selected_region",
                   FvJson [(lit "startX", 50%Z); (lit "startY", 50%Z);
                           (lit "width", 20%Z); (lit "height", 30%Z);
                           (lit "x", 30%Z); (lit "y", 50%Z)])])].
Proof.
  intros env e1 e3 s.
  exact (proj2 (cancelled_selection_keeps_corner env env e1 e3 s
                  (lit "data:image/jpeg;base64,AAAA") eq_refl eq_refl eq_refl)).
Defined.

Lemma camera_capture_failure_recovers_witness :
  let s' := Scanner.processCameraCapture [] (Response 500 (lit "boom") None)
              Scanner.constructed in
  Scanner.arLoading (Scanner.loading s') = d_none
  /\ Scanner.controls s' = Scanner.controls Scanner.constructed
  /\ Scanner.overlays s' = []
  /\ exists message, Scanner.alerts s' = [] ++ [lit "Camera capture failed: " ++ message].
Proof.
  intros s'.
  exact (camera_capture_failure_recovers [] (Response 500 (lit "boom") None)
           Scanner.constructed (or_introl eq_refl)).
Defined.

Lemma success_without_confirmation_data_witness :
  Scanner.alerts
    (Scanner.processCameraCapture []
       (Response 200 []
          (Some {| Scanner.r_success := true; Scanner.r_analysis := None;
                   Scanner.r_confirmation_data := None; Scanner.r_message := None |}))
       Scanner.constructed)
  = [lit "Camera capture failed: " ++ type_error_message].
Proof.
  exact (proj1 (proj2 (proj2 (proj2
           (success_without_confirmation_data [] 200%N []
              {| Scanner.r_success := true; Scanner.r_analysis := None;
                 Scanner.r_confirmation_data := None; Scanner.r_message := None |}
              Scanner.constructed eq_refl eq_refl eq_refl))))).
Defined.

(** A confirmation view whose text area the user has cleared to blanks, and
    one left with the default selection. *)
Definition sample_data : Scanner.ConfirmationData :=
  {| Scanner.primary_concept :=
       {| Scanner.c_display_text := lit "Cells";
          Scanner.c_description := lit "Cell structure";
          Scanner.c_suggested_input := lit "Explain cells" |};
     Scanner.questions :=
       [{| Scanner.q_text := lit "2+2"; Scanner.q_display_text := lit "2+2?";
           Scanner.q_suggested_input := lit "Solve 2+2" |}];
     Scanner.topics := [];
     Scanner.best_option :=
       {| Scanner.bo_type := lit "question"; Scanner.bo_content_text := Some (lit "2+2");
          Scanner.bo_content_name := None |};
     Scanner.processing_suggestions := [];
     Scanner.default_selection := lit " Solve 2+2 " |}.

Definition sample_view : Scanner.State :=
  Scanner.captureImage
    {| Scanner.rect_left := 0; Scanner.rect_top := 0;
       Scanner.frame := Returns (lit "data:image/jpeg;base64,AAAA");
       Scanner.answer :=
         Response 200 []
           (Some {| Scanner.r_success := true; Scanner.r_analysis := None;
                    Scanner.r_confirmation_data := Some sample_data;
                    Scanner.r_message := None |}) |}
    None Scanner.constructed.

Lemma blank_confirmed_input_is_refused_witness :
  Scanner.requests
    (Scanner.proceedWithConfirmedInput (NetworkError [])
       (Scanner.editOverlay (Scanner.set_confirmed_input (lit "  ")) sample_view))
  = Scanner.requests sample_view.
Proof.
  exact (f_equal Scanner.requests
           (blank_confirmed_input_is_refused (NetworkError [])
              (Scanner.editOverlay (Scanner.set_confirmed_input (lit "  ")) sample_view)
              (Scanner.set_confirmed_input (lit "  ") (Scanner.overlay_of sample_data)) []
              eq_refl eq_refl)).
Defined.

Lemma confirmed_generation_closes_overlay_witness :
  Scanner.overlays
    (Scanner.proceedWithConfirmedInput (NetworkError (lit "offline")) sample_view) = [].
Proof.
  exact (proj1 (confirmed_generation_closes_overlay (NetworkError (lit "offline"))
                  sample_view (Scanner.overlay_of sample_data) eq_refl eq_refl)).
Defined.

Lemma result_without_video_keeps_previous_video_witness :
  let first := {| g_success := true; g_error := None;
                  g_video_urls := Some (only_original (lit "a.mp4"));
                  g_documents := None |} in
  let second := {| g_success := true; g_error := None; g_video_urls := None;
                   g_documents := None |} in
  Scanner.arVideo_src
    (Scanner.results
       (Scanner.showARResults second
          (Scanner.closeArResults (Scanner.showARResults first Scanner.constructed))))
  = Some (lit "a.mp4").
Proof.
  intros first second.
  exact (proj1 (result_without_video_keeps_previous_video first second
                  Scanner.constructed (lit "a.mp4") eq_refl eq_refl eq_refl)).
Defined.

Lemma select_after_stop_leaves_text_witness :
  exists o' card',
    Scanner.overlays (Scanner.clickCard 1 (Scanner.stopCamera sample_view)) = [o']
    /\ Scanner.confirmed_input o' = lit " Solve 2+2 "
    /\ nth_error (Scanner.cards o') 1 = Some card'
    /\ Scanner.selected card' = true
    /\ Scanner.confirmationData (Scanner.clickCard 1 (Scanner.stopCamera sample_view))
       = None.
Proof.
  exact (select_after_stop_leaves_text sample_view (Scanner.overlay_of sample_data) 1
           (Scanner.question_card sample_data 0
              {| Scanner.q_text := lit "2+2"; Scanner.q_display_text := lit "2+2?";
                 Scanner.q_suggested_input := lit "Solve 2+2" |})
           eq_refl eq_refl).
Defined.

(** A capture brings up the overlay with the text [Solve 2+2]; the camera
    is stopped and the concept card clicked, whose suggestion is
    [Explain cells]; the card is marked and the text area still reads
    [Solve 2+2]. *)
Lemma click_after_stop_leaves_text_witness :
  let cd := {| Scanner.primary_concept :=
                 {| Scanner.c_display_text := lit "Cells";
                    Scanner.c_description := lit "Cell structure";
                    Scanner.c_suggested_input := lit "Explain cells" |};
               Scanner.questions :=
                 [{| Scanner.q_text := lit "2+2"; Scanner.q_display_text := lit "2+2?";
                     Scanner.q_suggested_input := lit "Solve 2+2" |}];
               Scanner.topics := [];
               Scanner.best_option :=
                 {| Scanner.bo_type := lit "question";
                    Scanner.bo_content_text := Some (lit "2+2");
                    Scanner.bo_content_name := None |};
               Scanner.processing_suggestions := [];
               Scanner.default_selection := lit "Solve 2+2" |} in
  let env := {| Scanner.rect_left := 0; Scanner.rect_top := 0;
                Scanner.frame := Returns (lit "data:image/jpeg;base64,AAAA");
                Scanner.answer :=
                  Response 200 []
                    (Some {| Scanner.r_success := true; Scanner.r_analysis := None;
                             Scanner.r_confirmation_data := Some cd;
                             Scanner.r_message := None |}) |} in
  let es := [Scanner.StartCameraClick; Scanner.MediaSettled (Some 1);
             Scanner.CaptureClick env; Scanner.StopCameraClick; Scanner.CardClick 0] in
  Scanner.suggested (Some cd) Scanner.concept None = Some (lit "Explain cells")
  /\ Scanner.admissible es Scanner.constructed = true
  /\ exists o',
       Scanner.overlays (Scanner.run es Scanner.constructed) = [o']
       /\ Scanner.confirmed_input o' = lit "Solve 2+2"
       /\ forall k card', nth_error (Scanner.cards o') k = Some card' ->
                          Scanner.selected card' = (k =? 0).
Proof.
  intros cd env es. split; [reflexivity|].
  pose proof (click_after_stop_leaves_text
                [Scanner.StartCameraClick; Scanner.MediaSettled (Some 1);
                 Scanner.CaptureClick env]
                (Scanner.overlay_of cd) 0 (Scanner.concept_card cd)
                eq_refl eq_refl eq_refl eq_refl) as H.
  split; [exact (proj1 H) | exact (proj2 (proj2 (proj2 H)))].
Defined.

Lemma overwritten_stream_is_never_stopped_witness :
  let s := Scanner.run [Scanner.StartCameraClick; Scanner.StartCameraClick;
                        Scanner.MediaSettled (Some 1); Scanner.MediaSettled (Some 1)]
             Scanner.constructed in
  nth_error (Scanner.media (Scanner.run [Scanner.StopCameraClick] s)) 0 = Some [true].
Proof.
  intros s.
  refine (proj1 (overwritten_stream_is_never_stopped [Scanner.StopCameraClick] s 0 [true]
                   eq_refl _)).
  discriminate.
Defined.

Lemma overlay_is_confirmation_view_witness :
  coherent
    (view_part (Scanner.run [Scanner.CardClick 1; Scanner.InputEdited (lit "x")]
                  sample_view)).
Proof.
  refine (overlay_is_confirmation_view
            [Scanner.CardClick 1; Scanner.InputEdited (lit "x")] sample_view _ eq_refl).
  right. exists sample_data, (Scanner.overlay_of sample_data).
  split; [reflexivity|]. split; reflexivity.
Defined.

Lemma text_generation_always_settles_witness :
  Page.isGenerating
    (Page.generateVideoFromText (NetworkError (lit "Failed to fetch"))
       (Page.setInputText (lit "Explain photosynthesis") Page.initial)) = false.
Proof.
  exact (proj1 (text_generation_always_settles (NetworkError (lit "Failed to fetch"))
                  (Page.setInputText (lit "Explain photosynthesis") Page.initial)
                  eq_refl)).
Defined.

Lemma backend_failure_renders_error_panel_witness :
  let data := Page.failure [] [] [] None in
  Page.render
    (Page.generateVideoFromText (Response 200 [] (Some data))
       (Page.setInputText (lit "Explain photosynthesis") Page.initial))
  = [Page.ErrorState (lit "Generation Error") (Some (lit "Text generation failed"))
       [] false].
Proof.
  intros data.
  exact (backend_failure_renders_error_panel data 200%N []
           (Page.setInputText (lit "Explain photosynthesis") Page.initial)
           eq_refl eq_refl).
Defined.

Lemma generate_guard_matches_button_witness :
  let env := {| Page.read := None; Page.generation := NetworkError [];
                Page.analysis := NetworkError [] |} in
  Page.handleGenerate env Page.initial = Page.initial
  <-> Page.generate_disabled Page.initial = true.
Proof.
  intros env. exact (generate_guard_matches_button env Page.initial eq_refl).
Defined.

(** The page in image mode with a file chosen, and in voice mode with a
    recording made. *)
Definition image_page : Page.State :=
  {| Page.inputText := []; Page.selectedLanguage := lit "auto";
     Page.includeNarration := true; Page.complexity := lit "intermediate";
     Page.inputMode := Page.image; Page.isRecording := false;
     Page.recordedAudio := None; Page.isGenerating := false;
     Page.generationProgress := 0; Page.result := None;
     Page.selectedImage := Some {| file_name := lit "leaf.png";
                                   file_type := lit "image/png"; file_size := 10240 |};
     Page.imagePreview := None; Page.imageAnalysis := None; Page.requests := [] |}.

Definition voice_page : Page.State :=
  {| Page.inputText := []; Page.selectedLanguage := lit "auto";
     Page.includeNarration := true; Page.complexity := lit "intermediate";
     Page.inputMode := Page.voice; Page.isRecording := false;
     Page.recordedAudio := Some [1; 2; 3]%N; Page.isGenerating := false;
     Page.generationProgress := 0; Page.result := None;
     Page.selectedImage := None; Page.imagePreview := None;
     Page.imageAnalysis := None; Page.requests := [] |}.

Lemma image_without_topic_reports_analysis_error_witness :
  let data := {| Page.ia_success := true; Page.ia_subject := None;
                 Page.ia_topics := Some []; Page.ia_error := None |} in
  Page.isGenerating
    (Page.analyzeImage (Some (lit "data:image/png;base64,AAAA"))
       (Response 200 [] (Some data)) (NetworkError []) image_page) = false.
Proof.
  intros data.
  exact (proj1 (image_without_topic_reports_analysis_error
                  {| file_name := lit "leaf.png"; file_type := lit "image/png";
                     file_size := 10240 |}
                  (lit "data:image/png;base64,AAAA") data 200%N [] (NetworkError [])
                  image_page eq_refl eq_refl)).
Defined.

Lemma unread_file_stays_generating_witness :
  let env := {| Page.read := None; Page.generation := NetworkError [];
                Page.analysis := NetworkError [] |} in
  Page.isGenerating (Page.handleGenerate env voice_page) = true.
Proof.
  intros env.
  refine (proj1 (unread_file_stays_generating env voice_page _ eq_refl eq_refl)).
  discriminate.
Defined.

Lemma image_rejection_stays_generating_witness :
  Page.isGenerating
    (Page.analyzeImage (Some (lit "data:image/png;base64,AAAA"))
       (NetworkError (lit "Failed to fetch")) (NetworkError []) image_page) = true.
Proof.
  exact (proj1 (image_rejection_stays_generating
                  {| file_name := lit "leaf.png"; file_type := lit "image/png";
                     file_size := 10240 |}
                  (lit "data:image/png;base64,AAAA")
                  (NetworkError (lit "Failed to fetch")) (NetworkError [])
                  image_page eq_refl I)).
Defined.

Lemma enhanced_recording_reaches_page_witness :
  let env := {| Voice.helper := {| Audio.grant := Some 0; Audio.supported := true |};
                Voice.microphone := true; Voice.recorder_ok := true |} in
  let chunk := {| Audio.content := [1; 2; 3]%N; Audio.mime := [] |} in
  Page.recordedAudio
    (Voice.page
       (Voice.run
          (Voice.RecordClick env
             :: map (fun d => Voice.HelperEvent (Audio.DataAvailable 0 d)) []
             ++ Voice.RecordClick env
             :: map (fun d => Voice.HelperEvent (Audio.DataAvailable 0 d)) [chunk]
             ++ [Voice.HelperEvent (Audio.Stop 0)])
          (Voice.mounted true)))
  = Some [1; 2; 3]%N.
Proof.
  intros env chunk.
  exact (proj1 (enhanced_recording_reaches_page (Voice.mounted true) env env 0 [] [chunk]
                  eq_refl eq_refl eq_refl eq_refl eq_refl)).
Defined.

Lemma fallback_recording_releases_microphone_witness :
  let env := {| Voice.helper := {| Audio.grant := None; Audio.supported := false |};
                Voice.microphone := true; Voice.recorder_ok := true |} in
  let chunk := {| Audio.content := [1; 2; 3]%N; Audio.mime := [] |} in
  Voice.streams
    (Voice.run
       (Voice.RecordClick env :: map (Voice.FallbackData 0) []
          ++ Voice.RecordClick env :: map (Voice.FallbackData 0) [chunk]
          ++ [Voice.FallbackStop 0])
       (Voice.mounted false))
  = [false].
Proof.
  intros env chunk.
  exact (proj1 (proj2 (proj2 (fallback_recording_releases_microphone (Voice.mounted false)
                                env env [] [chunk]
                                eq_refl eq_refl eq_refl eq_refl eq_refl)))).
Defined.

Lemma chosen_image_is_analysed_witness :
  let env := {| Page.read := Some (lit "data:image/png;base64,AAAA");
                Page.generation := NetworkError []; Page.analysis := NetworkError [] |} in
  let file := {| file_name := lit "leaf.png"; file_type := lit "image/png";
                 file_size := 10240 |} in
  Page.generate_disabled (Voice.handleImageUpload (Some file) None image_page) = false.
Proof.
  intros env file.
  exact (proj1 (chosen_image_is_analysed file None env image_page
                  (lit "data:image/png;base64,AAAA") eq_refl eq_refl eq_refl)).
Defined.

(** ** The recording helper: devices and monitoring *)

Module Monitor.

Record Device := { deviceId : jstring; kind : jstring; label : jstring }.

(** The fields of the helper that monitoring uses. An AudioContext is
    named by its position in [contexts], which tells whether it is still
    open; [granted] counts the microphone streams handed out so far, none
    of which the helper ever stops; [drawLoops] counts the animation loops
    [drawWaveform] has started, none of which is ever cancelled;
    [voiceContainer] tells whether the page has the container and the
    record button the selector is inserted before; the canvas comes with
    the selector. *)
Record State := {
  audioDevices : list Device;
  selectedDeviceId : option jstring;
  audioContext : option nat;
  contexts : list bool;
  currentStream : option nat;
  granted : nat;
  drawLoops : nat;
  voiceContainer : bool;
  selectorShown : bool;
  accessDenied : bool
}.

Definition constructed (container : bool) : State :=
  {| audioDevices := []; selectedDeviceId := None; audioContext := None;
     contexts := []; currentStream := None; granted := 0; drawLoops := 0;
     voiceContainer := container; selectorShown := false; accessDenied := false |}.

(** [this.audioContext.close()], when there is a context. *)
Definition close (s : State) : list bool :=
  match audioContext s with
  | Some c => update_nth c (fun _ => false) (contexts s)
  | None => contexts s
  end.

(** [restartAudioMonitoring]: the context in use is closed first; when the
    microphone is granted a new context is created, the waveform loop is
    started if the canvas exists, and the stream is stored for recording;
    when it is refused the level text says so and nothing else is
    assigned. *)
Definition restartAudioMonitoring (grant : bool) (s : State) : State :=
  if grant then
    {| audioDevices := audioDevices s; selectedDeviceId := selectedDeviceId s;
       audioContext := Some (List.length (close s));
       contexts := close s ++ [true];
       currentStream := Some (granted s); granted := S (granted s);
       drawLoops := if selectorShown s then S (drawLoops s) else drawLoops s;
       voiceContainer := voiceContainer s; selectorShown := selectorShown s;
       accessDenied := accessDenied s |}
  else
    {| audioDevices := audioDevices s; selectedDeviceId := selectedDeviceId s;
       audioContext := audioContext s; contexts := close s;
       currentStream := currentStream s; granted := granted s;
       drawLoops := drawLoops s;
       voiceContainer := voiceContainer s; selectorShown := selectorShown s;
       accessDenied := true |}.

(** [createDeviceSelector]: without the container nothing is built and
    monitoring is not started. *)
Definition createDeviceSelector (grant : bool) (s : State) : State :=
  if voiceContainer s then
    restartAudioMonitoring grant
      {| audioDevices := audioDevices s; selectedDeviceId := selectedDeviceId s;
         audioContext := audioContext s; contexts := contexts s;
         currentStream := currentStream s; granted := granted s;
         drawLoops := drawLoops s; voiceContainer := true; selectorShown := true;
         accessDenied := accessDenied s |}
  else s.

(** [getAudioDevices]: the permission request comes first, and its stream
    is dropped as it is; then the input devices are kept and the selector
    built. A refusal, or a failing enumeration, ends the method. *)
Definition getAudioDevices (permission : bool) (devices : option (list Device))
    (grant : bool) (s : State) : State :=
  if permission then
    let s1 := {| audioDevices := audioDevices s; selectedDeviceId := selectedDeviceId s;
                 audioContext := audioContext s; contexts := contexts s;
                 currentStream := currentStream s; granted := S (granted s);
                 drawLoops := drawLoops s; voiceContainer := voiceContainer s;
                 selectorShown := selectorShown s; accessDenied := accessDenied s |} in
    match devices with
    | Some ds =>
        createDeviceSelector grant
          {| audioDevices := filter (fun d => jstr_eqb (kind d) (lit "audioinput")) ds;
             selectedDeviceId := selectedDeviceId s1;
             audioContext := audioContext s1; contexts := contexts s1;
             currentStream := currentStream s1; granted := granted s1;
             drawLoops := drawLoops s1; voiceContainer := voiceContainer s1;
             selectorShown := selectorShown s1; accessDenied := accessDenied s1 |}
    | None => s1
    end
  else s.

(** The change handler of the selector: [e.target.value || null], then a
    restart. *)
Definition deviceChanged (value : jstring) (grant : bool) (s : State) : State :=
  restartAudioMonitoring grant
    {| audioDevices := audioDevices s;
       selectedDeviceId := if nonempty value then Some value else None;
       audioContext := audioContext s; contexts := contexts s;
       currentStream := currentStream s; granted := granted s;
       drawLoops := drawLoops s; voiceContainer := voiceContainer s;
       selectorShown := selectorShown s; accessDenied := accessDenied s |}.

Inductive Event :=
| Initialize (permission : bool) (devices : option (list Device)) (grant : bool)
| DeviceChanged (value : jstring) (grant : bool)
| Restart (grant : bool).

Definition handle (e : Event) (s : State) : State :=
  match e with
  | Initialize permission devices grant => getAudioDevices permission devices grant s
  | DeviceChanged value grant => deviceChanged value grant s
  | Restart grant => restartAudioMonitoring grant s
  end.

Definition run (es : list Event) (s : State) : State :=
  fold_left (fun s' e => handle e s') es s.

Definition open_contexts (s : State) : nat :=
  List.length (filter (fun b => b) (contexts s)).

End Monitor.

Section Monitoring.

Import Monitor.

(** Every open context is the one the helper holds. *)
Definition holds_open (s : State) : Prop :=
  forall c, nth_error (contexts s) c = Some true -> audioContext s = Some c.

Lemma update_nth_length {A} (f : A -> A) (l : list A) :
  forall k, List.length (update_nth k f l) = List.length l.
Proof. induction l as [|a l IH]; intros [|k]; simpl; auto. Qed.

Lemma close_closes (s : State) :
  holds_open s -> forall c, nth_error (close s) c = Some true -> False.
Proof.
  intros H c. unfold close. destruct (audioContext s) as [k|] eqn:E.
  - rewrite update_nth_nth. destruct (c =? k) eqn:K.
    + destruct (nth_error (contexts s) c); discriminate.
    + intros Hc. specialize (H c Hc). rewrite E in H. injection H as H.
      apply Nat.eqb_neq in K. congruence.
  - intros Hc. specialize (H c Hc). congruence.
Qed.

Lemma restart_holds_open (grant : bool) (s : State) :
  holds_open s -> holds_open (restartAudioMonitoring grant s).
Proof.
  intros H. unfold restartAudioMonitoring, holds_open. destruct grant; simpl; intros c Hc.
  - destruct (Nat.lt_ge_cases c (List.length (close s))) as [Hlt | Hge].
    + rewrite nth_error_app1 in Hc by exact Hlt.
      destruct (close_closes s H c Hc).
    + rewrite nth_error_app2 in Hc by exact Hge.
      destruct (c - List.length (close s)) as [|k] eqn:D; simpl in Hc.
      * f_equal. lia.
      * destruct k; discriminate Hc.
  - destruct (close_closes s H c Hc).
Qed.

Lemma handle_holds_open (e : Event) (s : State) :
  holds_open s -> holds_open (handle e s).
Proof.
  intros H. destruct e as [permission devices grant | value grant | grant]; simpl.
  - unfold getAudioDevices. destruct permission; [|exact H].
    destruct devices as [ds|]; [|exact H].
    unfold createDeviceSelector. simpl. destruct (voiceContainer s); [|exact H].
    apply restart_holds_open. exact H.
  - apply restart_holds_open. exact H.
  - apply restart_holds_open. exact H.
Qed.

Lemma none_open (l : list bool) :
  (forall c, nth_error l c = Some true -> False) -> filter (fun b => b) l = [].
Proof.
  induction l as [|b l IH]; intros H; simpl; [reflexivity|].
  destruct b; [destruct (H 0 eq_refl)|].
  apply IH. intros c Hc. exact (H (S c) Hc).
Qed.

Lemma one_open (l : list bool) (k : nat) :
  (forall c, nth_error l c = Some true -> c = k) ->
  List.length (filter (fun b => b) l) <= 1.
Proof.
  revert k. induction l as [|b l IH]; intros k H; simpl; [lia|].
  destruct b; simpl.
  - assert (E : filter (fun b => b) l = []).
    { clear IH. assert (H' : forall c, nth_error l c = Some true -> False).
      { intros c Hc. pose proof (H 0 eq_refl). pose proof (H (S c) Hc). lia. }
      clear H. induction l as [|b' l IH]; simpl; [reflexivity|].
      destruct b'; [destruct (H' 0 eq_refl)|].
      apply IH. intros c Hc. exact (H' (S c) Hc). }
    rewrite E. simpl. lia.
  - apply (IH (pred k)). intros c Hc. pose proof (H (S c) Hc). lia.
Qed.

(** X30. Whatever the sequence of initialisations, device changes and
    restarts, each run to its end, at most one AudioContext is open, and an
    open one is the context the helper holds. *)
Theorem at_most_one_open_audio_context (es : list Event) (container : bool) :
  open_contexts (run es (constructed container)) <= 1
  /\ forall c, nth_error (contexts (run es (constructed container))) c = Some true ->
               audioContext (run es (constructed container)) = Some c.
Proof.
  assert (H : holds_open (run es (constructed container))).
  { assert (G : forall s, holds_open s -> holds_open (run es s)).
    { induction es as [|e es IH]; intros s Hs; simpl; [exact Hs|].
      apply IH, handle_holds_open, Hs. }
    apply G. intros [|c] Hc; discriminate Hc. }
  split; [|exact H].
  unfold open_contexts.
  destruct (audioContext (run es (constructed container))) as [k|] eqn:E.
  - apply (one_open _ k). intros c Hc. specialize (H c Hc). congruence.
  - apply (one_open _ 0). intros c Hc. specialize (H c Hc). congruence.
Qed.

(** X13. A device change the browser refuses stops the monitoring and leaves
    the stream for recording as it was: the context in use is closed and
    none is opened, the level text reports the refusal, and the next
    recording still runs on the stream of the device chosen before. *)
Theorem refused_device_change_keeps_stream (value : jstring) (s : State) :
  holds_open s ->
  let s' := deviceChanged value false s in
  currentStream s' = currentStream s
  /\ open_contexts s' = 0
  /\ audioContext s' = audioContext s
  /\ accessDenied s' = true
  /\ selectedDeviceId s' = (if nonempty value then Some value else None)
  /\ granted s' = granted s.
Proof.
  intros H s'. subst s'. unfold deviceChanged.
  match goal with
  | |- context [restartAudioMonitoring false ?t] => set (s0 := t)
  end.
  assert (H0 : holds_open s0) by exact H.
  unfold restartAudioMonitoring. simpl. repeat split.
  unfold open_contexts. simpl.
  rewrite (none_open (close s0) (close_closes s0 H0)). reflexivity.
Qed.

End Monitoring.

Lemma refused_device_change_keeps_stream_witness :
  let s := Monitor.run [Monitor.Initialize true (Some []) true] (Monitor.constructed true) in
  Monitor.currentStream (Monitor.deviceChanged (lit "usb-mic") false s) = Some 1
  /\ Monitor.open_contexts (Monitor.deviceChanged (lit "usb-mic") false s) = 0.
Proof.
  intros s.
  refine (let H := refused_device_change_keeps_stream (lit "usb-mic") s _ in
          conj (proj1 H) (proj1 (proj2 H))).
  intros [|[|c]] Hc; try reflexivity; discriminate Hc.
Defined.
